(** * excelize_ch: rows, row iterator, shared strings and data validation

    A shallow embedding of [rows.go] (the streaming row iterator and
    [GetRows], the shared-string offset index, the row getters and
    setters, the row mutation engine and the normalization of rows) and
    of [datavalidation.go] (the setters of a [DataValidation] and the
    escaping of its formulas), together with the properties of these
    functions.

    Conventions of the embedding:
    - a Go [string] is a sequence of bytes: Rocq's [string];
    - a Go [int] is a 64-bit two's-complement integer: a [Z] with the
      wrap-around of [+] and [-] written out ([GoInt.add], [GoInt.sub]);
      slice lengths and indices are bounded by memory and are plain
      naturals;
    - a Go [error] is an [option error], [None] being [nil];
    - a method with a pointer receiver that mutates it takes the receiver
      and returns it next to its results. *)

From Stdlib Require Import ZArith Lia String Ascii List Bool.
From stdpp Require Import base option list strings gmap.

Local Open Scope string_scope.
Local Open Scope list_scope.
Local Open Scope Z_scope.

(** ** Go integers *)

Module GoInt.

Definition MinInt : Z := - 2 ^ 63.
Definition MaxInt : Z := 2 ^ 63 - 1.

(** Two's-complement wrap-around of a 64-bit signed integer. *)
Definition wrap (z : Z) : Z := (z + 2 ^ 63) mod 2 ^ 64 - 2 ^ 63.

Definition add (a b : Z) : Z := wrap (a + b).
Definition sub (a b : Z) : Z := wrap (a - b).

(** [x++] *)
Definition incr (a : Z) : Z := add a 1.

Definition inRange (z : Z) : Prop := MinInt <= z <= MaxInt.

(** Wrap-around of a 64-bit unsigned integer ([uint]). *)
Definition uwrap (z : Z) : Z := z mod 2 ^ 64.
Definition uadd (a b : Z) : Z := uwrap (a + b).
Definition usub (a b : Z) : Z := uwrap (a - b).

End GoInt.

Global Arguments GoInt.wrap : simpl never.
Global Arguments GoInt.uwrap : simpl never.
Global Arguments GoInt.add : simpl never.
Global Arguments GoInt.sub : simpl never.
Global Arguments GoInt.incr : simpl never.
Global Arguments GoInt.uadd : simpl never.
Global Arguments GoInt.usub : simpl never.

(** ** Errors *)

Inductive error : Type :=
| ErrInvalidRowNumber (row : Z)          (* newInvalidRowNumberError(row) *)
| ErrMaxRows
| ErrParameterInvalid
| ErrSheetNotExist (sheet : string)
| ErrColumnNumber
| ErrInvalidCellName (cell : string)     (* newCellNameToCoordinatesError *)
| ErrInvalidCoordinates (col row : Z)    (* "invalid cell reference [c, r]" *)
| ErrDataValidationFormulaLength
| ErrSyntax                              (* strconv.ErrSyntax *)
| ErrRange.                              (* strconv.ErrRange *)

Global Instance error_eq_dec : EqDecision error.
Proof. solve_decision. Defined.

(** What a call comes to: a returned value, or a run-time panic (an
    index or a length out of range). *)
Inductive outcome (A : Type) : Type :=
| Returned (a : A)
| Panic.

Arguments Returned {A} _.
Arguments Panic {A}.

(** ** Strings: the parts of [strings], [strconv], [unicode/utf8] and
    [unicode/utf16] the code calls *)

Module GoString.

Definition byteZ (a : ascii) : Z := Z.of_N (N_of_ascii a).
Definition chr (z : Z) : ascii := ascii_of_N (Z.to_N z).

(** The one-character string whose byte is [z]. *)
Definition str1 (z : Z) : string := String (chr z) EmptyString.

Definition quote : string := str1 34.

(** [strings.Join(elems, sep)] *)
Fixpoint Join (elems : list string) (sep : string) : string :=
  match elems with
  | [] => EmptyString
  | [e] => e
  | e :: rest => e +:+ sep +:+ Join rest sep
  end.

(** [strings.HasPrefix(s, prefix)] *)
Definition HasPrefix (s p : string) : bool := String.prefix p s.

(** A [strings.Replacer] all of whose old strings are one byte long:
    every byte of the argument is replaced on its own. *)
Fixpoint replaceBytes (f : ascii -> option string) (s : string) : string :=
  match s with
  | EmptyString => EmptyString
  | String a t =>
      match f a with
      | Some r => r +:+ replaceBytes f t
      | None => String a (replaceBytes f t)
      end
  end.

Definition RuneError : Z := 65533.        (* U+FFFD *)

Definition cont (b : Z) : bool := (128 <=? b) && (b <=? 191).
Definition within (lo hi b : Z) : bool := (lo <=? b) && (b <=? hi).

(** The accept range of the second byte of a multi-byte sequence, by
    its first byte ([unicode/utf8]'s [acceptRanges]). *)
Definition acceptLo (b0 : Z) : Z :=
  if b0 =? 224 then 160 else if b0 =? 240 then 144 else 128.
Definition acceptHi (b0 : Z) : Z :=
  if b0 =? 237 then 159 else if b0 =? 244 then 143 else 191.

(** [[]rune(s)]: UTF-8 decoding; a byte that starts no valid sequence
    decodes to [RuneError] and is one byte wide. *)
Fixpoint runes (s : string) : list Z :=
  match s with
  | EmptyString => []
  | String a t =>
      let b0 := byteZ a in
      if b0 <? 128 then b0 :: runes t
      else if within 194 223 b0 then
        match t with
        | String a1 t1 =>
            let b1 := byteZ a1 in
            if cont b1
            then (Z.land b0 31 * 64 + Z.land b1 63) :: runes t1
            else RuneError :: runes t
        | EmptyString => RuneError :: runes t
        end
      else if within 224 239 b0 then
        match t with
        | String a1 (String a2 t2) =>
            let b1 := byteZ a1 in
            let b2 := byteZ a2 in
            if within (acceptLo b0) (acceptHi b0) b1 && cont b2
            then (Z.land b0 15 * 4096 + Z.land b1 63 * 64 + Z.land b2 63)
                   :: runes t2
            else RuneError :: runes t
        | _ => RuneError :: runes t
        end
      else if within 240 244 b0 then
        match t with
        | String a1 (String a2 (String a3 t3)) =>
            let b1 := byteZ a1 in
            let b2 := byteZ a2 in
            let b3 := byteZ a3 in
            if within (acceptLo b0) (acceptHi b0) b1 && cont b2 && cont b3
            then (Z.land b0 7 * 262144 + Z.land b1 63 * 4096
                  + Z.land b2 63 * 64 + Z.land b3 63) :: runes t3
            else RuneError :: runes t
        | _ => RuneError :: runes t
        end
      else RuneError :: runes t
  end.

(** [utf16.Encode]: a rune of a supplementary plane takes a surrogate
    pair, a surrogate or out-of-range rune becomes U+FFFD. *)
Definition encodeRune (v : Z) : list Z :=
  if within 65536 1114111 v then
    [55296 + Z.land (Z.shiftr (v - 65536) 10) 1023;
     56320 + Z.land (v - 65536) 1023]
  else if within 0 55295 v || within 57344 65535 v then [v]
  else [RuneError].

Definition utf16Encode (rs : list Z) : list Z := concat (map encodeRune rs).

(** Decimal digits of a non-negative number, most significant first. *)
Fixpoint digits (fuel : nat) (n : Z) (acc : string) : string :=
  match fuel with
  | O => acc
  | S f =>
      let acc' := String (chr (48 + n mod 10)) acc in
      if n <? 10 then acc' else digits f (n / 10) acc'
  end.

(** [strconv.Itoa] *)
Definition Itoa (z : Z) : string :=
  if z <? 0
  then String "-" (digits (S (Z.to_nat (Z.log2 (- z)))) (- z) EmptyString)
  else digits (S (Z.to_nat (Z.log2 z))) z EmptyString.

End GoString.

(** ** datavalidation.go *)

Module DataValidations.
Import GoString.

(** The limit of a field, in UTF-16 code units: [SetDropList]'s own
    documentation gives it as 255 characters. *)
Definition MaxFieldLength : Z := 255.

Inductive DataValidationType : Type :=
| DataValidationTypeNone
| DataValidationTypeCustom
| DataValidationTypeDate
| DataValidationTypeDecimal
| DataValidationTypeList
| DataValidationTypeTextLength
| DataValidationTypeTime
| DataValidationTypeWhole.

Definition dataValidationTypeMap (t : DataValidationType) : string :=
  match t with
  | DataValidationTypeNone => "none"
  | DataValidationTypeCustom => "custom"
  | DataValidationTypeDate => "date"
  | DataValidationTypeDecimal => "decimal"
  | DataValidationTypeList => "list"
  | DataValidationTypeTextLength => "textLength"
  | DataValidationTypeTime => "time"
  | DataValidationTypeWhole => "whole"
  end.

(** The fields of [DataValidation] that datavalidation.go reads and
    writes; a [*string] is an [option string]. *)
Record DataValidation : Type := mkDataValidation {
  AllowBlank : bool;
  Error : option string;
  ErrorStyle : option string;
  ErrorTitle : option string;
  Operator : string;
  Prompt : option string;
  PromptTitle : option string;
  ShowDropDown : bool;
  ShowErrorMessage : bool;
  ShowInputMessage : bool;
  Sqref : string;
  Type_ : string;
  Formula1 : string;
  Formula2 : string
}.

Definition NewDataValidation (allowBlank : bool) : DataValidation :=
  {| AllowBlank := allowBlank; Error := None; ErrorStyle := None;
     ErrorTitle := None; Operator := ""; Prompt := None;
     PromptTitle := None; ShowDropDown := false;
     ShowErrorMessage := false; ShowInputMessage := false;
     Sqref := ""; Type_ := ""; Formula1 := ""; Formula2 := "" |}.

Definition setType (dv : DataValidation) (t : string) : DataValidation :=
  {| AllowBlank := AllowBlank dv; Error := Error dv;
     ErrorStyle := ErrorStyle dv; ErrorTitle := ErrorTitle dv;
     Operator := Operator dv; Prompt := Prompt dv;
     PromptTitle := PromptTitle dv; ShowDropDown := ShowDropDown dv;
     ShowErrorMessage := ShowErrorMessage dv;
     ShowInputMessage := ShowInputMessage dv;
     Sqref := Sqref dv; Type_ := t; Formula1 := Formula1 dv;
     Formula2 := Formula2 dv |}.

Definition setFormula1 (dv : DataValidation) (f : string) : DataValidation :=
  {| AllowBlank := AllowBlank dv; Error := Error dv;
     ErrorStyle := ErrorStyle dv; ErrorTitle := ErrorTitle dv;
     Operator := Operator dv; Prompt := Prompt dv;
     PromptTitle := PromptTitle dv; ShowDropDown := ShowDropDown dv;
     ShowErrorMessage := ShowErrorMessage dv;
     ShowInputMessage := ShowInputMessage dv;
     Sqref := Sqref dv; Type_ := Type_ dv; Formula1 := f;
     Formula2 := Formula2 dv |}.

(** [formulaEscaper]: [&], [<] and [>] to their entities. *)
Definition formulaEscaper (s : string) : string :=
  replaceBytes
    (fun a =>
       if byteZ a =? 38 then Some "&amp;"
       else if byteZ a =? 60 then Some "&lt;"
       else if byteZ a =? 62 then Some "&gt;"
       else None) s.

(** [strings.NewReplacer] of a double quote by two of them. *)
Definition doubleQuotes (s : string) : string :=
  replaceBytes
    (fun a => if byteZ a =? 34 then Some (quote +:+ quote) else None) s.

(** [len(utf16.Encode([]rune(s)))] *)
Definition utf16Len (s : string) : Z :=
  Z.of_nat (length (utf16Encode (runes s))).

Definition SetDropList (dv : DataValidation) (keys : list string)
  : DataValidation * option error :=
  let formula := Join keys "," in
  if MaxFieldLength <? utf16Len formula then
    (dv, Some ErrDataValidationFormulaLength)
  else
    let dv := setType dv (dataValidationTypeMap DataValidationTypeList) in
    if HasPrefix formula "=" then
      (setFormula1 dv (formulaEscaper formula), None)
    else
      (setFormula1 dv
         (quote +:+ doubleQuotes (formulaEscaper formula) +:+ quote), None).

(** [DataValidation.SetSqref] *)
Definition SetSqref (dv : DataValidation) (sqref : string) : DataValidation :=
  let set (v : string) :=
    {| AllowBlank := AllowBlank dv; Error := Error dv;
       ErrorStyle := ErrorStyle dv; ErrorTitle := ErrorTitle dv;
       Operator := Operator dv; Prompt := Prompt dv;
       PromptTitle := PromptTitle dv; ShowDropDown := ShowDropDown dv;
       ShowErrorMessage := ShowErrorMessage dv;
       ShowInputMessage := ShowInputMessage dv;
       Sqref := v; Type_ := Type_ dv; Formula1 := Formula1 dv;
       Formula2 := Formula2 dv |} in
  if String.eqb (Sqref dv) EmptyString then set sqref
  else set (Sqref dv +:+ " " +:+ sqref).

(** [DataValidation.SetSqrefDropList] *)
Definition SetSqrefDropList (dv : DataValidation) (sqref : string)
  : DataValidation :=
  setType (setFormula1 dv sqref) (dataValidationTypeMap DataValidationTypeList).

(** Every byte of the string is below 128. *)
Fixpoint isASCII (s : string) : bool :=
  match s with
  | EmptyString => true
  | String a t => (byteZ a <? 128) && isASCII t
  end.

(** Every byte of the string is a double quote. *)
Fixpoint allQuotes (s : string) : bool :=
  match s with
  | EmptyString => true
  | String a t => (byteZ a =? 34) && allQuotes t
  end.

(** [strings.HasPrefix(s, old)] with what follows [old] in [s]. *)
Fixpoint stripPrefix (old s : string) : option string :=
  match old, s with
  | EmptyString, _ => Some s
  | String a old, String b s =>
      if Ascii.eqb a b then stripPrefix old s else None
  | String _ _, EmptyString => None
  end.

(** The first pair of a [strings.Replacer] whose old string starts
    [s], with what follows it in [s]. *)
Fixpoint firstMatch (pairs : list (string * string)) (s : string)
  : option (string * string) :=
  match pairs with
  | [] => None
  | (old, new) :: rest =>
      match stripPrefix old s with
      | Some t => Some (new, t)
      | None => firstMatch rest s
      end
  end.

(** [strings.NewReplacer(pairs...).Replace(s)] for old strings that are
    not empty and none of which starts another: at each position the
    old string found there is replaced and skipped, else the byte is
    copied. [fuel] bounds the bytes still to read. *)
Fixpoint replaceAll (fuel : nat) (pairs : list (string * string)) (s : string)
  : string :=
  match fuel with
  | O => s
  | Datatypes.S fuel =>
      match s with
      | EmptyString => EmptyString
      | String a t =>
          match firstMatch pairs s with
          | Some (new, rest) => new +:+ replaceAll fuel pairs rest
          | None => String a (replaceAll fuel pairs t)
          end
      end
  end.

(** [formulaUnescaper.Replace] *)
Definition formulaUnescaper (s : string) : string :=
  replaceAll (String.length s)
    [("&amp;", "&"); ("&lt;", "<"); ("&gt;", ">")] s.

(** [unescapeDataValidationFormula] *)
Definition unescapeDataValidationFormula (val : string) : string :=
  if HasPrefix val quote
  then replaceAll (String.length (formulaUnescaper val))
         [(quote +:+ quote, quote)] (formulaUnescaper val)
  else formulaUnescaper val.

End DataValidations.


(** ** strconv.Atoi and the attribute readers *)

Module Strconv.
Import GoString.

Definition isDigit (a : ascii) : bool := within 48 57 (byteZ a).

(** The value of a string of decimal digits, [None] if a byte is not a
    digit. *)
Fixpoint decimalValue (s : string) (acc : Z) : option Z :=
  match s with
  | EmptyString => Some acc
  | String a t =>
      if isDigit a then decimalValue t (acc * 10 + (byteZ a - 48)) else None
  end.

Definition maxUint64 : Z := 2 ^ 64 - 1.

(** The loop of [strconv.ParseUint(s, 10, 0)] over the bytes of [s], [n]
    the [uint64] read so far. A byte that is not a decimal digit ends it
    with 0 and a syntax error; a digit that takes the number past
    [maxUint64] ends it, at that digit, with [maxUint64] and a range
    error, whatever follows. *)
Fixpoint parseUintFrom (s : string) (n : Z) : Z * option error :=
  match s with
  | EmptyString => (n, None)
  | String c t =>
      if isDigit c then
        if maxUint64 / 10 + 1 <=? n then (maxUint64, Some ErrRange)
        else
          let n1 := n * 10 + (byteZ c - 48) in
          if maxUint64 <? n1 then (maxUint64, Some ErrRange)
          else parseUintFrom t n1
      else (0, Some ErrSyntax)
  end.

(** [strconv.ParseUint(s, 10, 0)] *)
Definition ParseUint (s : string) : Z * option error :=
  match s with
  | EmptyString => (0, Some ErrSyntax)
  | _ => parseUintFrom s 0
  end.

(** [strconv.ParseInt(s, 10, 0)] with a 64-bit [int]: the sign is picked
    off, the rest read by [ParseUint]; a syntax error gives 0, and a
    number outside [int] the nearest bound and a range error. *)
Definition ParseInt (s : string) : Z * option error :=
  match s with
  | EmptyString => (0, Some ErrSyntax)
  | String a t =>
      let '(neg, s) :=
        if byteZ a =? 43 then (false, t)
        else if byteZ a =? 45 then (true, t)
        else (false, s) in
      match ParseUint s with
      | (_, Some ErrRange) as r | (_, None) as r =>
          let un := fst r in
          let cutoff := 2 ^ 63 in
          if negb neg && (cutoff <=? un) then (cutoff - 1, Some ErrRange)
          else if neg && (cutoff <? un) then (- cutoff, Some ErrRange)
          else (if neg then - un else un, None)
      | (_, Some e) => (0, Some e)
      end
  end.

(** [strconv.Atoi] with a 64-bit [int]. A string of 1 to 18 bytes takes
    the fast path: an optional sign and decimal digits, which stay below
    10^18 and so never wrap; any other string goes through [ParseInt]. *)
Definition Atoi (s : string) : Z * option error :=
  let sLen := Z.of_nat (String.length s) in
  if (0 <? sLen) && (sLen <? 19) then
    match s with
    | EmptyString => (0, Some ErrSyntax)
    | String a t =>
        let signed := (byteZ a =? 45) || (byteZ a =? 43) in
        if signed && (Z.of_nat (String.length t) <? 1) then (0, Some ErrSyntax)
        else
          match decimalValue (if signed then t else s) 0 with
          | None => (0, Some ErrSyntax)
          | Some n => (if byteZ a =? 45 then - n else n, None)
          end
    end
  else ParseInt s.

End Strconv.

(** ** The coordinate codec (lib.go) *)

Module Coordinates.
Import GoString Strconv.

(** Modelled from the spec: the constants [TotalRows] and [MaxColumns]
    are declared outside src/. The spec bounds a cell coordinate "by
    fixed maxima (max columns, max rows)" and names no value; they are
    set to the limits of the file format. *)
Definition TotalRows : Z := 1048576.
Definition MaxColumns : Z := 16384.

Definition isUpper (a : ascii) : bool := within 65 90 (byteZ a).

Fixpoint columnLetters (fuel : nat) (num : Z) (acc : string) : string :=
  match fuel with
  | O => acc
  | S f =>
      if num <=? 0 then acc
      else columnLetters f ((num - 1) / 26)
             (String (chr (65 + (num - 1) mod 26)) acc)
  end.

(** Modelled from the spec: [ColumnNumberToName] is declared outside
    src/. "Column encoding is base-26 over letters A-Z with no
    representable zero digit (A=1 ... Z=26, AA=27 ...)"; it "fails if
    col/row <= 0 or exceed maxima". *)
Definition ColumnNumberToName (num : Z) : string * option error :=
  if (num <? 1) || (MaxColumns <? num) then (EmptyString, Some ErrColumnNumber)
  else (columnLetters (S (Z.to_nat (Z.log2 num))) num EmptyString, None).

Fixpoint columnValue (name : string) (acc : Z) : option Z :=
  match name with
  | EmptyString => Some acc
  | String a t =>
      if isUpper a then columnValue t (acc * 26 + (byteZ a - 64)) else None
  end.

(** Modelled from the spec: [ColumnNameToNumber] is declared outside
    src/. "decoding must invert this exactly"; it "fails on malformed
    letters/digits or out-of-range values". *)
Definition ColumnNameToNumber (name : string) : Z * option error :=
  match name with
  | EmptyString => (-1, Some ErrColumnNumber)
  | _ =>
      match columnValue name 0 with
      | None => (-1, Some ErrColumnNumber)
      | Some col =>
          if MaxColumns <? col then (-1, Some ErrColumnNumber)
          else (col, None)
      end
  end.

(** The letters a reference starts with, and what follows them. *)
Fixpoint splitLetters (s : string) : string * string :=
  match s with
  | EmptyString => (EmptyString, EmptyString)
  | String a t =>
      if isUpper a
      then let '(l, r) := splitLetters t in (String a l, r)
      else (EmptyString, s)
  end.

(** Modelled from the spec: [CellNameToCoordinates] is declared outside
    src/. "referenceToCoordinates(ref) -> (col, row) (fails on malformed
    letters/digits or out-of-range values)", the reference being in
    "canonical textual form (letters for column, digits for row)". *)
Definition CellNameToCoordinates (cell : string) : Z * Z * option error :=
  let '(colName, rowStr) := splitLetters cell in
  match rowStr with
  | EmptyString => (-1, -1, Some (ErrInvalidCellName cell))
  | _ =>
      match decimalValue rowStr 0 with
      | None => (-1, -1, Some (ErrInvalidCellName cell))
      | Some row =>
          if row <? 1 then (-1, -1, Some (ErrInvalidCellName cell))
          else if TotalRows <? row then (-1, -1, Some ErrMaxRows)
          else
            match ColumnNameToNumber colName with
            | (col, None) => (col, row, None)
            | (_, Some e) => (-1, -1, Some e)
            end
      end
  end.

(** Modelled from the spec: [CoordinatesToCellName] is declared outside
    src/. "coordinatesToReference(col, row) -> CellReference (fails if
    col/row <= 0 or exceed maxima)". *)
Definition CoordinatesToCellName (col row : Z) : string * option error :=
  if (col <? 1) || (row <? 1)
  then (EmptyString, Some (ErrInvalidCoordinates col row))
  else if TotalRows <? row then (EmptyString, Some ErrMaxRows)
  else
    match ColumnNumberToName col with
    | (colName, None) => (colName +:+ Itoa row, None)
    | (_, Some e) => (EmptyString, Some e)
    end.

(** What stands before the first colon of a string, and what stands
    after it ([None] if there is no colon). *)
Fixpoint splitColon (s : string) : string * option string :=
  match s with
  | EmptyString => (EmptyString, None)
  | String a t =>
      if byteZ a =? 58 then (EmptyString, Some t)
      else let '(l, r) := splitColon t in (String a l, r)
  end.

(** Modelled from the spec: [rangeRefToCoordinates] is declared outside
    src/. "rangeToCoordinates ... for two-corner ranges": the two
    corners of [first:last], as [x1, y1, x2, y2]. *)
Definition rangeRefToCoordinates (ref : string)
  : (Z * Z * Z * Z) * option error :=
  match splitColon ref with
  | (_, None) => ((0, 0, 0, 0), Some ErrParameterInvalid)
  | (first, Some last) =>
      match CellNameToCoordinates first with
      | (_, _, Some e) => ((0, 0, 0, 0), Some e)
      | (x1, y1, None) =>
          match CellNameToCoordinates last with
          | (_, _, Some e) => ((x1, y1, 0, 0), Some e)
          | (x2, y2, None) => ((x1, y1, x2, y2), None)
          end
      end
  end.

End Coordinates.


(** ** Cells *)

Module Cell.

(** [xlsxF], the formula of a cell: its text and the range it is shared
    over. *)
Record xlsxF : Type := mkF { Content : string; Ref : string }.

(** Modelled from the spec: the type [xlsxC] is declared outside src/.
    "Cell: owns a CellReference, an optional style identifier, and a
    value that is one of {inline literal, shared-string index, formula
    text with optional cached result}": the fields [R], [S] and [F] the
    code reads and writes, the type [T] and the stored value [V]. [F] is
    a pointer ([*xlsxF]) and [P] is what stands for it: the formula
    itself where a cell is freshly decoded and shared with nobody (the
    row iterator), a location of the store where cells are copied and
    mutated in place (the worksheet). *)
Record xlsxC (P : Type) : Type := mkC {
  R : string;
  S : Z;
  T : string;
  V : string;
  F : option P
}.

Arguments mkC {P} _ _ _ _ _.
Arguments R {P} _.
Arguments S {P} _.
Arguments T {P} _.
Arguments V {P} _.
Arguments F {P} _.

(** [xlsxC{}] *)
Definition zero {P : Type} : xlsxC P := mkC EmptyString 0 EmptyString EmptyString None.

(** [xlsxC{R: cellName}] *)
Definition named {P : Type} (cellName : string) : xlsxC P :=
  mkC cellName 0 EmptyString EmptyString None.

Definition setR {P : Type} (c : xlsxC P) (r : string) : xlsxC P :=
  mkC r (S c) (T c) (V c) (F c).

End Cell.

(** ** The row iterator (rows.go: [Rows], [Next], [Columns]) *)

Module Stream.
Import GoString Strconv Coordinates.
Abbreviation xlsxC := Cell.xlsxC.
Abbreviation xlsxF := Cell.xlsxF.

(** [xml.Attr]: the local name and the value of an attribute. *)
Record Attr : Type := mkAttr { Name : string; Value : string }.

(** [xml.Token], as the decoder of a worksheet part delivers it. The
    start tag of a [c] element comes as [CellElement]: [rowXMLHandler]
    hands it to [DecodeElement] at once, which reads the element to its
    end tag, so that the tokens inside it are never seen on their own;
    [colCell] is the [xlsxC] that [DecodeElement] fills from it. Every
    other start tag is a [StartElement]. *)
Inductive Token : Type :=
| StartElement (name : string) (attrs : list Attr)
| EndElement (name : string)
| CharData (data : string)
| CellElement (colCell : xlsxC xlsxF).

(** [xmlElement.Name.Local] of a start tag. *)
Definition localName (t : Token) : string :=
  match t with
  | StartElement name _ => name
  | EndElement name => name
  | CharData _ => EmptyString
  | CellElement _ => "c"
  end.

(** [decoder.DecodeElement(&colCell, xmlElement)] on [colCell := xlsxC{}]. *)
Definition DecodeElement (t : Token) : xlsxC xlsxF :=
  match t with
  | CellElement colCell => colCell
  | _ => Cell.zero
  end.

Fixpoint attrValToIntFrom (name : string) (attrs : list Attr) (val : Z)
  : Z * option error :=
  match attrs with
  | [] => (val, None)
  | attr :: rest =>
      if String.eqb (Name attr) name then
        match Atoi (Value attr) with
        | (v, Some e) => (v, Some e)
        | (v, None) => attrValToIntFrom name rest v
        end
      else attrValToIntFrom name rest val
  end.

(** Modelled from the spec: [attrValToInt] is declared outside src/.
    "the row number is taken from an explicit attribute if present":
    the value of the attribute of that name as [strconv.Atoi] reads it,
    0 where there is none. *)
Definition attrValToInt (name : string) (attrs : list Attr) : Z * option error :=
  attrValToIntFrom name attrs 0.

(** [appendSpace]: [for i := 1; i < l; i++ { s = append(s, "") }]. *)
Definition appendSpace (l : Z) (s : list string) : list string :=
  s ++ replicate (Z.to_nat (l - 1)) EmptyString.

(** [rowXMLIterator] *)
Record rowXMLIterator : Type := mkIterator {
  err : option error;
  inElement : string;
  cellCol : Z;
  cellRow : Z;
  cells : list string
}.

(** [var rowIterator rowXMLIterator] *)
Definition newIterator : rowXMLIterator :=
  mkIterator None EmptyString 0 0 [].

Definition setErr (it : rowXMLIterator) (e : option error) : rowXMLIterator :=
  mkIterator e (inElement it) (cellCol it) (cellRow it) (cells it).
Definition setInElement (it : rowXMLIterator) (n : string) : rowXMLIterator :=
  mkIterator (err it) n (cellCol it) (cellRow it) (cells it).
Definition setCellCol (it : rowXMLIterator) (c : Z) : rowXMLIterator :=
  mkIterator (err it) (inElement it) c (cellRow it) (cells it).
Definition setCells (it : rowXMLIterator) (cs : list string) : rowXMLIterator :=
  mkIterator (err it) (inElement it) (cellCol it) (cellRow it) cs.

(** No token of the stream is the start tag of a row. *)
Definition noRowStart (tokens : list Token) : Prop :=
  Forall (fun t => forall attrs, t <> StartElement "row" attrs) tokens.

(** The row numbers of a stream ascend from [cur] on: a row start with
    an explicit number has one greater than the number of the row
    before it ([cur] for the first); a row start without one takes the
    next number. *)
Fixpoint ascending (cur : Z) (tokens : list Token) : Prop :=
  match tokens with
  | [] => True
  | StartElement name attrs :: rest =>
      if String.eqb name "row" then
        if fst (attrValToInt "r" attrs) =? 0
        then ascending (GoInt.incr cur) rest
        else cur < fst (attrValToInt "r" attrs)
             /\ ascending (fst (attrValToInt "r" attrs)) rest
      else ascending cur rest
  | _ :: rest => ascending cur rest
  end.

Section Iterator.

(** [RowOpts] and [extractRowOpts] are carried as they are: the row
    options are stored and handed out, never inspected. *)
Context {RowOpts : Type}.
Variable extractRowOpts : list Attr -> RowOpts.

(** The error of [rows.f.sharedStringsReader()]. *)
Variable sharedStringsReader : option error.

(** [colCell.getValueFrom(rows.f, rows.sst, raw)], declared outside
    src/: the resolved value of a cell, in raw mode or not. *)
Variable getValueFrom : xlsxC xlsxF -> bool -> string.

(** [Rows]; [decoder] is what the decoder has yet to deliver. *)
Record Rows : Type := mkRows {
  curRow : Z;
  seekRow : Z;
  rawCellValue : bool;
  decoder : list Token;
  token : option Token;
  curRowOpts : RowOpts;
  seekRowOpts : RowOpts
}.

Definition setCurRow (rows : Rows) (n : Z) : Rows :=
  mkRows n (seekRow rows) (rawCellValue rows) (decoder rows) (token rows)
    (curRowOpts rows) (seekRowOpts rows).
Definition setSeekRow (rows : Rows) (n : Z) : Rows :=
  mkRows (curRow rows) n (rawCellValue rows) (decoder rows) (token rows)
    (curRowOpts rows) (seekRowOpts rows).
Definition setRawCellValue (rows : Rows) (b : bool) : Rows :=
  mkRows (curRow rows) (seekRow rows) b (decoder rows) (token rows)
    (curRowOpts rows) (seekRowOpts rows).
Definition setDecoder (rows : Rows) (d : list Token) : Rows :=
  mkRows (curRow rows) (seekRow rows) (rawCellValue rows) d (token rows)
    (curRowOpts rows) (seekRowOpts rows).
Definition setToken (rows : Rows) (t : option Token) : Rows :=
  mkRows (curRow rows) (seekRow rows) (rawCellValue rows) (decoder rows) t
    (curRowOpts rows) (seekRowOpts rows).
Definition setCurRowOpts (rows : Rows) (o : RowOpts) : Rows :=
  mkRows (curRow rows) (seekRow rows) (rawCellValue rows) (decoder rows)
    (token rows) o (seekRowOpts rows).
Definition setSeekRowOpts (rows : Rows) (o : RowOpts) : Rows :=
  mkRows (curRow rows) (seekRow rows) (rawCellValue rows) (decoder rows)
    (token rows) (curRowOpts rows) o.

(** [rows := Rows{f: f, sheet: name}] with its decoder: the state
    [File.Rows] returns; [noOpts] is [RowOpts{}]. *)
Definition newRows (noOpts : RowOpts) (tokens : list Token) : Rows :=
  mkRows 0 0 false tokens None noOpts noOpts.

(** The [for] loop of [Next]: [tokens] is what the decoder has yet to
    deliver; [rows.decoder.Token()] is [nil] once it is used up. *)
Fixpoint nextLoop (tokens : list Token) (rows : Rows) : Rows * bool :=
  match tokens with
  | [] => (setDecoder rows [], false)
  | tok :: rest =>
      match tok with
      | StartElement name attrs =>
          if String.eqb name "row" then
            let rows := setDecoder rows rest in
            let rows := setCurRow rows (GoInt.incr (curRow rows)) in
            let rowNum := fst (attrValToInt "r" attrs) in
            let rows := if rowNum =? 0 then rows else setCurRow rows rowNum in
            let rows := setToken rows (Some tok) in
            let rows := setCurRowOpts rows (extractRowOpts attrs) in
            (rows, true)
          else nextLoop rest rows
      | EndElement name =>
          if String.eqb name "sheetData" then (setDecoder rows rest, false)
          else nextLoop rest rows
      | _ => nextLoop rest rows
      end
  end.

(** [Rows.Next] *)
Definition Next (rows : Rows) : Rows * bool :=
  let rows := setSeekRow rows (GoInt.incr (seekRow rows)) in
  if seekRow rows <=? curRow rows then
    (setCurRowOpts rows (seekRowOpts rows), true)
  else nextLoop (decoder rows) rows.

(** The end of [rowXMLHandler]: the padding and the value of a cell
    that has one. *)
Definition appendCell (it : rowXMLIterator) (colCell : xlsxC xlsxF)
    (raw : bool) : rowXMLIterator :=
  let blank := GoInt.sub (cellCol it) (Z.of_nat (length (cells it))) in
  let val := getValueFrom colCell raw in
  if negb (String.eqb val EmptyString) || bool_decide (is_Some (Cell.F colCell))
  then setCells it (appendSpace blank (cells it) ++ [val])
  else it.

(** [Rows.rowXMLHandler] *)
Definition rowXMLHandler (it : rowXMLIterator) (xmlElement : Token)
    (raw : bool) : rowXMLIterator :=
  if String.eqb (inElement it) "c" then
    let it := setCellCol it (GoInt.incr (cellCol it)) in
    let colCell := DecodeElement xmlElement in
    if String.eqb (Cell.R colCell) EmptyString then appendCell it colCell raw
    else
      let '(col, _, e) := CellNameToCoordinates (Cell.R colCell) in
      let it := setErr (setCellCol it col) e in
      match e with
      | Some _ => it
      | None => appendCell it colCell raw
      end
  else it.

(** The body of the [for] loop of [Columns] on one token: [inl] to go
    round the loop again, [inr] for a [return]. *)
Definition columnsToken (tok : Token) (rows : Rows) (it : rowXMLIterator)
  : (Rows * rowXMLIterator) + (Rows * list string * option error) :=
  match tok with
  | StartElement _ _ | CellElement _ =>
      let it := setInElement it (localName tok) in
      let step :=
        match tok with
        | StartElement name attrs =>
            if String.eqb (inElement it) "row" then
              let '(rowNum, e) := attrValToInt "r" attrs in
              let it := setErr it e in
              let rows :=
                if negb (rowNum =? 0) then setCurRow rows rowNum
                else if bool_decide (token rows = None)
                     then setCurRow rows (GoInt.incr (curRow rows))
                     else rows in
              let rows := setToken rows (Some tok) in
              let rows := setSeekRowOpts rows (extractRowOpts attrs) in
              if seekRow rows <? curRow rows
              then inr (setToken rows None, cells it, err it)
              else inl (rows, it)
            else inl (rows, it)
        | _ => inl (rows, it)
        end in
      match step with
      | inr res => inr res
      | inl (rows, it) =>
          let it := rowXMLHandler it tok (rawCellValue rows) in
          match err it with
          | Some _ => inr (setToken rows None, cells it, err it)
          | None => inl (setToken rows None, it)
          end
      end
  | EndElement name =>
      if String.eqb name "sheetData" then inr (rows, cells it, err it)
      else inl (rows, it)
  | CharData _ => inl (rows, it)
  end.

(** The [for] loop of [Columns] once [rows.token] is [nil]. *)
Fixpoint columnsLoop (tokens : list Token) (rows : Rows) (it : rowXMLIterator)
  : Rows * list string * option error :=
  match tokens with
  | [] => (setDecoder rows [], cells it, err it)
  | tok :: rest =>
      match columnsToken tok (setDecoder rows rest) it with
      | inl (rows, it) => columnsLoop rest rows it
      | inr res => res
      end
  end.

(** [Rows.Columns]; [raw] is [getOptions(opts...).RawCellValue]. The
    buffered [rows.token], always the start tag of a row, is served
    first; it is [nil] from then on. *)
Definition Columns (rows : Rows) (raw : bool)
  : Rows * list string * option error :=
  if seekRow rows <? curRow rows then (rows, [], None)
  else
    let rows := setRawCellValue rows raw in
    match sharedStringsReader with
    | Some e => (rows, [], Some e)
    | None =>
        match token rows with
        | Some tok =>
            match columnsToken tok rows newIterator with
            | inl (rows, it) => columnsLoop (decoder rows) rows it
            | inr res => res
            end
        | None => columnsLoop (decoder rows) rows newIterator
        end
    end.

(** *** The row a call of [Columns] serves *)

(** The number of the row a call of [Columns] starts in: the current
    row, or the row of the buffered start tag. *)
Definition servedRow (rows : Rows) : option Z :=
  match token rows with
  | None => Some (curRow rows)
  | Some (StartElement name attrs) =>
      if String.eqb name "row" then
        match attrValToInt "r" attrs with
        | (rowNum, None) => Some (if rowNum =? 0 then curRow rows else rowNum)
        | (_, Some _) => None
        end
      else None
  | Some _ => None
  end.

(** The cells of the row the decoder stands in, while row [cur] is
    sought up to [seek]: the [c] elements up to the end of the stream,
    the end of [sheetData] or the start of a row past [seek]; [None]
    when the row does not end so. *)
Fixpoint rowCells (seek cur : Z) (tokens : list Token)
  : option (list (xlsxC xlsxF)) :=
  match tokens with
  | [] => Some []
  | CellElement colCell :: rest => cons colCell <$> rowCells seek cur rest
  | CharData _ :: rest => rowCells seek cur rest
  | EndElement name :: rest =>
      if String.eqb name "sheetData" then Some [] else rowCells seek cur rest
  | StartElement name attrs :: rest =>
      if String.eqb name "row" then
        match attrValToInt "r" attrs with
        | (rowNum, None) =>
            if seek <? (if rowNum =? 0 then GoInt.incr cur else rowNum)
            then Some [] else None
        | (_, Some _) => None
        end
      else if String.eqb name "c" then None
      else rowCells seek cur rest
  end.

(** The cells among tokens that stay within one row: [None] when a
    row starts or [sheetData] ends among them. *)
Fixpoint cellsWithin (tokens : list Token) : option (list (xlsxC xlsxF)) :=
  match tokens with
  | [] => Some []
  | CellElement colCell :: rest => cons colCell <$> cellsWithin rest
  | CharData _ :: rest => cellsWithin rest
  | EndElement name :: rest =>
      if String.eqb name "sheetData" then None else cellsWithin rest
  | StartElement name _ :: rest =>
      if String.eqb name "row" || String.eqb name "c" then None
      else cellsWithin rest
  end.

(** The columns of cells that come in ascending order of column, the
    first after column [prev]: the column of its reference, the next
    column for a cell that has none. [None] when a reference is none or
    a column does not ascend. *)
Fixpoint cellColumns (prev : Z) (cs : list (xlsxC xlsxF)) : option (list Z) :=
  match cs with
  | [] => Some []
  | c :: rest =>
      let col :=
        if String.eqb (Cell.R c) EmptyString then Some (GoInt.incr prev)
        else
          match CellNameToCoordinates (Cell.R c) with
          | (col, _, None) => Some col
          | (_, _, Some _) => None
          end in
      match col with
      | Some col =>
          if prev <? col then cons col <$> cellColumns col rest else None
      | None => None
      end
  end.

(** A cell goes to the output if its resolved value is not empty or it
    has a formula. *)
Definition contributes (raw : bool) (c : xlsxC xlsxF) : bool :=
  negb (String.eqb (getValueFrom c raw) EmptyString)
  || bool_decide (is_Some (Cell.F c)).

(** The columns and the values of the cells that go to the output. *)
Fixpoint outputCells (raw : bool) (cs : list (xlsxC xlsxF)) (ks : list Z)
  : list (Z * string) :=
  match cs, ks with
  | c :: cs, k :: ks =>
      if contributes raw c
      then (k, getValueFrom c raw) :: outputCells raw cs ks
      else outputCells raw cs ks
  | _, _ => []
  end.

(** The output for cells at ascending columns, written after [len]
    entries: each value at its column, empty strings before it. *)
Fixpoint padded (len : Z) (kvs : list (Z * string)) : list string :=
  match kvs with
  | [] => []
  | (k, v) :: rest =>
      replicate (Z.to_nat (k - len - 1)) EmptyString ++ v :: padded k rest
  end.

(** The columns of the output ascend, the first after [len]. *)
Fixpoint ascendingKeys (len : Z) (kvs : list (Z * string)) : Prop :=
  match kvs with
  | [] => True
  | (k, _) :: rest => len < k /\ ascendingKeys k rest
  end.

(** The column of the last cell of the output, 0 when there is none. *)
Definition lastColumn (kvs : list (Z * string)) : Z :=
  default 0 (last (map fst kvs)).

(** [n] calls of [Next] in a row, [None] as soon as one returns
    [false]. *)
Fixpoint NextTimes (n : nat) (rows : Rows) : option Rows :=
  match n with
  | O => Some rows
  | S k =>
      match Next rows with
      | (rows, true) => NextTimes k rows
      | (_, false) => None
      end
  end.

(** *** All the rows *)

(** The [for] loop of [File.GetRows] and what it returns,
    [results[:max]]; [fuel] bounds its rounds, [None] when they do not
    suffice. *)
Fixpoint getRowsLoop (fuel : nat) (rows : Rows) (raw : bool)
    (results : list (list string)) (cur max : Z)
  : option (list (list string)) :=
  match fuel with
  | O => None
  | S fuel =>
      match Next rows with
      | (_, false) => Some (take (Z.to_nat max) results)
      | (rows, true) =>
          let cur := GoInt.incr cur in
          match Columns rows raw with
          | (_, _, Some _) => Some (take (Z.to_nat max) results)
          | (rows, row, None) =>
              let results := results ++ [row] in
              let max := if 0 <? Z.of_nat (length row) then cur else max in
              getRowsLoop fuel rows raw results cur max
          end
      end
  end.

(** [File.GetRows] on the iterator [File.Rows] returned, up to
    [rows.Close()]; [raw] is [getOptions(opts...).RawCellValue]. *)
Definition GetRows (fuel : nat) (rows : Rows) (raw : bool)
  : option (list (list string)) :=
  getRowsLoop fuel rows raw [] 0 0.

(** [n] rounds of the loop of [GetRows], [Next] and then [Columns]:
    the iterator they leave and the rows they give, [None] when one of
    them ends the loop. *)
Fixpoint rounds (n : nat) (rows : Rows) (raw : bool)
  : option (Rows * list (list string)) :=
  match n with
  | O => Some (rows, [])
  | S n =>
      match Next rows with
      | (_, false) => None
      | (rows, true) =>
          match Columns rows raw with
          | (_, _, Some _) => None
          | (rows, row, None) =>
              match rounds n rows raw with
              | Some (rows, more) => Some (rows, row :: more)
              | None => None
              end
          end
      end
  end.

End Iterator.

(** The buffered token is the start tag of the current row: reading
    it again leaves the current row as it is. *)
Definition tokenOK {RowOpts : Type} (rows : Rows (RowOpts := RowOpts)) : Prop :=
  match token rows with
  | None => True
  | Some (StartElement name attrs) =>
      name = "row"
      /\ (fst (attrValToInt "r" attrs) = 0
          \/ fst (attrValToInt "r" attrs) = curRow rows)
  | Some _ => False
  end.

(** The highest row number the iterator comes to from the row [cur]
    over [tokens]. *)
Fixpoint reach (cur : Z) (tokens : list Token) : Z :=
  match tokens with
  | [] => cur
  | StartElement name attrs :: rest =>
      if String.eqb name "row" then
        let rowNum := fst (attrValToInt "r" attrs) in
        Z.max cur (reach (if rowNum =? 0 then cur + 1 else rowNum) rest)
      else reach cur rest
  | _ :: rest => reach cur rest
  end.

End Stream.

(** ** The shared-string offset index (rows.go: [getFromStringItem]) *)

Module SharedString.
Import GoString.

(** The fields of [File] that [getFromStringItem] works on.
    [sharedStrings] is the part xl/sharedStrings.xml as the loop reads
    it: its [si] elements in document order, each as [si.String()]
    renders it. [sharedStringTemp] is the content of the temporary file,
    [None] while there is none; an entry of [sharedStringItem] is the
    pair [[]uint{startIdx, offset}]. *)
Record File : Type := mkFile {
  sharedStrings : list string;
  sharedStringTemp : option string;
  sharedStringItem : list (Z * Z)
}.

(** [f.sharedStringTemp.ReadAt(buf, off)] with [len(buf) = n]: the [n]
    bytes at offset [off], an error ([None]) for a negative offset or
    when the file ends before [buf] is full. *)
Definition ReadAt (file : string) (n off : Z) : option string :=
  if off <? 0 then None
  else if n =? 0 then Some EmptyString
  else if off + n <=? Z.of_nat (String.length file)
       then Some (substring (Z.to_nat off) (Z.to_nat n) file)
       else None.

(** The branch [f.sharedStringTemp != nil] of [getFromStringItem]. *)
Definition readItem (items : list (Z * Z)) (file : string) (index : Z)
  : outcome string :=
  if Z.of_nat (length items) <=? index then Returned (Itoa index)
  else if index <? 0 then Panic
  else
    match items !! Z.to_nat index with
    | None => Panic
    | Some (startIdx, endIdx) =>
        let n := GoInt.usub endIdx startIdx in
        if GoInt.MaxInt <? n then Panic
        else
          match ReadAt file n (GoInt.wrap startIdx) with
          | None => Returned (Itoa index)
          | Some buf => Returned buf
          end
    end.

(** The loop that builds the index: one [si] element at a time, its
    text is appended to the temporary file and its offsets to the
    list. *)
Fixpoint buildItems (sis : list string) (offset : Z) (temp : string)
    (items : list (Z * Z)) : string * list (Z * Z) :=
  match sis with
  | [] => (temp, items)
  | si :: rest =>
      let startIdx := offset in
      let n := Z.of_nat (String.length si) in
      let offset := GoInt.uadd offset n in
      buildItems rest offset (temp +:+ si) (items ++ [(startIdx, offset)])
  end.

(** The state of [f] once the index is built. *)
Definition build (f : File) : File :=
  let '(temp, items) := buildItems (sharedStrings f) 0 EmptyString [] in
  mkFile (sharedStrings f) (Some temp) items.

(** The texts of the [si] elements, end to end: what the loop writes
    to the temporary file. *)
Definition rendered (sis : list string) : string :=
  fold_right String.append EmptyString sis.

(** The offsets of texts written end to end from [start] on. *)
Fixpoint offsetsFrom (start : Z) (sis : list string) : list (Z * Z) :=
  match sis with
  | [] => []
  | si :: rest =>
      let stop := start + Z.of_nat (String.length si) in
      (start, stop) :: offsetsFrom stop rest
  end.

(** [File.getFromStringItem]. Its last statement calls it again, with
    the temporary file in place: that call takes the first branch. *)
Definition getFromStringItem (f : File) (index : Z) : File * outcome string :=
  match sharedStringTemp f with
  | Some file => (f, readItem (sharedStringItem f) file index)
  | None =>
      let f := build f in
      match sharedStringTemp f with
      | Some file => (f, readItem (sharedStringItem f) file index)
      | None => (f, Panic)
      end
  end.

End SharedString.

(** ** The store: backing arrays of cells and formulas behind pointers *)

Module Heap.

(** A location of the store. *)
Abbreviation loc := nat.

(** A cell of a worksheet: its formula pointer is a location. *)
Abbreviation xlsxC := (Cell.xlsxC loc).
Abbreviation xlsxF := Cell.xlsxF.

(** The objects a worksheet's rows point to: the backing arrays of the
    [[]xlsxC] slices and the [xlsxF] values behind the [*xlsxF]
    pointers. A location is an index; nothing is ever freed. *)
Record Store : Type := mkStore {
  arrays : list (list xlsxC);
  formulas : list xlsxF
}.

(** A [[]xlsxC]: [nil], or a backing array and a length. *)
Inductive slice : Type :=
| NilSlice
| Slice (arr : loc) (len : nat).

Definition sliceLen (s : slice) : nat :=
  match s with
  | NilSlice => O
  | Slice _ n => n
  end.

(** The elements of a slice. *)
Definition cellsOf (st : Store) (s : slice) : list xlsxC :=
  match s with
  | NilSlice => []
  | Slice a n => take n (default [] (arrays st !! a))
  end.

(** [make([]xlsxC, ...)] filled with [cs]: a fresh backing array. *)
Definition allocArray (st : Store) (cs : list xlsxC) : Store * slice :=
  (mkStore (arrays st ++ [cs]) (formulas st),
   Slice (length (arrays st)) (length cs)).

(** A fresh [xlsxF]. *)
Definition allocFormula (st : Store) (f : xlsxF) : Store * loc :=
  (mkStore (arrays st) (formulas st ++ [f]), length (formulas st)).

(** [s[i] = c] *)
Definition storeCell (st : Store) (s : slice) (i : nat) (c : xlsxC) : Store :=
  match s with
  | NilSlice => st
  | Slice a _ =>
      match arrays st !! a with
      | Some cs => mkStore (<[a := <[i := c]> cs]> (arrays st)) (formulas st)
      | None => st
      end
  end.

(** [s[i] = cs[i]] for every [i]: the elements of [s] overwritten by
    [cs], which is as long as [s]. *)
Definition storeCells (st : Store) (s : slice) (cs : list xlsxC) : Store :=
  match s with
  | NilSlice => st
  | Slice a n =>
      match arrays st !! a with
      | Some old =>
          mkStore (<[a := take n cs ++ drop n old]> (arrays st)) (formulas st)
      | None => st
      end
  end.

(** [*p = f] *)
Definition storeFormula (st : Store) (p : loc) (f : xlsxF) : Store :=
  mkStore (arrays st) (<[p := f]> (formulas st)).

(** deepcopy.Copy on one cell: the formula behind a non-nil [F] is
    copied to a fresh location. *)
Definition copyCell (st : Store) (c : xlsxC) : Store * xlsxC :=
  match Cell.F c with
  | None => (st, c)
  | Some p =>
      match formulas st !! p with
      | None => (st, c)
      | Some f =>
          let '(st, p') := allocFormula st f in
          (st, Cell.mkC (Cell.R c) (Cell.S c) (Cell.T c) (Cell.V c) (Some p'))
      end
  end.

Fixpoint copyCells (st : Store) (cs : list xlsxC) : Store * list xlsxC :=
  match cs with
  | [] => (st, [])
  | c :: rest =>
      let '(st, c') := copyCell st c in
      let '(st, rest') := copyCells st rest in
      (st, c' :: rest')
  end.

(** deepcopy.Copy on a [[]xlsxC]: a fresh backing array of copied
    cells; [nil] stays [nil]. *)
Definition copySlice (st : Store) (s : slice) : Store * slice :=
  match s with
  | NilSlice => (st, NilSlice)
  | Slice _ _ =>
      let '(st, cs) := copyCells st (cellsOf st s) in
      allocArray st cs
  end.

(** The locations a list of cells points to. *)
Definition formulaLocs (cs : list xlsxC) : list loc :=
  omap Cell.F cs.

End Heap.

(** ** Rows and worksheets *)

Module Row.
Import Heap.

(** Modelled from the spec: the type [xlsxRow] is declared outside
    src/. "Row: row number (unique, 1-based), optional explicit height,
    hidden flag, outline level (0-7), custom-format flag, style id, and
    an ordered sequence of Cells": the fields rows.go reads and writes.
    [Ht] is a [*float64] that is only ever replaced, never written
    through; [C] is the slice of the cells. *)
Record xlsxRow (float64 : Type) : Type := mkRow {
  R : Z;
  Spans : string;
  S : Z;
  CustomFormat : bool;
  Ht : option float64;
  Hidden : bool;
  CustomHeight : bool;
  OutlineLevel : Z;
  C : slice
}.

Arguments mkRow {float64} _ _ _ _ _ _ _ _ _.
Arguments R {float64} _.
Arguments Spans {float64} _.
Arguments S {float64} _.
Arguments CustomFormat {float64} _.
Arguments Ht {float64} _.
Arguments Hidden {float64} _.
Arguments CustomHeight {float64} _.
Arguments OutlineLevel {float64} _.
Arguments C {float64} _.

Definition setR {float64 : Type} (r : xlsxRow float64) (n : Z) : xlsxRow float64 :=
  mkRow n (Spans r) (S r) (CustomFormat r) (Ht r) (Hidden r) (CustomHeight r)
    (OutlineLevel r) (C r).

Definition setC {float64 : Type} (r : xlsxRow float64) (s : slice) : xlsxRow float64 :=
  mkRow (R r) (Spans r) (S r) (CustomFormat r) (Ht r) (Hidden r)
    (CustomHeight r) (OutlineLevel r) s.

End Row.

Module Sheet.
Import GoString Coordinates Heap.

Abbreviation xlsxRow := Row.xlsxRow.

(** [xlsxSheetFormatPr]: the two fields [GetRowHeight] reads. *)
Record xlsxSheetFormatPr (float64 : Type) : Type := mkSheetFormatPr {
  DefaultRowHeight : float64;
  CustomHeight : bool
}.

Arguments mkSheetFormatPr {float64} _ _.
Arguments DefaultRowHeight {float64} _.
Arguments CustomHeight {float64} _.

(** [xlsxMergeCell] *)
Record xlsxMergeCell : Type := mkMergeCell { Ref : string }.

(** Modelled from the spec: the type [xlsxWorksheet] is declared
    outside src/. "Worksheet: an ordered Row sequence plus a set of
    MergeRanges plus sheet-level formatting defaults (default row
    height)". [SheetData] is [ws.SheetData.Row]; [MergeCells] is
    [ws.MergeCells.Cells], [None] while [ws.MergeCells] is [nil]. *)
Record xlsxWorksheet (float64 : Type) : Type := mkWorksheet {
  SheetFormatPr : option (xlsxSheetFormatPr float64);
  SheetData : list (xlsxRow float64);
  MergeCells : option (list xlsxMergeCell)
}.

Arguments mkWorksheet {float64} _ _ _.
Arguments SheetFormatPr {float64} _.
Arguments SheetData {float64} _.
Arguments MergeCells {float64} _.

(** [File]: the worksheets by name, and the store their rows point
    into. *)
Record File (float64 : Type) : Type := mkFile {
  Sheet : gmap string (xlsxWorksheet float64);
  store : Store
}.

Arguments mkFile {float64} _ _.
Arguments Sheet {float64} _.
Arguments store {float64} _.

Section Engine.

(** A [float64] is stored and handed out, never computed with. *)
Context {float64 : Type}.

(** The constant [defaultRowHeight], declared outside src/. *)
Variable defaultRowHeight : float64.

(** The formula reference adjuster, a collaborator: "adjust(formulaText,
    originSheet, destSheet, rowDelta, isDuplication) -> formulaText |
    error", with the row the edit starts at. *)
Variable adjustFormula :
  string -> string -> string -> Z -> Z -> bool -> string * option error.

(** [f.adjustHelper(sheet, rows, num, offset)], declared outside src/,
    on the worksheet of that name and the store. *)
Variable adjustHelper :
  Store -> string -> xlsxWorksheet float64 -> Z -> Z ->
  Store * xlsxWorksheet float64 * option error.

Definition setSheetData (ws : xlsxWorksheet float64)
    (rows : list (xlsxRow float64)) : xlsxWorksheet float64 :=
  mkWorksheet (SheetFormatPr ws) rows (MergeCells ws).

Definition setMergeCells (ws : xlsxWorksheet float64)
    (cells : option (list xlsxMergeCell)) : xlsxWorksheet float64 :=
  mkWorksheet (SheetFormatPr ws) (SheetData ws) cells.

(** The worksheet of that name and the store, written back. *)
Definition updateSheet (f : File float64) (sheet : string) (st : Store)
    (ws : xlsxWorksheet float64) : File float64 :=
  mkFile (<[sheet := ws]> (Sheet f)) st.

(** Modelled from the spec: [workSheetReader] is declared outside src/.
    The worksheet of that name, or the error [SheetNotFound]. *)
Definition workSheetReader (f : File float64) (sheet : string)
  : xlsxWorksheet float64 + error :=
  match Sheet f !! sheet with
  | Some ws => inl ws
  | None => inr (ErrSheetNotExist sheet)
  end.

(** [f.adjustHelper(sheet, rows, num, offset)] *)
Definition fAdjustHelper (f : File float64) (sheet : string) (num offset : Z)
  : File float64 * option error :=
  match workSheetReader f sheet with
  | inr e => (f, Some e)
  | inl ws =>
      let '(st, ws, e) := adjustHelper (store f) sheet ws num offset in
      (updateSheet f sheet st ws, e)
  end.

(** *** The row getters *)

(** [File.GetRowHeight] *)
Definition GetRowHeight (f : File float64) (sheet : string) (row : Z)
  : float64 * option error :=
  if row <? 1 then (defaultRowHeight, Some (ErrInvalidRowNumber row))
  else
    let ht := defaultRowHeight in
    match workSheetReader f sheet with
    | inr e => (ht, Some e)
    | inl ws =>
        let ht :=
          match SheetFormatPr ws with
          | Some pr => if CustomHeight pr then DefaultRowHeight pr else ht
          | None => ht
          end in
        if Z.of_nat (length (SheetData ws)) <? row then (ht, None)
        else
          match list_find (fun v => Row.R v = row /\ is_Some (Row.Ht v))
                  (SheetData ws) with
          | Some (_, v) => (default ht (Row.Ht v), None)
          | None => (ht, None)
          end
    end.

(** [File.GetRowVisible] *)
Definition GetRowVisible (f : File float64) (sheet : string) (row : Z)
  : bool * option error :=
  if row <? 1 then (false, Some (ErrInvalidRowNumber row))
  else
    match workSheetReader f sheet with
    | inr e => (false, Some e)
    | inl ws =>
        if Z.of_nat (length (SheetData ws)) <? row then (false, None)
        else
          match SheetData ws !! Z.to_nat (row - 1) with
          | Some r => (negb (Row.Hidden r), None)
          | None => (false, None)
          end
    end.

(** [File.GetRowOutlineLevel] *)
Definition GetRowOutlineLevel (f : File float64) (sheet : string) (row : Z)
  : Z * option error :=
  if row <? 1 then (0, Some (ErrInvalidRowNumber row))
  else
    match workSheetReader f sheet with
    | inr e => (0, Some e)
    | inl ws =>
        if Z.of_nat (length (SheetData ws)) <? row then (0, None)
        else
          match SheetData ws !! Z.to_nat (row - 1) with
          | Some r => (Row.OutlineLevel r, None)
          | None => (0, None)
          end
    end.

(** *** Remove and insert *)

(** [File.RemoveRow]: the loop keeps, in order, the rows whose number
    is not [row]. *)
Definition RemoveRow (f : File float64) (sheet : string) (row : Z)
  : File float64 * option error :=
  if row <? 1 then (f, Some (ErrInvalidRowNumber row))
  else
    match workSheetReader f sheet with
    | inr e => (f, Some e)
    | inl ws =>
        if Z.of_nat (length (SheetData ws)) <? row
        then fAdjustHelper f sheet row (-1)
        else
          let ws :=
            setSheetData ws (filter (fun v => Row.R v <> row) (SheetData ws)) in
          fAdjustHelper (updateSheet f sheet (store f) ws) sheet row (-1)
    end.

(** [File.InsertRows] *)
Definition InsertRows (f : File float64) (sheet : string) (row n : Z)
  : File float64 * option error :=
  if row <? 1 then (f, Some (ErrInvalidRowNumber row))
  else if (TotalRows <=? row) || (TotalRows <=? n) then (f, Some ErrMaxRows)
  else if n <? 1 then (f, Some ErrParameterInvalid)
  else fAdjustHelper f sheet row n.

(** *** Shifting one row *)

(** A cell reference moved by [offset] rows; a reference that is none
    is left as it is. *)
Definition shiftRef (ref : string) (offset : Z) : string :=
  match CellNameToCoordinates ref with
  | (col, row, None) =>
      match CoordinatesToCellName col (GoInt.add row offset) with
      | (name, None) => name
      | (_, Some _) => ref
      end
  | (_, _, Some _) => ref
  end.

(** Modelled from the spec: [adjustSingleRowDimensions] is declared
    outside src/. "rewrite every duplicated Cell's coordinate by the
    row delta": the row number moves by [offset], and so does the
    reference of each of its cells, in place. *)
Definition adjustSingleRowDimensions (st : Store) (r : xlsxRow float64)
    (offset : Z) : Store * xlsxRow float64 :=
  let r := Row.setR r (GoInt.add (Row.R r) offset) in
  let cs := cellsOf st (Row.C r) in
  (storeCells st (Row.C r)
     (map (fun c => Cell.setR c (shiftRef (Cell.R c) offset)) cs), r).

Fixpoint adjustFormulas (st : Store) (cs : list xlsxC) (sheet sheetN : string)
    (num offset : Z) (si : bool) : Store * option error :=
  match cs with
  | [] => (st, None)
  | c :: rest =>
      match Cell.F c with
      | None => adjustFormulas st rest sheet sheetN num offset si
      | Some p =>
          match formulas st !! p with
          | None => adjustFormulas st rest sheet sheetN num offset si
          | Some fm =>
              let '(content, e) :=
                adjustFormula (Cell.Content fm) sheet sheetN num offset si in
              let st := storeFormula st p (Cell.mkF content (Cell.Ref fm)) in
              match e with
              | Some _ => (st, e)
              | None => adjustFormulas st rest sheet sheetN num offset si
              end
          end
      end
  end.

(** Modelled from the spec: [adjustSingleRowFormulas] is declared
    outside src/. "delegate formula text inside those cells to the
    external formula-reference-adjuster collaborator, passing the row
    delta and a flag marking this as a same-sheet duplication": the
    formula behind each cell of the row is rewritten through its
    pointer, up to the first error. *)
Definition adjustSingleRowFormulas (st : Store) (sheet sheetN : string)
    (r : xlsxRow float64) (num offset : Z) (si : bool) : Store * option error :=
  adjustFormulas st (cellsOf st (Row.C r)) sheet sheetN num offset si.

(** *** Merged cells *)

(** Modelled from the spec: [MergeCell] is declared outside src/.
    "create an equivalent MergeRange at target with the same column
    span": the range between the two corners joins the merged ranges
    of the worksheet; corners that are no cell references are an
    error. *)
Definition MergeCell (ws : xlsxWorksheet float64) (hCell vCell : string)
  : xlsxWorksheet float64 * option error :=
  let ref := hCell +:+ ":" +:+ vCell in
  match rangeRefToCoordinates ref with
  | (_, Some e) => (ws, Some e)
  | (_, None) =>
      (setMergeCells ws
         (Some (default [] (MergeCells ws) ++ [mkMergeCell ref])), None)
  end.

(** The first loop of [duplicateMergeCells]: [Some e] when it returns
    [e], [None] when it runs to its end. *)
Fixpoint scanMergeCells (cells : list xlsxMergeCell) (row2 : Z)
  : option (option error) :=
  match cells with
  | [] => None
  | rng :: rest =>
      match rangeRefToCoordinates (Ref rng) with
      | (_, Some e) => Some (Some e)
      | ((_, y1, _, y2), None) =>
          if (y1 <? row2) && (row2 <? y2) then Some None
          else scanMergeCells rest row2
      end
  end.

(** The second loop of [duplicateMergeCells], from index [i] on. The
    list it walks grows while it runs, so it is bounded by [fuel]:
    rounds it may still go. *)
Fixpoint mergeLoop (fuel : nat) (i : nat) (ws : xlsxWorksheet float64)
    (row row2 : Z) : xlsxWorksheet float64 * option error :=
  match fuel with
  | O => (ws, None)
  | Datatypes.S fuel =>
      match default [] (MergeCells ws) !! i with
      | None => (ws, None)
      | Some mergedCells =>
          let '((x1, y1, x2, y2), _) :=
            rangeRefToCoordinates (Ref mergedCells) in
          if (y1 =? y2) && (y1 =? row) then
            let from := fst (CoordinatesToCellName x1 row2) in
            let to := fst (CoordinatesToCellName x2 row2) in
            match MergeCell ws from to with
            | (ws, Some e) => (ws, Some e)
            | (ws, None) => mergeLoop fuel (Datatypes.S i) ws row row2
            end
          else mergeLoop fuel (Datatypes.S i) ws row row2
      end
  end.

(** [File.duplicateMergeCells]. Every range of the list as it stands
    can add one range, and an added range, lying in row [row2], adds
    none: twice the length of the list, and one, is fuel enough. *)
Definition duplicateMergeCells (ws : xlsxWorksheet float64) (row row2 : Z)
  : xlsxWorksheet float64 * option error :=
  match MergeCells ws with
  | None => (ws, None)
  | Some cells =>
      let row := if row2 <? row then GoInt.incr row else row in
      match scanMergeCells cells row2 with
      | Some res => (ws, res)
      | None => mergeLoop (2 * length cells + 1) 0 ws row row2
      end
  end.

(** The ranges of [cells] that lie in the one row [row], each moved to
    the row [row2]: what the second loop of [duplicateMergeCells]
    merges. *)
Definition movedRanges (cells : list xlsxMergeCell) (row row2 : Z)
  : list xlsxMergeCell :=
  omap (fun rng =>
          let '((x1, y1, x2, y2), _) := rangeRefToCoordinates (Ref rng) in
          if (y1 =? y2) && (y1 =? row)
          then Some (mkMergeCell
                       (fst (CoordinatesToCellName x1 row2) +:+ ":"
                        +:+ fst (CoordinatesToCellName x2 row2)))
          else None) cells.

(** *** Duplicate *)

(** [deepcopy.Copy(ws.SheetData.Row[i]).(xlsxRow)] *)
Definition deepcopyRow (st : Store) (r : xlsxRow float64)
  : Store * xlsxRow float64 :=
  let '(st, c) := copySlice st (Row.C r) in (st, Row.setC r c).

(** [File.DuplicateRowTo] *)
Definition DuplicateRowTo (f : File float64) (sheet : string) (row row2 : Z)
  : File float64 * option error :=
  if row <? 1 then (f, Some (ErrInvalidRowNumber row))
  else
    match workSheetReader f sheet with
    | inr e => (f, Some e)
    | inl ws =>
        if (row2 <? 1) || (row =? row2) then (f, None)
        else
          let '(st, copied) :=
            match list_find (fun r => Row.R r = row) (SheetData ws) with
            | Some (_, r) =>
                let '(st, rowCopy) := deepcopyRow (store f) r in
                (st, Some rowCopy)
            | None => (store f, None)
            end in
          let '(st, ws, e) := adjustHelper st sheet ws row2 1 in
          match e, copied with
          | Some _, _ => (updateSheet f sheet st ws, e)
          | None, None => (updateSheet f sheet st ws, None)
          | None, Some rowCopy =>
              let idx2 :=
                fst <$> list_find (fun r => Row.R r = row2) (SheetData ws) in
              if bool_decide (idx2 = None)
                 && (row2 <=? Z.of_nat (length (SheetData ws)))
              then (updateSheet f sheet st ws, None)
              else
                let '(st, c) := allocArray st (cellsOf st (Row.C rowCopy)) in
                let rowCopy := Row.setC rowCopy c in
                let '(st, rowCopy) :=
                  adjustSingleRowDimensions st rowCopy (GoInt.sub row2 row) in
                let st :=
                  fst (adjustSingleRowFormulas st sheet sheet rowCopy row
                         (GoInt.sub row2 row) true) in
                let ws :=
                  setSheetData ws
                    match idx2 with
                    | Some i => <[i := rowCopy]> (SheetData ws)
                    | None => SheetData ws ++ [rowCopy]
                    end in
                let '(ws, e) := duplicateMergeCells ws row row2 in
                (updateSheet f sheet st ws, e)
          end
    end.

(** [File.DuplicateRow] *)
Definition DuplicateRow (f : File float64) (sheet : string) (row : Z)
  : File float64 * option error :=
  DuplicateRowTo f sheet row (GoInt.add row 1).

(** *** Row normalization *)

(** The first loop of [checkRow] on the cells of one row: a cell
    without a reference gets one. The cells as the loop leaves them,
    and the error it stops at. *)
Fixpoint fillR (rowIdx : nat) (cs : list xlsxC) (rCount : Z)
  : list xlsxC * option error :=
  match cs with
  | [] => ([], None)
  | cell :: rest =>
      let rCount := GoInt.incr rCount in
      if String.eqb (Cell.R cell) EmptyString then
        let cell :=
          Cell.setR cell
            (fst (CoordinatesToCellName rCount (Z.of_nat rowIdx + 1))) in
        let '(rest, e) := fillR rowIdx rest rCount in
        (cell :: rest, e)
      else
        match CellNameToCoordinates (Cell.R cell) with
        | (_, _, Some e) => (cell :: rest, Some e)
        | (lastR, _, None) =>
            let rCount := if rCount <? lastR then lastR else rCount in
            let '(rest, e) := fillR rowIdx rest rCount in
            (cell :: rest, e)
        end
  end.

(** [targetList]: [n] placeholders from column [colIdx + 1] on. *)
Fixpoint placeholders (n : nat) (colIdx : Z) (rowIdx : nat)
  : list xlsxC * option error :=
  match n with
  | O => ([], None)
  | Datatypes.S n =>
      match CoordinatesToCellName (colIdx + 1) (Z.of_nat rowIdx + 1) with
      | (_, Some e) => ([], Some e)
      | (cellName, None) =>
          let '(l, e) := placeholders n (colIdx + 1) rowIdx in
          (Cell.named cellName :: l, e)
      end
  end.

(** The last loop of [checkRow]: every cell of [sourceList] is stored
    at the index its reference gives; an index out of range is a
    panic. *)
Fixpoint placeCells (sourceList target : list xlsxC)
  : outcome (list xlsxC * option error) :=
  match sourceList with
  | [] => Returned (target, None)
  | colData :: rest =>
      match CellNameToCoordinates (Cell.R colData) with
      | (_, _, Some e) => Returned (target, Some e)
      | (colNum, _, None) =>
          if (colNum <? 1) || (Z.of_nat (length target) <? colNum) then Panic
          else placeCells rest (<[Z.to_nat (colNum - 1) := colData]> target)
      end
  end.

(** The body of the loop of [checkRow] on the row at index [rowIdx]. *)
Definition checkRowAt (st : Store) (rowIdx : nat) (rowData : xlsxRow float64)
  : outcome (Store * xlsxRow float64 * option error) :=
  let cs := cellsOf st (Row.C rowData) in
  let colCount := length cs in
  match last cs with
  | None => Returned (st, rowData, None)
  | Some _ =>
      let '(cs, e) := fillR rowIdx cs 0 in
      let st := storeCells st (Row.C rowData) cs in
      match e, last cs with
      | Some _, _ => Returned (st, rowData, e)
      | None, None => Returned (st, rowData, None)
      | None, Some lastCell =>
          match CellNameToCoordinates (Cell.R lastCell) with
          | (_, _, Some e) => Returned (st, rowData, Some e)
          | (lastCol, _, None) =>
              if Z.of_nat colCount <? lastCol then
                match placeholders (Z.to_nat lastCol) 0 rowIdx with
                | (_, Some e) =>
                    Returned
                      (st,
                       Row.setC rowData
                         match Row.C rowData with
                         | NilSlice => NilSlice
                         | Slice a _ => Slice a 0
                         end, Some e)
                | (targetList, None) =>
                    match placeCells cs targetList with
                    | Panic => Panic
                    | Returned (targetList, e) =>
                        let '(st, c) := allocArray st targetList in
                        Returned (st, Row.setC rowData c, e)
                    end
                end
              else Returned (st, rowData, None)
          end
      end
  end.

Fixpoint checkRows (st : Store) (rowIdx : nat) (rows : list (xlsxRow float64))
  : outcome (Store * list (xlsxRow float64) * option error) :=
  match rows with
  | [] => Returned (st, [], None)
  | rowData :: rest =>
      match checkRowAt st rowIdx rowData with
      | Panic => Panic
      | Returned (st, rowData, Some e) => Returned (st, rowData :: rest, Some e)
      | Returned (st, rowData, None) =>
          match checkRows st (Datatypes.S rowIdx) rest with
          | Panic => Panic
          | Returned (st, rest, e) => Returned (st, rowData :: rest, e)
          end
      end
  end.

(** [xlsxWorksheet.checkRow] *)
Definition checkRow (st : Store) (ws : xlsxWorksheet float64)
  : outcome (Store * xlsxWorksheet float64 * option error) :=
  match checkRows st 0 (SheetData ws) with
  | Panic => Panic
  | Returned (st, rows, e) => Returned (st, setSheetData ws rows, e)
  end.

(** The columns the references of the cells of a row give; [None] when
    a cell has no reference, or one that is no cell name. *)
Fixpoint columnsOf (cs : list xlsxC) : option (list Z) :=
  match cs with
  | [] => Some []
  | c :: rest =>
      if String.eqb (Cell.R c) EmptyString then None
      else
        match CellNameToCoordinates (Cell.R c) with
        | (col, _, None) => cons col <$> columnsOf rest
        | (_, _, Some _) => None
        end
  end.

(** *** The shift of the rows *)

(** Whether a row takes part in a shift of [offset] rows at [num]:
    "every Row with row number >= position" of an insertion, "every Row
    with number > row" of a removal. *)
Definition shifted (num offset : Z) (r : xlsxRow float64) : bool :=
  if 0 <? offset then num <=? Row.R r else num <? Row.R r.

Fixpoint shiftRows (st : Store) (sheet : string)
    (rows : list (xlsxRow float64)) (num offset : Z)
  : Store * list (xlsxRow float64) :=
  match rows with
  | [] => (st, [])
  | r :: rest =>
      let '(st, r) :=
        if shifted num offset r then
          let '(st, r) := adjustSingleRowDimensions st r offset in
          (fst (adjustSingleRowFormulas st sheet sheet r num offset false), r)
        else (st, r) in
      let '(st, rest) := shiftRows st sheet rest num offset in
      (st, r :: rest)
  end.

(** Modelled from the spec: [adjustHelper] is declared outside src/.
    For rows: "every Row with row number >= position has its number
    shifted by +count; no new Cells are synthesized for the newly
    opened rows. Fails if position or count would push any row number
    past the maximum row bound", "validating inputs before any mutation
    begins"; "every Row with number > row is shifted by -1". The
    geometry of the merged ranges is a collaborator's and is left as it
    is. *)
Definition adjustHelperSpec (st : Store) (sheet : string)
    (ws : xlsxWorksheet float64) (num offset : Z)
  : Store * xlsxWorksheet float64 * option error :=
  if existsb (fun r => shifted num offset r && (TotalRows <? Row.R r + offset))
       (SheetData ws)
  then (st, ws, Some ErrMaxRows)
  else
    let '(st, rows) := shiftRows st sheet (SheetData ws) num offset in
    (st, setSheetData ws rows, None).

End Engine.

(** *** The row setters *)

(** The errors of the setters: those of the other row operations, and
    the two of their own. *)
Inductive setError : Type :=
| RowError (e : error)
| ErrMaxRowHeight
| ErrOutlineLevel
| ErrInvalidStyleID (styleID : Z).

Section Setters.

Context {float64 : Type}.

(** [height > MaxRowHeight], on a constant declared outside src/. *)
Variable aboveMaxRowHeight : float64 -> bool.

(** [ws.prepareSheetXML(col, row)], declared outside src/, on the
    worksheet and the store. *)
Variable prepareSheetXML :
  Store -> xlsxWorksheet float64 -> Z -> Z -> Store * xlsxWorksheet float64.

(** [ws.SheetData.Row[row-1]] written by [upd] after
    [ws.prepareSheetXML(0, row)]; an index out of range is a panic. *)
Definition setRowField (f : File float64) (sheet : string)
    (ws : xlsxWorksheet float64) (row : Z)
    (upd : xlsxRow float64 -> xlsxRow float64)
  : outcome (File float64 * option setError) :=
  let '(st, ws) := prepareSheetXML (store f) ws 0 row in
  match SheetData ws !! Z.to_nat (row - 1) with
  | None => Panic
  | Some r =>
      Returned
        (updateSheet f sheet st
           (setSheetData ws (<[Z.to_nat (row - 1) := upd r]> (SheetData ws))),
         None)
  end.

(** [File.SetRowHeight] *)
Definition SetRowHeight (f : File float64) (sheet : string) (row : Z)
    (height : float64) : outcome (File float64 * option setError) :=
  if row <? 1 then Returned (f, Some (RowError (ErrInvalidRowNumber row)))
  else if aboveMaxRowHeight height then Returned (f, Some ErrMaxRowHeight)
  else
    match workSheetReader f sheet with
    | inr e => Returned (f, Some (RowError e))
    | inl ws =>
        setRowField f sheet ws row
          (fun r =>
             Row.mkRow (Row.R r) (Row.Spans r) (Row.S r) (Row.CustomFormat r)
               (Some height) (Row.Hidden r) true (Row.OutlineLevel r)
               (Row.C r))
    end.

(** [File.SetRowVisible] *)
Definition SetRowVisible (f : File float64) (sheet : string) (row : Z)
    (visible : bool) : outcome (File float64 * option setError) :=
  if row <? 1 then Returned (f, Some (RowError (ErrInvalidRowNumber row)))
  else
    match workSheetReader f sheet with
    | inr e => Returned (f, Some (RowError e))
    | inl ws =>
        setRowField f sheet ws row
          (fun r =>
             Row.mkRow (Row.R r) (Row.Spans r) (Row.S r) (Row.CustomFormat r)
               (Row.Ht r) (negb visible) (Row.CustomHeight r)
               (Row.OutlineLevel r) (Row.C r))
    end.

(** [File.SetRowOutlineLevel]; [level] is a [uint8]. *)
Definition SetRowOutlineLevel (f : File float64) (sheet : string) (row : Z)
    (level : Z) : outcome (File float64 * option setError) :=
  if row <? 1 then Returned (f, Some (RowError (ErrInvalidRowNumber row)))
  else if (7 <? level) || (level <? 1) then Returned (f, Some ErrOutlineLevel)
  else
    match workSheetReader f sheet with
    | inr e => Returned (f, Some (RowError e))
    | inl ws =>
        setRowField f sheet ws row
          (fun r =>
             Row.mkRow (Row.R r) (Row.Spans r) (Row.S r) (Row.CustomFormat r)
               (Row.Ht r) (Row.Hidden r) (Row.CustomHeight r) level (Row.C r))
    end.

(** [f.stylesReader()], declared outside src/: the length of
    [s.CellXfs.Xf], [None] when [s.CellXfs] is [nil], or an error. *)
Variable stylesReader : File float64 -> option Z + error.

(** The inner loop of [SetRowStyle] on the cells of the row at index
    [row]: a cell whose reference names that row takes the style. *)
Definition styleCells (cs : list xlsxC) (row styleID : Z) : list xlsxC :=
  map (fun c =>
         match CellNameToCoordinates (Cell.R c) with
         | (_, rowNum, None) =>
             if GoInt.sub rowNum 1 =? row
             then Cell.mkC (Cell.R c) styleID (Cell.T c) (Cell.V c) (Cell.F c)
             else c
         | (_, _, Some _) => c
         end) cs.

(** The loop of [SetRowStyle], [n] rounds from the index [row] on; an
    index out of range is a panic. *)
Fixpoint styleRows (n : nat) (row : Z) (st : Store)
    (rows : list (xlsxRow float64)) (styleID : Z)
  : outcome (Store * list (xlsxRow float64)) :=
  match n with
  | O => Returned (st, rows)
  | Datatypes.S n =>
      match rows !! Z.to_nat row with
      | None => Panic
      | Some r =>
          let r :=
            Row.mkRow (Row.R r) (Row.Spans r) styleID true (Row.Ht r)
              (Row.Hidden r) (Row.CustomHeight r) (Row.OutlineLevel r)
              (Row.C r) in
          let rows := <[Z.to_nat row := r]> rows in
          let st :=
            storeCells st (Row.C r)
              (styleCells (cellsOf st (Row.C r)) row styleID) in
          styleRows n (GoInt.incr row) st rows styleID
      end
  end.

(** [File.SetRowStyle] *)
Definition SetRowStyle (f : File float64) (sheet : string)
    (start end_ styleID : Z) : outcome (File float64 * option setError) :=
  let '(start, end_) :=
    if end_ <? start then (end_, start) else (start, end_) in
  if start <? 1
  then Returned (f, Some (RowError (ErrInvalidRowNumber start)))
  else if TotalRows <? end_ then Returned (f, Some (RowError ErrMaxRows))
  else
    match stylesReader f with
    | inr e => Returned (f, Some (RowError e))
    | inl xfs =>
        if (styleID <? 0)
           || match xfs with
              | None => true
              | Some count => count <=? styleID
              end
        then Returned (f, Some (ErrInvalidStyleID styleID))
        else
          match workSheetReader f sheet with
          | inr e => Returned (f, Some (RowError e))
          | inl ws =>
              let '(st, ws) := prepareSheetXML (store f) ws 0 end_ in
              match styleRows (Z.to_nat (end_ - (start - 1))) (start - 1) st
                      (SheetData ws) styleID with
              | Panic => Panic
              | Returned (st, rows) =>
                  Returned (updateSheet f sheet st (setSheetData ws rows), None)
              end
          end
    end.

End Setters.

(** Modelled from the spec: [prepareSheetXML] is declared outside src/.
    "if absent, rows up to and including the target are synthesized as
    empty placeholders": the rows from the count of stored rows up to
    [row], numbered by their place, without cells. *)
Definition prepareSheetXMLSpec {float64 : Type} (st : Store)
    (ws : xlsxWorksheet float64) (col row : Z)
  : Store * xlsxWorksheet float64 :=
  let rowCount := length (SheetData ws) in
  (st,
   setSheetData ws
     (SheetData ws
      ++ map (fun i : nat =>
                Row.mkRow (Z.of_nat (rowCount + i) + 1) EmptyString 0 false
                  None false false 0 NilSlice)
           (seq 0 (Z.to_nat row - rowCount)))).

End Sheet.

(** ** A worksheet to run the code on *)

Module Sample.
Import Heap Sheet.

(** A formula adjuster that leaves every formula as it is. *)
Definition keepFormula (formula sheet sheetN : string) (num offset : Z)
    (si : bool) : string * option error :=
  (formula, None).

(** The shift of the rows, with that adjuster and heights in [Z]. *)
Definition adjust := @adjustHelperSpec Z keepFormula.

Definition cell (ref value : string) (formula : option loc) : xlsxC :=
  Cell.mkC ref 0 EmptyString value formula.

Definition row (n : Z) (c : slice) : Row.xlsxRow Z :=
  Row.mkRow n EmptyString 0 false None false false 0 c.

(** Row 1 with the cell A1; row 2 with the cells A2 and C2, C2 holding
    a formula; the merged ranges A2:B2 and D4:D6. *)
Definition cells : Store :=
  mkStore
    [[cell "A1" "a" None];
     [cell "A2" "x" None; cell "C2" "" (Some 0%nat)]]
    [Cell.mkF "A1+1" ""].

Definition sheet1 : xlsxWorksheet Z :=
  mkWorksheet None [row 1 (Slice 0 1); row 2 (Slice 1 2)]
    (Some [mkMergeCell "A2:B2"; mkMergeCell "D4:D6"]).

Definition file : File Z := mkFile {[ "Sheet1" := sheet1 ]} cells.

End Sample.

(** * Properties *)

(** ** Go integers *)

Lemma wrap_inRange (z : Z) : GoInt.inRange z -> GoInt.wrap z = z.
Proof.
  unfold GoInt.inRange, GoInt.MinInt, GoInt.MaxInt, GoInt.wrap. intros H.
  rewrite Z.mod_small; lia.
Qed.

Lemma wrap_range (z : Z) : GoInt.inRange (GoInt.wrap z).
Proof.
  unfold GoInt.inRange, GoInt.MinInt, GoInt.MaxInt, GoInt.wrap.
  pose proof (Z.mod_pos_bound (z + 2 ^ 63) (2 ^ 64)). lia.
Qed.

Lemma incr_small (z : Z) :
  GoInt.MinInt <= z < GoInt.MaxInt -> GoInt.incr z = z + 1.
Proof.
  intros H. unfold GoInt.incr, GoInt.add. apply wrap_inRange.
  unfold GoInt.inRange, GoInt.MinInt, GoInt.MaxInt in *. lia.
Qed.

Lemma incr_MaxInt : GoInt.incr GoInt.MaxInt = GoInt.MinInt.
Proof. reflexivity. Qed.

Lemma uwrap_small (z : Z) : 0 <= z < 2 ^ 64 -> GoInt.uwrap z = z.
Proof. intros H. unfold GoInt.uwrap. apply Z.mod_small. lia. Qed.

(** ** datavalidation.go *)

Section DataValidationFacts.
Import GoString DataValidations.

(** C9. [SetDropList] returns the formula-length error exactly when the
    comma-joined list of keys, encoded in UTF-16, is longer than
    [MaxFieldLength] code units; it returns no other error; and when it
    returns the error the [DataValidation] is as it was: neither the
    type nor the formula is written. *)
Theorem SetDropList_formula_length (dv : DataValidation) (keys : list string) :
  (snd (SetDropList dv keys) = Some ErrDataValidationFormulaLength
   <-> MaxFieldLength < utf16Len (Join keys ","))
  /\ (snd (SetDropList dv keys) = None
      <-> utf16Len (Join keys ",") <= MaxFieldLength)
  /\ (MaxFieldLength < utf16Len (Join keys ",")
      -> fst (SetDropList dv keys) = dv).
Proof.
  unfold SetDropList.
  generalize (utf16Len (Join keys ",")) as n. intros n.
  destruct (Z.ltb_spec MaxFieldLength n) as [E|E].
  - cbn [fst snd].
    split; [|split];
      [split; [done|reflexivity] | split; [discriminate|lia] | reflexivity].
  - destruct (HasPrefix (Join keys ",") "="); cbn [fst snd];
      (split; [|split];
       [split; [discriminate|lia] | split; [done|reflexivity] | lia]).
Qed.

(** A list formula of 256 code units: one over the limit. *)
Lemma SetDropList_formula_length_witness :
  fst (SetDropList (NewDataValidation true)
         [String.concat EmptyString (replicate 256 "x")])
  = NewDataValidation true.
Proof.
  apply (proj2 (proj2 (SetDropList_formula_length (NewDataValidation true)
           [String.concat EmptyString (replicate 256 "x")]))).
  vm_compute. reflexivity.
Defined.

(** The keys of the documentation of [AddDataValidation]. *)
Example SetDropList_123 :
  SetDropList (NewDataValidation true) ["1"; "2"; "3"]
  = (setFormula1 (setType (NewDataValidation true) "list")
       (quote +:+ "1,2,3" +:+ quote), None).
Proof. reflexivity. Qed.

End DataValidationFacts.

(** ** Strings *)

Lemma append_empty_l (b : string) : EmptyString +:+ b = b.
Proof. reflexivity. Qed.

Lemma append_cons (x : ascii) (a b : string) :
  String x a +:+ b = String x (a +:+ b).
Proof. reflexivity. Qed.

Lemma length_append (a b : string) :
  String.length (a +:+ b) = (String.length a + String.length b)%nat.
Proof.
  induction a as [|c a IH]; [done|].
  rewrite append_cons. simpl. by rewrite IH.
Qed.

Lemma append_assoc (a b c : string) : (a +:+ b) +:+ c = a +:+ (b +:+ c).
Proof.
  induction a as [|x a IH]; [done|].
  rewrite !append_cons. by f_equal.
Qed.

Lemma append_empty_r (a : string) : a +:+ EmptyString = a.
Proof.
  induction a as [|x a IH]; [done|].
  rewrite append_cons. by f_equal.
Qed.

Lemma substring_prefix (a b : string) :
  substring 0 (String.length a) (a +:+ b) = a.
Proof.
  induction a as [|x a IH].
  - rewrite append_empty_l. by destruct b.
  - rewrite append_cons. simpl. by f_equal.
Qed.

Lemma substring_none (s : string) (n : nat) : substring n 0 s = EmptyString.
Proof.
  revert n. induction s as [|c s IH]; intros [|n]; simpl; try done.
Qed.

Lemma substring_skip (a b : string) (n : nat) :
  substring (String.length a) n (a +:+ b) = substring 0 n b.
Proof.
  induction a as [|x a IH]; [done|].
  rewrite append_cons. simpl. apply IH.
Qed.

(** ** The shared-string offset index *)

Section SharedStringFacts.
Import GoString SharedString.

Lemma uadd_small (a b : Z) :
  0 <= a -> 0 <= b -> a + b < 2 ^ 64 -> GoInt.uadd a b = a + b.
Proof. intros. unfold GoInt.uadd. apply uwrap_small. lia. Qed.

Lemma rendered_cons (si : string) (rest : list string) :
  rendered (si :: rest) = si +:+ rendered rest.
Proof. reflexivity. Qed.

Lemma buildItems_offsets (sis : list string) :
  forall (temp : string) (items : list (Z * Z)),
    Z.of_nat (String.length (temp +:+ rendered sis)) < 2 ^ 64 ->
    buildItems sis (Z.of_nat (String.length temp)) temp items
    = (temp +:+ rendered sis,
       items ++ offsetsFrom (Z.of_nat (String.length temp)) sis).
Proof.
  induction sis as [|si rest IH]; intros temp items Hlen.
  - cbn [buildItems offsetsFrom]. unfold rendered; cbn [fold_right].
    by rewrite append_empty_r, app_nil_r.
  - rewrite rendered_cons in *. cbn [buildItems offsetsFrom].
    rewrite <- append_assoc in *.
    assert (Z.of_nat (String.length temp) + Z.of_nat (String.length si)
            = Z.of_nat (String.length (temp +:+ si))) as Heq
      by (rewrite length_append; lia).
    rewrite uadd_small; [| lia | lia |].
    + rewrite Heq, IH by done. by rewrite <- app_assoc.
    + rewrite Heq. rewrite length_append in Hlen. lia.
Qed.

Lemma offsetsFrom_length (sis : list string) (start : Z) :
  length (offsetsFrom start sis) = length sis.
Proof.
  revert start. induction sis as [|si rest IH]; intros start; simpl; [done|].
  by rewrite IH.
Qed.

Lemma offsetsFrom_lookup (sis : list string) :
  forall (temp : string) (i : nat) (s e : Z),
    offsetsFrom (Z.of_nat (String.length temp)) sis !! i = Some (s, e) ->
    exists si,
      sis !! i = Some si
      /\ 0 <= s /\ e = s + Z.of_nat (String.length si)
      /\ e <= Z.of_nat (String.length (temp +:+ rendered sis))
      /\ substring (Z.to_nat s) (Z.to_nat (e - s)) (temp +:+ rendered sis) = si.
Proof.
  induction sis as [|si rest IH]; intros temp i s e Hi; [done|].
  rewrite rendered_cons. cbn [offsetsFrom] in Hi.
  destruct i as [|i]; simpl in Hi.
  - injection Hi as <- <-. exists si. split; [done|].
    split; [lia|]. split; [done|].
    split; [rewrite !length_append; lia|].
    replace (Z.of_nat (String.length temp) + Z.of_nat (String.length si)
             - Z.of_nat (String.length temp))
      with (Z.of_nat (String.length si)) by lia.
    rewrite !Nat2Z.id, substring_skip. apply substring_prefix.
  - replace (Z.of_nat (String.length temp) + Z.of_nat (String.length si))
      with (Z.of_nat (String.length (temp +:+ si))) in Hi
      by (rewrite length_append; lia).
    destruct (IH _ _ _ _ Hi) as (si' & ? & ? & ? & ? & ?).
    exists si'. rewrite <- append_assoc. by simpl.
Qed.

Lemma build_state (f : File) :
  Z.of_nat (String.length (rendered (sharedStrings f))) < 2 ^ 64 ->
  build f
  = mkFile (sharedStrings f) (Some (rendered (sharedStrings f)))
      (offsetsFrom 0 (sharedStrings f)).
Proof.
  intros Hlen. unfold build.
  change 0 with (Z.of_nat (String.length EmptyString)).
  by rewrite (buildItems_offsets (sharedStrings f) EmptyString []).
Qed.

(** A lookup below the count of the offsets of texts written end to
    end reads the text of its index. *)
Lemma readItem_offsets (sis : list string) (index : Z) :
  Z.of_nat (String.length (rendered sis)) < 2 ^ 63 ->
  0 <= index < Z.of_nat (length (offsetsFrom 0 sis)) ->
  exists startIdx endIdx si,
    offsetsFrom 0 sis !! Z.to_nat index = Some (startIdx, endIdx)
    /\ sis !! Z.to_nat index = Some si
    /\ 0 <= startIdx <= endIdx
    /\ endIdx <= Z.of_nat (String.length (rendered sis))
    /\ substring (Z.to_nat startIdx) (Z.to_nat (endIdx - startIdx))
         (rendered sis) = si
    /\ readItem (offsetsFrom 0 sis) (rendered sis) index
       = Returned (substring (Z.to_nat startIdx)
                     (Z.to_nat (endIdx - startIdx)) (rendered sis)).
Proof.
  intros Hlen [Hlo Hhi]. unfold readItem.
  destruct (Z.leb_spec (Z.of_nat (length (offsetsFrom 0 sis))) index);
    [lia|].
  destruct (Z.ltb_spec index 0); [lia|].
  destruct (offsetsFrom 0 sis !! Z.to_nat index) as [[s e]|] eqn:Hi.
  2: { apply lookup_ge_None in Hi. lia. }
  pose proof (offsetsFrom_lookup sis EmptyString (Z.to_nat index) s e Hi)
    as (si & Hsi & Hs & He & Hfile & Hsub).
  rewrite append_empty_l in *.
  exists s, e, si.
  split; [done|]. split; [done|]. split; [lia|]. split; [done|].
  split; [done|].
  assert (GoInt.usub e s = e - s) as ->
    by (unfold GoInt.usub; apply uwrap_small; lia).
  destruct (Z.ltb_spec GoInt.MaxInt (e - s)) as [Hbig|_];
    [unfold GoInt.MaxInt in Hbig; lia|].
  rewrite wrap_inRange
    by (unfold GoInt.inRange, GoInt.MinInt, GoInt.MaxInt; lia).
  unfold ReadAt.
  destruct (Z.ltb_spec s 0); [lia|].
  destruct (Z.eqb_spec (e - s) 0) as [Hz|Hz].
  - rewrite Hz. simpl. by rewrite substring_none.
  - destruct (Z.leb_spec (s + (e - s)) (Z.of_nat (String.length (rendered sis))));
      [done | lia].
Qed.

(** X30. Once the offset index of a document is built, with [n]
    entries, [getFromStringItem] returns the decimal representation of
    an index that is [n] or more, and, for an index from 0 to [n - 1],
    the bytes of the temporary file between the two offsets recorded
    at that index; the document is left as it is. The temporary file is
    smaller than 2^63 bytes. *)
Theorem getFromStringItem_built (f : File) (index : Z) :
  f = build f ->
  Z.of_nat (String.length (rendered (sharedStrings f))) < 2 ^ 63 ->
  (Z.of_nat (length (sharedStringItem f)) <= index ->
   getFromStringItem f index = (f, Returned (Itoa index)))
  /\ (0 <= index < Z.of_nat (length (sharedStringItem f)) ->
      exists file startIdx endIdx,
        sharedStringTemp f = Some file
        /\ sharedStringItem f !! Z.to_nat index = Some (startIdx, endIdx)
        /\ 0 <= startIdx <= endIdx
        /\ endIdx <= Z.of_nat (String.length file)
        /\ getFromStringItem f index
           = (f, Returned (substring (Z.to_nat startIdx)
                             (Z.to_nat (endIdx - startIdx)) file))).
Proof.
  intros Hbuilt Hlen.
  assert (Z.of_nat (String.length (rendered (sharedStrings f))) < 2 ^ 64)
    as Hlen' by lia.
  rewrite (build_state f Hlen') in Hbuilt.
  destruct f as [sis temp items]. simpl in *.
  injection Hbuilt as -> ->.
  unfold getFromStringItem; simpl. split.
  - intros Hge. unfold readItem. apply Z.leb_le in Hge. by rewrite Hge.
  - intros Hidx.
    destruct (readItem_offsets sis index Hlen Hidx)
      as (s & e & si & Hi & _ & Hse & He & _ & Hread).
    exists (rendered sis), s, e. by rewrite Hread.
Qed.

(** A lookup past the three entries of a built index. *)
Lemma getFromStringItem_built_witness :
  getFromStringItem (build (mkFile ["ab"; ""; "cde"] None [])) 7
  = (build (mkFile ["ab"; ""; "cde"] None []), Returned "7").
Proof.
  apply (proj1 (getFromStringItem_built
                  (build (mkFile ["ab"; ""; "cde"] None [])) 7
                  eq_refl ltac:(vm_compute; reflexivity))).
  vm_compute. discriminate.
Defined.

(** C8. The index -1 in the document of the three shared strings
    "ab", the empty string and "cde", its offset index built: -1 is
    below the count of the entries, and [getFromStringItem] returns
    neither bytes of the temporary file nor the decimal representation
    of -1: the guard [len(f.sharedStringItem) <= index] lets -1
    through, and [f.sharedStringItem[index]] panics. *)
Theorem getFromStringItem_negative_on_built :
  build (mkFile ["ab"; ""; "cde"] None [])
  = build (build (mkFile ["ab"; ""; "cde"] None []))
  /\ length (sharedStringItem (build (mkFile ["ab"; ""; "cde"] None [])))
     = 3%nat
  /\ -1 < Z.of_nat
            (length (sharedStringItem (build (mkFile ["ab"; ""; "cde"] None []))))
  /\ getFromStringItem (build (mkFile ["ab"; ""; "cde"] None [])) (-1)
     = (build (mkFile ["ab"; ""; "cde"] None []), Panic).
Proof. vm_compute. by repeat split. Qed.

Example getFromStringItem_third :
  getFromStringItem (mkFile ["ab"; ""; "cde"] None []) 2
  = (build (mkFile ["ab"; ""; "cde"] None []), Returned "cde").
Proof. reflexivity. Qed.

(** A first lookup builds the index and then reads it. *)
Lemma getFromStringItem_builds (f : File) (index : Z) :
  sharedStringTemp f = None ->
  getFromStringItem f index
  = (build f, snd (getFromStringItem (build f) index)).
Proof.
  intros Hnil. unfold getFromStringItem at 1. rewrite Hnil.
  unfold getFromStringItem, build.
  by destruct (buildItems (sharedStrings f) 0 EmptyString []).
Qed.

(** The bytes between the offsets of an index are the text of the [si]
    element of that index. *)
Lemma getFromStringItem_text (f : File) (index : Z) (si : string) :
  Z.of_nat (String.length (rendered (sharedStrings f))) < 2 ^ 63 ->
  0 <= index ->
  sharedStrings f !! Z.to_nat index = Some si ->
  snd (getFromStringItem (build f) index) = Returned si.
Proof.
  intros Hlen Hidx Hsi. rewrite build_state by lia.
  unfold getFromStringItem. cbn [sharedStringTemp sharedStringItem snd].
  destruct (readItem_offsets (sharedStrings f) index Hlen)
    as (s & e & si' & _ & Hsi' & _ & _ & Hsub & Hread).
  { rewrite offsetsFrom_length. apply lookup_lt_Some in Hsi. lia. }
  rewrite Hread, Hsub. congruence.
Qed.

End SharedStringFacts.

(** ** The row iterator *)

Section IteratorFacts.
Import GoString Strconv Coordinates Stream.

Context {RowOpts : Type}.
Variable extractRowOpts : list Attr -> RowOpts.

Local Abbreviation Next := (Next extractRowOpts).
Local Abbreviation nextLoop := (nextLoop extractRowOpts).
Local Abbreviation NextTimes := (NextTimes extractRowOpts).

(** A row start found by the loop of [Next]: the sought row is as it
    was, and the current row is the next number or the explicit one,
    above the former; the rest of the stream ascends from it. *)
Lemma nextLoop_true (tokens : list Token) :
  forall (rows rows' : Rows),
    nextLoop tokens rows = (rows', true) ->
    ascending (curRow rows) tokens ->
    seekRow rows' = seekRow rows
    /\ ascending (curRow rows') (decoder rows')
    /\ (curRow rows' = GoInt.incr (curRow rows)
        \/ curRow rows < curRow rows').
Proof.
  induction tokens as [|tok rest IH]; intros rows rows' Hloop Hasc;
    [discriminate|].
  destruct tok as [name attrs|name|data|colCell]; simpl in Hloop, Hasc.
  - destruct (String.eqb name "row"); [|by apply IH].
    destruct (fst (attrValToInt "r" attrs) =? 0) eqn:Hr;
      injection Hloop as <-; simpl; auto.
    destruct Hasc as [Hlt Hasc]. auto.
  - destruct (String.eqb name "sheetData"); [discriminate | by apply IH].
  - by apply IH.
  - by apply IH.
Qed.

(** When the loop of [Next] finds no row, both counters are as they
    were. *)
Lemma nextLoop_false (tokens : list Token) :
  forall (rows rows' : Rows),
    nextLoop tokens rows = (rows', false) ->
    curRow rows' = curRow rows /\ seekRow rows' = seekRow rows.
Proof.
  induction tokens as [|tok rest IH]; intros rows rows' Hloop; simpl in Hloop.
  - by injection Hloop as <-.
  - destruct tok as [name attrs|name|data|colCell].
    + destruct (String.eqb name "row"); [discriminate | by apply IH].
    + destruct (String.eqb name "sheetData"); [|by apply IH].
      by injection Hloop as <-.
    + by apply IH.
    + by apply IH.
Qed.

(** One call of [Next] that returns [true] keeps the invariant. *)
Lemma Next_true_invariant (rows rows' : Rows) :
  seekRow rows <= curRow rows ->
  GoInt.inRange (seekRow rows) ->
  ascending (curRow rows) (decoder rows) ->
  Next rows = (rows', true) ->
  seekRow rows' <= curRow rows'
  /\ GoInt.inRange (seekRow rows')
  /\ ascending (curRow rows') (decoder rows').
Proof.
  intros Hinv Hrange Hasc. unfold Stream.Next. simpl.
  destruct (Z.leb_spec (GoInt.incr (seekRow rows)) (curRow rows)) as [Hle|Hgt].
  - intros [= <-]. simpl. split; [done|]. split; [apply wrap_range | done].
  - intros Hloop. apply nextLoop_true in Hloop; [|done].
    simpl in Hloop. destruct Hloop as (Hseek & Hasc' & Hcur).
    rewrite Hseek. split; [|split; [apply wrap_range | done]].
    unfold GoInt.inRange in Hrange.
    destruct (Z.eq_dec (seekRow rows) GoInt.MaxInt) as [Hmax|Hmax].
    + exfalso. revert Hgt. rewrite Hmax, incr_MaxInt.
      destruct Hrange as [Hlo _]. rewrite Hmax in Hinv.
      unfold GoInt.MinInt, GoInt.MaxInt in *. lia.
    + assert (GoInt.incr (seekRow rows) = seekRow rows + 1) as Hs
        by (apply incr_small; lia).
      rewrite Hs in *.
      destruct Hcur as [Hcur|Hcur]; [|lia].
      rewrite Hcur, incr_small by lia.
      lia.
Qed.

(** A call of [Next] that returns [false] leaves the current row
    behind the sought one. *)
Lemma Next_false (rows rows' : Rows) :
  Next rows = (rows', false) -> curRow rows' < seekRow rows'.
Proof.
  unfold Stream.Next. simpl.
  destruct (Z.leb_spec (GoInt.incr (seekRow rows)) (curRow rows)) as [Hle|Hgt];
    [discriminate|].
  intros Hloop. apply nextLoop_false in Hloop. simpl in Hloop.
  destruct Hloop as [-> ->]. done.
Qed.

(** C1, as the code has it. Over a stream whose row numbers ascend,
    from a state where [curRow >= seekRow] (the state [File.Rows]
    returns is one), after every call of a sequence of calls of [Next]
    that all return [true] the cursor has [curRow >= seekRow]; a call
    that returns [false] after them leaves [curRow < seekRow]. *)
Theorem Next_invariant (n : nat) (rows rows' : Rows) :
  seekRow rows <= curRow rows ->
  GoInt.inRange (seekRow rows) ->
  ascending (curRow rows) (decoder rows) ->
  NextTimes n rows = Some rows' ->
  seekRow rows' <= curRow rows'
  /\ forall rows'', Next rows' = (rows'', false) ->
                    curRow rows'' < seekRow rows''.
Proof.
  intros Hinv Hrange Hasc Hn. split; [|intros rows''; apply Next_false].
  revert rows Hinv Hrange Hasc Hn.
  induction n as [|n IH]; intros rows Hinv Hrange Hasc Hn; simpl in Hn.
  - by injection Hn as <-.
  - destruct (Next rows) as [rows1 [|]] eqn:Hnext; [|discriminate].
    destruct (Next_true_invariant rows rows1) as (? & ? & ?); try done.
    by apply (IH rows1).
Qed.

End IteratorFacts.

Section IteratorExamples.
Import Stream.

(** Rows numbered 1, 2 (by position) and 5: three calls of [Next]
    return [true], read two rows and leave 5 buffered. *)
Lemma Next_invariant_witness :
  exists rows',
    NextTimes (fun _ => tt) 3
      (newRows tt [StartElement "row" [mkAttr "r" "1"];
                   StartElement "row" [];
                   StartElement "row" [mkAttr "r" "5"]]) = Some rows'
    /\ seekRow rows' <= curRow rows'.
Proof.
  eexists. split; [vm_compute; reflexivity|].
  refine (proj1 (Next_invariant (fun _ => tt) 3
                   (newRows tt [StartElement "row" [mkAttr "r" "1"];
                                StartElement "row" [];
                                StartElement "row" [mkAttr "r" "5"]])
                   _ _ _ _ _)).
  - vm_compute. discriminate.
  - vm_compute. split; discriminate.
  - vm_compute. repeat split.
  - vm_compute. reflexivity.
Defined.

(** C1 as it is stated fails twice. A row numbered 5 followed by a row
    numbered 2: six calls of [Next] all return [true], and leave
    [curRow = 2] behind [seekRow = 6]. An empty stream: the first call
    returns [false], and leaves [curRow = 0] behind [seekRow = 1]. *)
Lemma Next_invariant_counterexample :
  (exists rows',
     NextTimes (fun _ => tt) 6
       (newRows tt [StartElement "row" [mkAttr "r" "5"];
                    StartElement "row" [mkAttr "r" "2"]]) = Some rows'
     /\ curRow rows' = 2 /\ seekRow rows' = 6
     /\ ~ seekRow rows' <= curRow rows')
  /\ (exists rows',
        Next (fun _ => tt) (newRows tt []) = (rows', false)
        /\ curRow rows' = 0 /\ seekRow rows' = 1
        /\ ~ seekRow rows' <= curRow rows').
Proof.
  split; eexists; (split; [vm_compute; reflexivity|]);
    cbn [curRow seekRow]; repeat split; lia.
Qed.

End IteratorExamples.

(** ** The coordinate codec *)

Section CoordinateFacts.
Import GoString Strconv Coordinates.

Lemma ColumnNameToNumber_bounds (name : string) (col : Z) :
  ColumnNameToNumber name = (col, None) -> col <= MaxColumns.
Proof.
  unfold ColumnNameToNumber. destruct name as [|a name]; [discriminate|].
  destruct (columnValue (String a name) 0) as [v|]; [|discriminate].
  destruct (Z.ltb_spec MaxColumns v); [discriminate|].
  intros [= <-]. done.
Qed.

Lemma columnValue_lower (name : string) :
  forall acc v, 0 <= acc -> columnValue name acc = Some v -> acc <= v.
Proof.
  induction name as [|a name IH]; intros acc v Hacc; simpl.
  - intros [= <-]. lia.
  - unfold isUpper, within.
    destruct (65 <=? byteZ a) eqn:Hlo; [|discriminate].
    destruct (byteZ a <=? 90) eqn:Hhi; [|discriminate]. simpl.
    intros Hv. apply IH in Hv; lia.
Qed.

Lemma columnValue_positive (a : ascii) (name : string) (v : Z) :
  columnValue (String a name) 0 = Some v -> 1 <= v.
Proof.
  simpl. unfold isUpper, within.
  destruct (65 <=? byteZ a) eqn:Hlo; [|discriminate].
  destruct (byteZ a <=? 90) eqn:Hhi; [|discriminate]. simpl.
  intros Hv. apply columnValue_lower in Hv; lia.
Qed.

(** A cell reference that decodes gives a column and a row within the
    bounds. *)
Lemma CellNameToCoordinates_bounds (cell : string) (col row : Z) :
  CellNameToCoordinates cell = (col, row, None) ->
  1 <= col <= MaxColumns /\ 1 <= row <= TotalRows.
Proof.
  unfold CellNameToCoordinates.
  destruct (splitLetters cell) as [colName rowStr].
  destruct rowStr as [|d rowStr]; [discriminate|].
  destruct (decimalValue (String d rowStr) 0) as [r|]; [|discriminate].
  destruct (Z.ltb_spec r 1); [discriminate|].
  destruct (Z.ltb_spec TotalRows r); [discriminate|].
  destruct (ColumnNameToNumber colName) as [c [e|]] eqn:Hc; [discriminate|].
  intros [= <- <-]. split; [|lia].
  split; [|by apply ColumnNameToNumber_bounds in Hc].
  unfold ColumnNameToNumber in Hc.
  destruct colName as [|a colName]; [discriminate|].
  destruct (columnValue (String a colName) 0) as [v|] eqn:Hv; [|discriminate].
  destruct (Z.ltb_spec MaxColumns v); [discriminate|].
  injection Hc as <-. by apply columnValue_positive in Hv.
Qed.

End CoordinateFacts.

(** ** The cells of a row: [Columns], [rowXMLHandler], [appendSpace] *)

Section PaddingFacts.
Import GoString Stream.

Lemma ascendingKeys_weaken (kvs : list (Z * string)) (len len' : Z) :
  len <= len' -> ascendingKeys len' kvs -> ascendingKeys len kvs.
Proof. destruct kvs as [|[k v] rest]; simpl; [done|]. intros ? [? ?]. split; [lia|done]. Qed.

Lemma ascendingKeys_member (kvs : list (Z * string)) :
  forall len k v, ascendingKeys len kvs -> (k, v) ∈ kvs -> len < k.
Proof.
  induction kvs as [|[k0 v0] rest IH]; intros len k v Hasc Hin.
  - by apply elem_of_nil in Hin.
  - destruct Hasc as [Hlt Hasc]. apply elem_of_cons in Hin as [[= -> ->]|Hin];
      [done|].
    specialize (IH _ _ _ Hasc Hin). lia.
Qed.

Lemma padded_length (kvs : list (Z * string)) :
  forall len, ascendingKeys len kvs ->
    Z.of_nat (length (padded len kvs)) = default len (last (map fst kvs)) - len.
Proof.
  induction kvs as [|[k v] rest IH]; intros len Hasc; simpl; [lia|].
  destruct Hasc as [Hlt Hasc].
  rewrite length_app, length_replicate. simpl. rewrite Nat2Z.inj_add, Nat2Z.inj_succ.
  rewrite (IH k Hasc), last_cons.
  destruct (last (map fst rest)); simpl; lia.
Qed.

Lemma padded_lookup_in (kvs : list (Z * string)) :
  forall len k v, 0 <= len -> ascendingKeys len kvs -> (k, v) ∈ kvs ->
    padded len kvs !! Z.to_nat (k - len - 1) = Some v.
Proof.
  induction kvs as [|[k0 v0] rest IH]; intros len k v Hlen Hasc Hin.
  - by apply elem_of_nil in Hin.
  - destruct Hasc as [Hlt Hasc]. simpl.
    apply elem_of_cons in Hin as [[= -> ->]|Hin].
    + rewrite lookup_app_r by (rewrite length_replicate; lia).
      rewrite length_replicate, Nat.sub_diag. done.
    + pose proof (ascendingKeys_member _ _ _ _ Hasc Hin) as Hk.
      rewrite lookup_app_r by (rewrite length_replicate; lia).
      rewrite length_replicate.
      replace (Z.to_nat (k - len - 1) - Z.to_nat (k0 - len - 1))%nat
        with (Datatypes.S (Z.to_nat (k - k0 - 1))) by lia.
      simpl. apply IH; [lia | done | done].
Qed.

Lemma padded_lookup_out (kvs : list (Z * string)) :
  forall len (j : nat), 0 <= len -> ascendingKeys len kvs ->
    (j < length (padded len kvs))%nat ->
    len + Z.of_nat j + 1 ∉ map fst kvs ->
    padded len kvs !! j = Some EmptyString.
Proof.
  induction kvs as [|[k0 v0] rest IH]; intros len j Hlen Hasc Hj Hout;
    simpl in *; [lia|].
  destruct Hasc as [Hlt Hasc].
  apply not_elem_of_cons in Hout as [Hne Hout].
  destruct (decide (j < Z.to_nat (k0 - len - 1))%nat) as [Hlo|Hhi].
  - rewrite lookup_app_l by (rewrite length_replicate; lia).
    apply lookup_replicate_2. lia.
  - rewrite lookup_app_r by (rewrite length_replicate; lia).
    rewrite length_replicate.
    rewrite length_app, length_replicate in Hj. simpl in Hj.
    destruct (j - Z.to_nat (k0 - len - 1))%nat as [|j'] eqn:Hj'; [lia|].
    simpl. apply IH; [lia | done | lia |].
    replace (k0 + Z.of_nat j' + 1) with (len + Z.of_nat j + 1) by lia. done.
Qed.

Context {RowOpts : Type}.
Variable extractRowOpts : list Attr -> RowOpts.
Variable getValueFrom : xlsxC xlsxF -> bool -> string.

Local Abbreviation rowXMLHandler := (rowXMLHandler getValueFrom).
Local Abbreviation columnsLoop := (columnsLoop extractRowOpts getValueFrom).
Local Abbreviation columnsToken := (columnsToken extractRowOpts getValueFrom).
Local Abbreviation contributes := (contributes getValueFrom).
Local Abbreviation outputCells := (outputCells getValueFrom).

Lemma sub_small (a b : Z) : GoInt.inRange (a - b) -> GoInt.sub a b = a - b.
Proof. apply wrap_inRange. Qed.

Lemma MaxColumns_inRange (k : Z) :
  1 <= k <= Coordinates.MaxColumns -> GoInt.inRange k.
Proof.
  unfold Coordinates.MaxColumns, GoInt.inRange, GoInt.MinInt, GoInt.MaxInt. lia.
Qed.

(** The padding [appendCell] writes before a value at column [k]. *)
Lemma appendCell_cells (it : rowXMLIterator) (c : xlsxC xlsxF) (raw : bool)
    (k : Z) :
  cellCol it = k ->
  GoInt.inRange k ->
  Z.of_nat (length (cells it)) < k ->
  err (appendCell getValueFrom it c raw) = err it
  /\ cellCol (appendCell getValueFrom it c raw) = k
  /\ cells (appendCell getValueFrom it c raw)
     = cells it ++
       (if contributes raw c
        then replicate (Z.to_nat (k - Z.of_nat (length (cells it)) - 1))
               EmptyString ++ [getValueFrom c raw]
        else []).
Proof.
  intros Hk Hrange Hlen. unfold appendCell, Stream.contributes.
  destruct (negb (String.eqb (getValueFrom c raw) EmptyString)
            || bool_decide (is_Some (Cell.F c))); simpl.
  - split; [done|]. split; [done|].
    rewrite Hk, sub_small.
    + unfold appendSpace. by rewrite <- app_assoc.
    + unfold GoInt.inRange, GoInt.MinInt, GoInt.MaxInt in *. lia.
  - by rewrite app_nil_r.
Qed.

(** [rowXMLHandler] on a cell whose column ascends. *)
Lemma rowXMLHandler_cell (it : rowXMLIterator) (c : xlsxC xlsxF)
    (rest : list (xlsxC xlsxF)) (raw : bool) (prev k : Z) (ks : list Z) :
  err it = None ->
  cellCol it = prev ->
  GoInt.inRange prev ->
  Z.of_nat (length (cells it)) <= prev ->
  cellColumns prev (c :: rest) = Some (k :: ks) ->
  let it' := rowXMLHandler (setInElement it "c") (CellElement c) raw in
  err it' = None /\ cellCol it' = k /\ GoInt.inRange k /\ prev < k
  /\ cellColumns k rest = Some ks
  /\ cells it'
     = cells it ++
       (if contributes raw c
        then replicate (Z.to_nat (k - Z.of_nat (length (cells it)) - 1))
               EmptyString ++ [getValueFrom c raw]
        else []).
Proof.
  intros Herr Hcol Hrange Hlen Hks. cbn [cellColumns] in Hks.
  unfold Stream.rowXMLHandler. cbn [inElement setInElement DecodeElement].
  change (String.eqb "c" "c") with true. cbv iota.
  destruct (String.eqb (Cell.R c) EmptyString) eqn:HR.
  - destruct (Z.ltb_spec prev (GoInt.incr prev)) as [Hlt|]; [|discriminate].
    destruct (cellColumns (GoInt.incr prev) rest) as [ks'|] eqn:Hrest;
      [|discriminate].
    injection Hks as <- <-.
    destruct (appendCell_cells
                (setCellCol (setInElement it "c")
                   (GoInt.incr (cellCol (setInElement it "c"))))
                c raw (GoInt.incr prev)) as (He & Hc & Hcs).
    { simpl. by rewrite Hcol. }
    { apply wrap_range. }
    { simpl. lia. }
    simpl in *. rewrite He, Hc, Hcs.
    repeat split; try done; apply wrap_range.
  - destruct (Coordinates.CellNameToCoordinates (Cell.R c))
      as [[col row] [e|]] eqn:Hdec; [discriminate|].
    destruct (Z.ltb_spec prev col) as [Hlt|]; [|discriminate].
    destruct (cellColumns col rest) as [ks'|] eqn:Hrest; [|discriminate].
    injection Hks as <- <-.
    apply CellNameToCoordinates_bounds in Hdec as [Hc _].
    destruct (appendCell_cells
                (setErr
                   (setCellCol
                      (setCellCol (setInElement it "c")
                         (GoInt.incr (cellCol (setInElement it "c")))) col)
                   None)
                c raw col) as (He & Hc' & Hcs).
    { done. }
    { by apply MaxColumns_inRange. }
    { simpl. lia. }
    simpl in *. rewrite He, Hc', Hcs.
    repeat split; try done; by apply MaxColumns_inRange.
Qed.

(** [rowXMLHandler] leaves a start tag that is no [c] alone. *)
Lemma rowXMLHandler_other (it : rowXMLIterator) (tok : Token) (raw : bool) :
  String.eqb (inElement it) "c" = false -> rowXMLHandler it tok raw = it.
Proof. intros H. unfold Stream.rowXMLHandler. by rewrite H. Qed.

Lemma outputCells_ascending (raw : bool) (cs : list (xlsxC xlsxF)) :
  forall prev ks,
    cellColumns prev cs = Some ks -> ascendingKeys prev (outputCells raw cs ks).
Proof.
  induction cs as [|c cs IH]; intros prev ks Hks; [done|].
  cbn [cellColumns] in Hks.
  destruct (if String.eqb (Cell.R c) EmptyString then Some (GoInt.incr prev)
            else match Coordinates.CellNameToCoordinates (Cell.R c) with
                 | (col, _, None) => Some col
                 | (_, _, Some _) => None
                 end) as [k|]; [|discriminate].
  destruct (Z.ltb_spec prev k) as [Hlt|]; [|discriminate].
  destruct (cellColumns k cs) as [ks'|] eqn:Hrest; [|discriminate].
  injection Hks as <-. cbn [Stream.outputCells].
  specialize (IH _ _ Hrest).
  destruct (contributes raw c).
  - split; done.
  - apply (ascendingKeys_weaken _ prev k); [lia | done].
Qed.

(** The loop of [Columns] over the rest of a row whose cells ascend:
    it returns what is gathered already, then the padded values. *)
Lemma columnsLoop_row (tokens : list Token) :
  forall (rows : Rows) (it : rowXMLIterator) (cs : list (xlsxC xlsxF))
         (ks : list Z) (prev : Z) (raw : bool),
    token rows = None ->
    rawCellValue rows = raw ->
    err it = None ->
    cellCol it = prev ->
    GoInt.inRange prev ->
    Z.of_nat (length (cells it)) <= prev ->
    rowCells (seekRow rows) (curRow rows) tokens = Some cs ->
    cellColumns prev cs = Some ks ->
    exists rows',
      columnsLoop tokens rows it
      = (rows',
         cells it ++ padded (Z.of_nat (length (cells it))) (outputCells raw cs ks),
         None).
Proof.
  induction tokens as [|tok rest IH];
    intros rows it cs ks prev raw Htok Hraw Herr Hcol Hrange Hlen Hcs Hks.
  - injection Hcs as <-. injection Hks as <-. simpl.
    rewrite app_nil_r, Herr. by eexists.
  - cbn [Stream.columnsLoop].
    destruct tok as [name attrs|name|data|colCell]; cbn [rowCells] in Hcs.
    + unfold Stream.columnsToken.
      cbn [localName inElement setInElement].
      destruct (String.eqb name "row") eqn:Hrow.
      * destruct (attrValToInt "r" attrs) as [rowNum [e|]]; [discriminate|].
        cbn [token setDecoder] in *. rewrite Htok.
        change (bool_decide (None = None)) with true. cbv iota.
        destruct (rowNum =? 0) eqn:Hz; cbn [negb];
          cbn [seekRow curRow setSeekRowOpts setToken setCurRow setDecoder] in *.
        -- destruct (seekRow rows <? GoInt.incr (curRow rows)); [|discriminate].
           injection Hcs as <-. injection Hks as <-.
           cbn [cells err setErr setInElement Stream.outputCells padded].
           rewrite app_nil_r. by eexists.
        -- destruct (seekRow rows <? rowNum); [|discriminate].
           injection Hcs as <-. injection Hks as <-.
           cbn [cells err setErr setInElement Stream.outputCells padded].
           rewrite app_nil_r. by eexists.
      * destruct (String.eqb name "c") eqn:Hc; [discriminate|].
        unfold Stream.rowXMLHandler. cbn [inElement setInElement].
        rewrite Hc.
        change (err (setInElement it name)) with (err it). rewrite Herr.
        apply (IH _ (setInElement it name) cs ks prev raw); try done.
    + unfold Stream.columnsToken.
      destruct (String.eqb name "sheetData").
      * injection Hcs as <-. injection Hks as <-. simpl.
        rewrite app_nil_r, Herr. by eexists.
      * by apply (IH _ it cs ks prev raw).
    + unfold Stream.columnsToken. by apply (IH _ it cs ks prev raw).
    + destruct (rowCells (seekRow rows) (curRow rows) rest) as [cs'|] eqn:Hrest;
        [|discriminate].
      injection Hcs as <-.
      assert (exists k ks', ks = k :: ks') as (k & ks' & ->).
      { cbn [cellColumns] in Hks.
        destruct (if String.eqb (Cell.R colCell) EmptyString
                  then Some (GoInt.incr prev)
                  else match Coordinates.CellNameToCoordinates (Cell.R colCell) with
                       | (col, _, None) => Some col
                       | (_, _, Some _) => None
                       end) as [k|]; [|discriminate].
        destruct (prev <? k); [|discriminate].
        destruct (cellColumns k cs') as [ks'|]; [|discriminate].
        injection Hks as <-. by eexists _, _. }
      destruct (rowXMLHandler_cell it colCell cs' raw prev k ks'
                  Herr Hcol Hrange Hlen Hks)
        as (Herr' & Hcol' & Hrange' & Hlt & Hks' & Hcells).
      unfold Stream.columnsToken. cbn [localName].
      cbn [rawCellValue setDecoder]. rewrite Hraw, Herr'.
      edestruct (IH (setToken (setDecoder rows rest) None)
                   (rowXMLHandler (setInElement it "c") (CellElement colCell) raw)
                   cs' ks' k raw) as [rows' Hloop]; try done.
      { rewrite Hcells. destruct (contributes raw colCell).
        - rewrite !length_app, length_replicate. simpl. lia.
        - rewrite app_nil_r. lia. }
      exists rows'. rewrite Hloop. f_equal. f_equal.
      rewrite Hcells. cbn [Stream.outputCells].
      destruct (contributes raw colCell).
      * cbn [padded]. rewrite <- !app_assoc. f_equal. f_equal. simpl. f_equal.
        f_equal. rewrite !length_app, length_replicate. simpl. lia.
      * by rewrite !app_nil_r.
Qed.

(** X1. [Columns] on a row whose cells come in ascending order of
    column returns no error and a dense list: it is as long as the
    column of the last cell that has a value or a formula, it holds the
    resolved value of each such cell at the cell's column, and the
    empty string everywhere else. *)
Theorem Columns_dense (rows : Rows) (raw : bool) (cur : Z)
    (cs : list (xlsxC xlsxF)) (ks : list Z) :
  ~ seekRow rows < curRow rows ->
  servedRow rows = Some cur ->
  ~ seekRow rows < cur ->
  rowCells (seekRow rows) cur (decoder rows) = Some cs ->
  cellColumns 0 cs = Some ks ->
  exists rows' result,
    Columns extractRowOpts None getValueFrom rows raw = (rows', result, None)
    /\ Z.of_nat (length result) = lastColumn (outputCells raw cs ks)
    /\ (forall k v, (k, v) ∈ outputCells raw cs ks ->
                    result !! Z.to_nat (k - 1) = Some v)
    /\ (forall j : nat,
          (j < length result)%nat ->
          Z.of_nat j + 1 ∉ map fst (outputCells raw cs ks) ->
          result !! j = Some EmptyString).
Proof.
  intros Hcur Hserved Hseek Hcs Hks.
  assert (exists rows',
            Columns extractRowOpts None getValueFrom rows raw
            = (rows', padded 0 (outputCells raw cs ks), None)) as [rows' Hcols].
  { unfold Stream.Columns.
    destruct (Z.ltb_spec (seekRow rows) (curRow rows)); [lia|].
    unfold servedRow in Hserved.
    change (token (setRawCellValue rows raw)) with (token rows).
    change (decoder (setRawCellValue rows raw)) with (decoder rows).
    destruct (token rows) as [tok|] eqn:Htok.
    - destruct tok as [name attrs| | |]; try discriminate.
      destruct (String.eqb name "row") eqn:Hrow; [|discriminate].
      destruct (attrValToInt "r" attrs) as [rowNum [e|]] eqn:Hattr;
        [discriminate|].
      injection Hserved as <-.
      unfold Stream.columnsToken.
      cbn [localName inElement setInElement]. rewrite Hrow, Hattr.
      change (token (setRawCellValue rows raw)) with (token rows).
      rewrite Htok.
      change (bool_decide (Some (StartElement name attrs) = None)) with false.
      cbv iota.
      destruct (rowNum =? 0) eqn:Hz; cbn [negb];
        cbn [seekRow curRow setSeekRowOpts setToken setCurRow setRawCellValue]
          in *.
      + destruct (Z.ltb_spec (seekRow rows) (curRow rows)); [lia|].
        rewrite rowXMLHandler_other
          by (cbn; apply String.eqb_eq in Hrow; by subst name).
        cbn [err setErr].
        match goal with
        | |- exists r, Stream.columnsLoop _ _ _ ?rw ?it = _ =>
            edestruct (columnsLoop_row (decoder rows) rw it cs ks 0 raw)
              as [rows' Hloop]; try done;
              try (unfold GoInt.inRange, GoInt.MinInt, GoInt.MaxInt; lia);
              exists rows'; exact Hloop
        end.
      + destruct (Z.ltb_spec (seekRow rows) rowNum); [lia|].
        rewrite rowXMLHandler_other
          by (cbn; apply String.eqb_eq in Hrow; by subst name).
        cbn [err setErr].
        match goal with
        | |- exists r, Stream.columnsLoop _ _ _ ?rw ?it = _ =>
            edestruct (columnsLoop_row (decoder rows) rw it cs ks 0 raw)
              as [rows' Hloop]; try done;
              try (unfold GoInt.inRange, GoInt.MinInt, GoInt.MaxInt; lia);
              exists rows'; exact Hloop
        end.
    - injection Hserved as <-.
      edestruct (columnsLoop_row (decoder rows) (setRawCellValue rows raw)
                   newIterator cs ks 0 raw) as [rows' Hloop]; try done;
        try (unfold GoInt.inRange, GoInt.MinInt, GoInt.MaxInt; lia).
      exists rows'. exact Hloop. }
  pose proof (outputCells_ascending raw cs 0 ks Hks) as Hasc.
  exists rows', (padded 0 (outputCells raw cs ks)).
  split; [done|]. split; [|split].
  - rewrite padded_length by done. unfold lastColumn. lia.
  - intros k v Hin.
    replace (k - 1) with (k - 0 - 1) by lia. by apply padded_lookup_in.
  - intros j Hj Hout. by apply padded_lookup_out.
Qed.

End PaddingFacts.

Section PaddingExamples.
Import Stream.

(** A row with cells at columns 1, 3 and 5, served after [Next] read
    its start tag: five entries, the second and the fourth empty. *)
Lemma Columns_dense_witness :
  exists rows',
    Columns (fun _ => tt) None (fun c _ => Cell.V c)
      (mkRows 1 1 false
         [CellElement (Cell.mkC "A1" 0 "" "v1" None);
          CellElement (Cell.mkC "C1" 0 "" "v3" None);
          CellElement (Cell.mkC "E1" 0 "" "v5" None);
          EndElement "row"; EndElement "sheetData"]
         (Some (StartElement "row" [mkAttr "r" "1"])) tt tt) false
    = (rows', ["v1"; ""; "v3"; ""; "v5"], None).
Proof.
  destruct (Columns_dense (fun _ => tt) (fun c _ => Cell.V c)
              (mkRows 1 1 false
                 [CellElement (Cell.mkC "A1" 0 "" "v1" None);
                  CellElement (Cell.mkC "C1" 0 "" "v3" None);
                  CellElement (Cell.mkC "E1" 0 "" "v5" None);
                  EndElement "row"; EndElement "sheetData"]
                 (Some (StartElement "row" [mkAttr "r" "1"])) tt tt)
              false 1
              [Cell.mkC "A1" 0 "" "v1" None; Cell.mkC "C1" 0 "" "v3" None;
               Cell.mkC "E1" 0 "" "v5" None]
              [1; 3; 5])
    as (rows' & result & Hcols & _).
  - cbn. lia.
  - reflexivity.
  - cbn. lia.
  - reflexivity.
  - reflexivity.
  - exists rows'. rewrite Hcols. vm_compute in Hcols.
    injection Hcols as _ <-. reflexivity.
Defined.

End PaddingExamples.

(** ** The worksheet: getters, removal and insertion *)

Section SheetFacts.
Import GoString Coordinates Heap Sheet.

Context {float64 : Type}.
Variable defaultRowHeight : float64.
Variable adjustFormula :
  string -> string -> string -> Z -> Z -> bool -> string * option error.
Variable adjustHelper :
  Store -> string -> xlsxWorksheet float64 -> Z -> Z ->
  Store * xlsxWorksheet float64 * option error.

Local Abbreviation GetRowHeight := (GetRowHeight defaultRowHeight).
Local Abbreviation fAdjustHelper := (fAdjustHelper adjustHelper).
Local Abbreviation RemoveRow := (RemoveRow adjustHelper).
Local Abbreviation InsertRows := (InsertRows adjustHelper).
Local Abbreviation DuplicateRowTo := (DuplicateRowTo adjustFormula adjustHelper).

(** X2. For a row number past the stored rows of an existing sheet the
    three getters fail no more than they make rows: [GetRowVisible]
    returns [false], [GetRowOutlineLevel] returns 0 and [GetRowHeight]
    the default height of the sheet (that of its format properties when
    they set [CustomHeight], [defaultRowHeight] otherwise), all with a
    [nil] error. *)
Theorem getters_past_stored_rows (f : File float64) (sheet : string)
    (ws : xlsxWorksheet float64) (row : Z) :
  Sheet.Sheet f !! sheet = Some ws ->
  Z.of_nat (length (SheetData ws)) < row ->
  GetRowVisible f sheet row = (false, None)
  /\ GetRowOutlineLevel f sheet row = (0, None)
  /\ GetRowHeight f sheet row
     = (match SheetFormatPr ws with
        | Some pr =>
            if CustomHeight pr then DefaultRowHeight pr else defaultRowHeight
        | None => defaultRowHeight
        end, None).
Proof.
  intros Hws Hrow.
  assert ((row <? 1) = false) as H1 by (apply Z.ltb_ge; lia).
  assert ((Z.of_nat (length (SheetData ws)) <? row) = true) as H2
    by (apply Z.ltb_lt; lia).
  unfold GetRowVisible, GetRowOutlineLevel, Sheet.GetRowHeight, workSheetReader.
  rewrite H1, Hws, H2. done.
Qed.

(** X3. Every row operation checks the row number first: below 1 it
    returns the invalid-row-number error for that number and leaves
    the file as it is, whether the sheet exists or not. *)
Theorem invalid_row_number_first (f : File float64) (sheet : string)
    (row n row2 : Z) :
  row < 1 ->
  GetRowVisible f sheet row = (false, Some (ErrInvalidRowNumber row))
  /\ GetRowOutlineLevel f sheet row = (0, Some (ErrInvalidRowNumber row))
  /\ GetRowHeight f sheet row
     = (defaultRowHeight, Some (ErrInvalidRowNumber row))
  /\ RemoveRow f sheet row = (f, Some (ErrInvalidRowNumber row))
  /\ InsertRows f sheet row n = (f, Some (ErrInvalidRowNumber row))
  /\ DuplicateRowTo f sheet row row2 = (f, Some (ErrInvalidRowNumber row)).
Proof.
  intros Hrow. apply Z.ltb_lt in Hrow.
  unfold GetRowVisible, GetRowOutlineLevel, Sheet.GetRowHeight, Sheet.RemoveRow,
    Sheet.InsertRows, Sheet.DuplicateRowTo.
  rewrite Hrow. done.
Qed.

(** X4. [InsertRows] with a valid row rejects a row or a count of
    [TotalRows] or more with the row-limit error, and a count below 1
    with the invalid-parameter error, and leaves the file as it is;
    any other call is [adjustHelper] on that row and count. *)
Theorem InsertRows_validation (f : File float64) (sheet : string) (row n : Z) :
  1 <= row ->
  (TotalRows <= row \/ TotalRows <= n ->
   InsertRows f sheet row n = (f, Some ErrMaxRows))
  /\ (row < TotalRows -> n < 1 ->
      InsertRows f sheet row n = (f, Some ErrParameterInvalid))
  /\ (row < TotalRows -> 1 <= n < TotalRows ->
      InsertRows f sheet row n = fAdjustHelper f sheet row n).
Proof.
  intros Hrow. unfold Sheet.InsertRows.
  destruct (Z.ltb_spec row 1); [lia|].
  destruct (Z.leb_spec TotalRows row), (Z.leb_spec TotalRows n),
    (Z.ltb_spec n 1); simpl; repeat split; intros; try done;
    try (unfold TotalRows in *; lia).
  all: destruct H3; unfold TotalRows in *; lia.
Qed.

(** X5. What [RemoveRow] hands to [adjustHelper]. When [row] is no
    more than the count of stored rows, the rows whose number is not
    [row], in their order; when it is more, every stored row, a row
    numbered [row] among them if there is one. The store is not
    touched, and [adjustHelper] is called with [row] and -1. *)
Theorem RemoveRow_hands_over (f : File float64) (sheet : string)
    (ws : xlsxWorksheet float64) (row : Z) :
  1 <= row ->
  Sheet.Sheet f !! sheet = Some ws ->
  exists rows,
    RemoveRow f sheet row
    = fAdjustHelper (updateSheet f sheet (store f) (setSheetData ws rows))
        sheet row (-1)
    /\ (row <= Z.of_nat (length (SheetData ws)) ->
        rows = filter (fun v => Row.R v <> row) (SheetData ws)
        /\ (forall v, v ∈ rows -> Row.R v <> row)
        /\ (forall v, v ∈ SheetData ws -> Row.R v <> row -> v ∈ rows))
    /\ (Z.of_nat (length (SheetData ws)) < row -> rows = SheetData ws).
Proof.
  intros Hrow Hws. unfold Sheet.RemoveRow, workSheetReader.
  destruct (Z.ltb_spec row 1); [lia|]. rewrite Hws.
  destruct (Z.ltb_spec (Z.of_nat (length (SheetData ws))) row) as [Hgt|Hle].
  - exists (SheetData ws). split; [|split; [lia|done]].
    f_equal. unfold updateSheet, setSheetData. destruct f as [sheets st], ws.
    simpl in *. f_equal. by rewrite insert_id.
  - eexists. split; [reflexivity|]. split; [|lia].
    intros _. split; [done|]. split.
    + intros v Hv. by apply list_elem_of_filter in Hv as [? _].
    + intros v Hv Hne. by apply list_elem_of_filter.
Qed.

(** X6. [DuplicateRowTo] on an existing sheet does nothing and returns
    no error when the target is below 1 or is the source; when no row
    numbered as the source is stored, it comes to the insertion of one
    row at the target by [adjustHelper] and hands back its error. *)
Theorem DuplicateRowTo_nothing_to_copy (f : File float64) (sheet : string)
    (ws : xlsxWorksheet float64) (row row2 : Z) :
  1 <= row ->
  Sheet.Sheet f !! sheet = Some ws ->
  (row2 < 1 \/ row = row2 -> DuplicateRowTo f sheet row row2 = (f, None))
  /\ (1 <= row2 -> row <> row2 ->
      (forall v, v ∈ SheetData ws -> Row.R v <> row) ->
      DuplicateRowTo f sheet row row2 = fAdjustHelper f sheet row2 1).
Proof.
  intros Hrow Hws. unfold Sheet.DuplicateRowTo, Sheet.fAdjustHelper, workSheetReader.
  destruct (Z.ltb_spec row 1); [lia|]. rewrite Hws. split.
  - intros [Hlt|Heq].
    + destruct (Z.ltb_spec row2 1); [done|lia].
    + destruct (Z.eqb_spec row row2); [|done]. by rewrite orb_true_r.
  - intros Hrow2 Hne Hnone.
    destruct (Z.ltb_spec row2 1); [lia|].
    destruct (Z.eqb_spec row row2); [done|]. simpl.
    destruct (list_find (fun r => Row.R r = row) (SheetData ws))
      as [[i r]|] eqn:Hfind.
    + apply list_find_Some in Hfind as (Hi & HR & _).
      exfalso. apply (Hnone r); [|done]. by eapply list_elem_of_lookup_2.
    + destruct (adjustHelper (store f) sheet ws row2 1) as [[st ws'] [e|]];
        done.
Qed.

End SheetFacts.

Section SheetExamples.
Import Heap Sheet.

(** Row 9 of a sheet of two rows. *)
Lemma getters_past_stored_rows_witness :
  GetRowVisible Sample.file "Sheet1" 9 = (false, None)
  /\ GetRowOutlineLevel Sample.file "Sheet1" 9 = (0, None)
  /\ GetRowHeight 15 Sample.file "Sheet1" 9 = (15, None).
Proof.
  apply (getters_past_stored_rows 15 Sample.file "Sheet1" Sample.sheet1 9).
  - reflexivity.
  - cbn. lia.
Defined.

(** Row 0 of a sheet that does not exist. *)
Lemma invalid_row_number_first_witness :
  RemoveRow Sample.adjust Sample.file "none" 0
  = (Sample.file, Some (ErrInvalidRowNumber 0)).
Proof.
  apply (invalid_row_number_first 15 Sample.keepFormula Sample.adjust
           Sample.file "none" 0 1 1).
  lia.
Defined.

(** No row to insert. *)
Lemma InsertRows_validation_witness :
  InsertRows Sample.adjust Sample.file "Sheet1" 2 0
  = (Sample.file, Some ErrParameterInvalid).
Proof.
  apply (InsertRows_validation Sample.adjust Sample.file "Sheet1" 2 0);
    unfold Coordinates.TotalRows; lia.
Defined.

(** The removal of row 1 of the sample. *)
Lemma RemoveRow_hands_over_witness :
  exists rows,
    RemoveRow Sample.adjust Sample.file "Sheet1" 1
    = fAdjustHelper Sample.adjust
        (updateSheet Sample.file "Sheet1" (store Sample.file)
           (setSheetData Sample.sheet1 rows)) "Sheet1" 1 (-1)
    /\ rows = [Sample.row 2 (Slice 1 2)].
Proof.
  destruct (RemoveRow_hands_over Sample.adjust Sample.file "Sheet1"
              Sample.sheet1 1) as (rows & Heq & Hrows & _).
  - lia.
  - reflexivity.
  - exists rows. split; [done|].
    destruct Hrows as (-> & _); [cbn; lia|]. reflexivity.
Defined.

(** A copy of row 2 onto itself. *)
Lemma DuplicateRowTo_nothing_to_copy_witness :
  DuplicateRowTo Sample.keepFormula Sample.adjust Sample.file "Sheet1" 2 2
  = (Sample.file, None).
Proof.
  apply (DuplicateRowTo_nothing_to_copy Sample.keepFormula Sample.adjust
           Sample.file "Sheet1" Sample.sheet1 2 2).
  - lia.
  - reflexivity.
  - by right.
Defined.

End SheetExamples.

(** ** More on the shared strings *)

Section SharedStringMore.
Import GoString SharedString.

(** X7. The first lookup in a document builds the index and reads it:
    for an index that has an [si] element it returns the text of that
    element, and leaves the document with the temporary file and the
    offsets in place. The texts together are below 2^63 bytes. *)
Theorem getFromStringItem_first_lookup (f : File) (index : Z) (si : string) :
  sharedStringTemp f = None ->
  Z.of_nat (String.length (rendered (sharedStrings f))) < 2 ^ 63 ->
  0 <= index ->
  sharedStrings f !! Z.to_nat index = Some si ->
  getFromStringItem f index = (build f, Returned si)
  /\ sharedStringTemp (build f) = Some (rendered (sharedStrings f))
  /\ length (sharedStringItem (build f)) = length (sharedStrings f).
Proof.
  intros Hnil Hlen Hidx Hsi.
  rewrite (getFromStringItem_builds f index Hnil).
  rewrite (getFromStringItem_text f index si Hlen Hidx Hsi).
  split; [done|].
  rewrite build_state by lia. simpl. by rewrite offsetsFrom_length.
Qed.

(** X8. A negative index makes [getFromStringItem] panic, whatever the
    document: it is not past the end of the offsets, and indexing them
    with it is out of range. *)
Theorem getFromStringItem_negative (f : File) (index : Z) :
  index < 0 -> snd (getFromStringItem f index) = Panic.
Proof.
  intros Hneg.
  assert (forall items file, readItem items file index = Panic) as Hread.
  { intros items file. unfold readItem.
    destruct (Z.leb_spec (Z.of_nat (length items)) index); [lia|].
    by destruct (Z.ltb_spec index 0); [|lia]. }
  unfold getFromStringItem.
  destruct (sharedStringTemp f); simpl; [apply Hread|].
  destruct (sharedStringTemp (build f)); simpl; [apply Hread | done].
Qed.

End SharedStringMore.

Section SharedStringMoreExamples.
Import SharedString.

Lemma getFromStringItem_first_lookup_witness :
  getFromStringItem (mkFile ["ab"; ""; "cde"] None []) 2
  = (build (mkFile ["ab"; ""; "cde"] None []), Returned "cde").
Proof.
  apply (getFromStringItem_first_lookup
           (mkFile ["ab"; ""; "cde"] None []) 2 "cde").
  - reflexivity.
  - vm_compute. reflexivity.
  - lia.
  - reflexivity.
Defined.

Lemma getFromStringItem_negative_witness :
  snd (getFromStringItem (mkFile ["ab"; ""; "cde"] None []) (-1)) = Panic.
Proof.
  apply (getFromStringItem_negative (mkFile ["ab"; ""; "cde"] None []) (-1)).
  lia.
Defined.

End SharedStringMoreExamples.

(** ** More on the row iterator *)

Section IteratorMore.
Import GoString Stream.

Context {RowOpts : Type}.
Variable extractRowOpts : list Attr -> RowOpts.

Local Abbreviation Next := (Next extractRowOpts).
Local Abbreviation nextLoop := (nextLoop extractRowOpts).

Lemma nextLoop_noRowStart (tokens : list Token) :
  forall rows : Rows,
    noRowStart tokens ->
    exists rows',
      nextLoop tokens rows = (rows', false)
      /\ curRow rows' = curRow rows /\ seekRow rows' = seekRow rows
      /\ noRowStart (decoder rows').
Proof.
  induction tokens as [|tok rest IH]; intros rows Hno.
  - eexists. split; [reflexivity|]. simpl. repeat split. constructor.
  - apply Forall_cons in Hno as [Htok Hno]. simpl.
    destruct tok as [name attrs|name|data|colCell].
    + destruct (String.eqb_spec name "row") as [->|_]; [|by apply IH].
      by destruct (Htok attrs).
    + destruct (String.eqb name "sheetData"); [|by apply IH].
      eexists. split; [reflexivity|]. by simpl.
    + by apply IH.
    + by apply IH.
Qed.

(** X9. Once the iterator is exhausted it stays so: when the current
    row lies behind the sought row (as every call of [Next] that
    returns [false] leaves it) and what is left of the stream holds no
    start tag of a row, [Next] returns [false], moves the sought row
    on by one and leaves the iterator exhausted. *)
Theorem Next_stays_exhausted (rows : Rows) :
  curRow rows < seekRow rows ->
  GoInt.MinInt <= seekRow rows < GoInt.MaxInt ->
  noRowStart (decoder rows) ->
  exists rows',
    Next rows = (rows', false)
    /\ curRow rows' = curRow rows
    /\ seekRow rows' = seekRow rows + 1
    /\ curRow rows' < seekRow rows'
    /\ noRowStart (decoder rows').
Proof.
  intros Hcur Hseek Hno. unfold Stream.Next.
  cbn [seekRow curRow decoder setSeekRow].
  rewrite incr_small by done.
  destruct (Z.leb_spec (seekRow rows + 1) (curRow rows)); [lia|].
  destruct (nextLoop_noRowStart (decoder rows)
              (setSeekRow rows (seekRow rows + 1)) Hno)
    as (rows' & Hloop & Hc & Hs & Hno').
  exists rows'. simpl in *. rewrite Hc, Hs. repeat split; try done; lia.
Qed.

End IteratorMore.

Section IteratorMoreExamples.
Import Stream.

(** After the end of [sheetData], with the table parts behind it. *)
Lemma Next_stays_exhausted_witness :
  exists rows',
    Next (fun _ => tt)
      (mkRows 2 3 false [StartElement "tableParts" []; EndElement "tableParts"]
         None tt tt)
    = (rows', false)
    /\ curRow rows' = 2 /\ seekRow rows' = 4.
Proof.
  destruct (Next_stays_exhausted (fun _ => tt)
              (mkRows 2 3 false
                 [StartElement "tableParts" []; EndElement "tableParts"]
                 None tt tt))
    as (rows' & Hnext & Hc & Hs & _).
  - cbn. lia.
  - cbn. unfold GoInt.MinInt, GoInt.MaxInt. lia.
  - repeat constructor; discriminate.
  - exists rows'. by repeat split.
Defined.

End IteratorMoreExamples.

(** ** More on the data validation *)

Section DataValidationMore.
Import GoString DataValidations.

Lemma byteZ_inj (a b : ascii) : byteZ a = byteZ b -> a = b.
Proof.
  unfold byteZ. intros H. apply N2Z.inj in H.
  rewrite <- (ascii_N_embedding a), <- (ascii_N_embedding b). by rewrite H.
Qed.

Lemma byteZ_range (a : ascii) : 0 <= byteZ a < 256.
Proof.
  unfold byteZ. pose proof (N_ascii_bounded a). lia.
Qed.

Lemma runes_ascii (s : string) :
  isASCII s = true -> runes s = map byteZ (list_ascii_of_string s).
Proof.
  induction s as [|a t IH]; [done|]. cbn [isASCII runes].
  intros [Ha Ht]%andb_prop. rewrite Ha. cbn [list_ascii_of_string map].
  by rewrite IH.
Qed.

(** X10. For keys of ASCII bytes the limit of [SetDropList] is one on
    bytes: it returns the formula-length error exactly when the keys,
    joined by commas, take more than [MaxFieldLength] bytes. *)
Theorem SetDropList_ascii (dv : DataValidation) (keys : list string) :
  isASCII (Join keys ",") = true ->
  (snd (SetDropList dv keys) = Some ErrDataValidationFormulaLength
   <-> MaxFieldLength < Z.of_nat (String.length (Join keys ",")))
  /\ (snd (SetDropList dv keys) = None
      <-> Z.of_nat (String.length (Join keys ",")) <= MaxFieldLength).
Proof.
  intros Hascii.
  assert (utf16Len (Join keys ",") = Z.of_nat (String.length (Join keys ",")))
    as Hlen.
  { unfold utf16Len. rewrite (runes_ascii _ Hascii). f_equal.
    revert Hascii. generalize (Join keys ","). clear.
    induction s as [|a t IH]; [done|]. cbn [isASCII].
    intros [Ha Ht]%andb_prop. cbn [list_ascii_of_string map String.length].
    unfold utf16Encode in *. cbn [map concat].
    rewrite length_app, IH by done.
    apply Z.ltb_lt in Ha. pose proof (byteZ_range a).
    unfold encodeRune, within.
    destruct (Z.leb_spec 65536 (byteZ a)); [lia|]. cbn [andb].
    destruct (Z.leb_spec 0 (byteZ a)); [|lia].
    destruct (Z.leb_spec (byteZ a) 55295); [|lia]. done. }
  unfold SetDropList. rewrite Hlen.
  generalize (Z.of_nat (String.length (Join keys ","))) as n. intros n.
  destruct (Z.ltb_spec MaxFieldLength n) as [E|E].
  - cbn [fst snd]. split; split; try done; try discriminate; lia.
  - destruct (HasPrefix (Join keys ",") "="); cbn [fst snd];
      (split; split; try done; try discriminate; lia).
Qed.

Lemma SetSqref_sqref (dv : DataValidation) (sqref : string) :
  Sqref (SetSqref dv sqref)
  = if String.eqb (Sqref dv) EmptyString then sqref
    else Sqref dv +:+ " " +:+ sqref.
Proof. unfold SetSqref. by destruct (String.eqb (Sqref dv) EmptyString). Qed.

Lemma append_not_empty (a b : string) :
  a <> EmptyString -> a +:+ b <> EmptyString.
Proof. destruct a; [done|]. by rewrite append_cons. Qed.

Lemma SetSqref_fold (refs : list string) :
  forall dv,
    Sqref dv <> EmptyString ->
    Sqref (fold_left SetSqref refs dv) = Join (Sqref dv :: refs) " ".
Proof.
  induction refs as [|r refs IH]; intros dv Hne; [done|].
  cbn [fold_left]. rewrite IH.
  - rewrite SetSqref_sqref.
    destruct (String.eqb_spec (Sqref dv) EmptyString) as [|_]; [done|].
    destruct refs as [|r' refs]; cbn [Join]; [done|].
    by rewrite !append_assoc.
  - rewrite SetSqref_sqref.
    destruct (String.eqb_spec (Sqref dv) EmptyString) as [|_]; [done|].
    by apply append_not_empty.
Qed.

(** X11. [SetSqref] gathers references: called in turn with a first
    reference that is not empty and any further ones, on a validation
    that has none yet, it leaves them all in [Sqref], in order, one
    space between two. *)
Theorem SetSqref_gathers (dv : DataValidation) (first : string)
    (more : list string) :
  Sqref dv = EmptyString ->
  first <> EmptyString ->
  Sqref (fold_left SetSqref (first :: more) dv) = Join (first :: more) " ".
Proof.
  intros Hnone Hfirst. cbn [fold_left].
  rewrite SetSqref_fold; rewrite SetSqref_sqref, Hnone; done.
Qed.

End DataValidationMore.

Section DataValidationMoreExamples.
Import GoString DataValidations.

Lemma SetDropList_ascii_witness :
  snd (SetDropList (NewDataValidation true) ["1"; "2"; "3"]) = None.
Proof.
  apply (SetDropList_ascii (NewDataValidation true) ["1"; "2"; "3"]).
  - reflexivity.
  - vm_compute. discriminate.
Defined.

Lemma SetSqref_gathers_witness :
  Sqref (fold_left SetSqref ["A1:B2"; "C3"; "D4:D9"] (NewDataValidation true))
  = "A1:B2 C3 D4:D9".
Proof.
  apply (SetSqref_gathers (NewDataValidation true) "A1:B2" ["C3"; "D4:D9"]).
  - reflexivity.
  - discriminate.
Defined.

End DataValidationMoreExamples.

Section EscapeFacts.
Import GoString DataValidations.

Local Abbreviation entities :=
  [("&amp;", "&"); ("&lt;", "<"); ("&gt;", ">")].

Lemma replaceAll_empty (fuel : nat) (pairs : list (string * string)) :
  replaceAll fuel pairs EmptyString = EmptyString.
Proof. by destruct fuel. Qed.

Lemma firstMatch_entities_other (a : ascii) (t : string) :
  byteZ a <> 38 -> firstMatch entities (String a t) = None.
Proof.
  intros Hne. cbn [firstMatch stripPrefix].
  destruct (Ascii.eqb_spec "&" a) as [<-|_]; [by destruct Hne | done].
Qed.

Lemma formulaEscaper_cons (a : ascii) (t : string) :
  formulaEscaper (String a t)
  = (if byteZ a =? 38 then "&amp;"
     else if byteZ a =? 60 then "&lt;"
     else if byteZ a =? 62 then "&gt;"
     else String a EmptyString) +:+ formulaEscaper t.
Proof.
  unfold formulaEscaper. cbn [replaceBytes].
  by destruct (byteZ a =? 38), (byteZ a =? 60), (byteZ a =? 62).
Qed.

(** Unescaping what was escaped, with whatever follows it. *)
Lemma unescape_escaped (s : string) :
  forall (fuel : nat) (tail : string),
    (String.length (formulaEscaper s +:+ tail) <= fuel)%nat ->
    replaceAll fuel entities (formulaEscaper s +:+ tail)
    = s +:+ replaceAll (fuel - String.length s) entities tail.
Proof.
  induction s as [|a t IH]; intros fuel tail Hfuel.
  - change (formulaEscaper EmptyString) with EmptyString.
    cbn [String.length]. by rewrite !append_empty_l, Nat.sub_0_r.
  - rewrite formulaEscaper_cons in *.
    destruct (Z.eqb_spec (byteZ a) 38) as [Ha|Ha];
      [|destruct (Z.eqb_spec (byteZ a) 60) as [Ha'|Ha'];
        [|destruct (Z.eqb_spec (byteZ a) 62) as [Ha''|Ha'']]].
    + apply (byteZ_inj a "&") in Ha as ->.
      rewrite !append_assoc, !append_cons, !append_empty_l in *.
      cbn [String.length] in Hfuel |- *.
      destruct fuel as [|fuel]; [lia|].
      cbn [replaceAll firstMatch stripPrefix Ascii.eqb Bool.eqb].
      rewrite append_cons, append_empty_l, IH by lia.
      by rewrite Nat.sub_succ.
    + apply (byteZ_inj a "<") in Ha' as ->.
      rewrite !append_assoc, !append_cons, !append_empty_l in *.
      cbn [String.length] in Hfuel |- *.
      destruct fuel as [|fuel]; [lia|].
      cbn [replaceAll firstMatch stripPrefix Ascii.eqb Bool.eqb].
      rewrite append_cons, append_empty_l, IH by lia.
      by rewrite Nat.sub_succ.
    + apply (byteZ_inj a ">") in Ha'' as ->.
      rewrite !append_assoc, !append_cons, !append_empty_l in *.
      cbn [String.length] in Hfuel |- *.
      destruct fuel as [|fuel]; [lia|].
      cbn [replaceAll firstMatch stripPrefix Ascii.eqb Bool.eqb].
      rewrite append_cons, append_empty_l, IH by lia.
      by rewrite Nat.sub_succ.
    + rewrite !append_assoc, !append_cons, !append_empty_l in *.
      cbn [String.length] in Hfuel |- *.
      destruct fuel as [|fuel]; [lia|].
      cbn [replaceAll]. rewrite firstMatch_entities_other by done.
      rewrite IH by lia. by rewrite Nat.sub_succ.
Qed.

(** X12. [formulaUnescaper] undoes [formulaEscaper], on every
    string. *)
Theorem formulaUnescaper_formulaEscaper (s : string) :
  formulaUnescaper (formulaEscaper s) = s.
Proof.
  unfold formulaUnescaper.
  rewrite <- (append_empty_r (formulaEscaper s)) at 2.
  rewrite unescape_escaped by (rewrite append_empty_r; lia).
  by rewrite replaceAll_empty, append_empty_r.
Qed.

Lemma replaceBytes_append (f : ascii -> option string) (a b : string) :
  replaceBytes f (a +:+ b) = replaceBytes f a +:+ replaceBytes f b.
Proof.
  induction a as [|x a IH]; [done|].
  rewrite append_cons. cbn [replaceBytes]. rewrite IH.
  destruct (f x); [by rewrite append_assoc | by rewrite append_cons].
Qed.

Lemma doubleQuotes_cons (a : ascii) (t : string) :
  doubleQuotes (String a t)
  = (if byteZ a =? 34 then quote +:+ quote else String a EmptyString)
    +:+ doubleQuotes t.
Proof.
  unfold doubleQuotes. cbn [replaceBytes]. by destruct (byteZ a =? 34).
Qed.

(** The two replacers of [SetDropList] work on different bytes, and
    none writes a byte the other reads. *)
Lemma doubleQuotes_formulaEscaper (s : string) :
  doubleQuotes (formulaEscaper s) = formulaEscaper (doubleQuotes s).
Proof.
  induction s as [|a t IH]; [done|].
  rewrite formulaEscaper_cons, doubleQuotes_cons.
  unfold doubleQuotes at 1. rewrite replaceBytes_append.
  fold (doubleQuotes (formulaEscaper t)). rewrite IH.
  unfold formulaEscaper at 2. rewrite replaceBytes_append.
  fold (formulaEscaper (doubleQuotes t)). f_equal.
  destruct (Z.eqb_spec (byteZ a) 38) as [H38|H38];
    [by apply (byteZ_inj a "&") in H38 as ->|].
  destruct (Z.eqb_spec (byteZ a) 60) as [H60|H60];
    [by apply (byteZ_inj a "<") in H60 as ->|].
  destruct (Z.eqb_spec (byteZ a) 62) as [H62|H62];
    [by apply (byteZ_inj a ">") in H62 as ->|].
  destruct (Z.eqb_spec (byteZ a) 34) as [H34|H34];
    [by apply (byteZ_inj a (chr 34)) in H34 as ->|].
  cbn [replaceBytes].
  destruct (Z.eqb_spec (byteZ a) 34); [done|].
  destruct (Z.eqb_spec (byteZ a) 38); [done|].
  destruct (Z.eqb_spec (byteZ a) 60); [done|].
  by destruct (Z.eqb_spec (byteZ a) 62).
Qed.

Local Abbreviation quotes' :=
  [(String (chr 34) (String (chr 34) EmptyString), String (chr 34) EmptyString)].

Lemma doubleQuotes_quote (t : string) :
  doubleQuotes (String (chr 34) t)
  = String (chr 34) (String (chr 34) (doubleQuotes t)).
Proof. reflexivity. Qed.

Lemma doubleQuotes_other (a : ascii) (t : string) :
  byteZ a <> 34 -> doubleQuotes (String a t) = String a (doubleQuotes t).
Proof.
  intros Ha. rewrite doubleQuotes_cons.
  by destruct (Z.eqb_spec (byteZ a) 34).
Qed.

Lemma firstMatch_quotes_other (a : ascii) (t : string) :
  byteZ a <> 34 -> firstMatch quotes' (String a t) = None.
Proof.
  intros Hne. cbn [firstMatch stripPrefix].
  destruct (Ascii.eqb_spec (chr 34) a) as [<-|_]; [by destruct Hne | done].
Qed.

(** The quote replacer on doubled quotes and a closing quote. *)
Lemma quotes_closing (s : string) :
  forall fuel : nat,
    (String.length (doubleQuotes s +:+ String (chr 34) EmptyString) <= fuel)%nat ->
    replaceAll fuel quotes' (doubleQuotes s +:+ String (chr 34) EmptyString)
    = s +:+ String (chr 34) EmptyString.
Proof.
  induction s as [|a t IH]; intros fuel Hfuel.
  - by destruct fuel as [|[|fuel]]; [vm_compute in Hfuel; lia| |].
  - destruct (Z.eq_dec (byteZ a) 34) as [Ha|Ha].
    + apply (byteZ_inj a (chr 34)) in Ha as ->.
      rewrite doubleQuotes_quote, !append_cons in *.
      cbn [String.length] in Hfuel.
      destruct fuel as [|fuel]; [lia|].
      cbn [replaceAll firstMatch stripPrefix].
      rewrite !Ascii.eqb_refl. by rewrite IH by lia.
    + rewrite doubleQuotes_other, !append_cons in * by done.
      cbn [String.length] in Hfuel.
      destruct fuel as [|fuel]; [lia|].
      cbn [replaceAll]. rewrite firstMatch_quotes_other by done.
      by rewrite IH by lia.
Qed.

(** The same after the opening quote: a text of quotes only pairs the
    opening quote with its first one, and the closing one with its
    last. *)
Lemma quotes_opening (s : string) :
  forall fuel : nat,
    (String.length
       (String (chr 34) (doubleQuotes s +:+ String (chr 34) EmptyString))
     <= fuel)%nat ->
    replaceAll fuel quotes'
      (String (chr 34) (doubleQuotes s +:+ String (chr 34) EmptyString))
    = if allQuotes s then String (chr 34) s
      else String (chr 34) (s +:+ String (chr 34) EmptyString).
Proof.
  induction s as [|a t IH]; intros fuel Hfuel.
  - by destruct fuel as [|[|[|fuel]]]; [vm_compute in Hfuel; lia..| |].
  - cbn [allQuotes]. destruct (Z.eqb_spec (byteZ a) 34) as [Ha|Ha].
    + apply (byteZ_inj a (chr 34)) in Ha as ->.
      rewrite doubleQuotes_quote, !append_cons in *.
      cbn [String.length] in Hfuel.
      destruct fuel as [|fuel]; [lia|].
      cbn [replaceAll firstMatch stripPrefix].
      rewrite !Ascii.eqb_refl.
      rewrite IH by (cbn [String.length]; lia).
      cbn [andb]. by destruct (allQuotes t).
    + cbn [andb]. rewrite doubleQuotes_other, !append_cons in * by done.
      cbn [String.length] in Hfuel.
      destruct fuel as [|fuel]; [lia|].
      cbn [replaceAll firstMatch stripPrefix].
      rewrite Ascii.eqb_refl.
      destruct (Ascii.eqb_spec (chr 34) a) as [<-|_]; [by destruct Ha|].
      destruct fuel as [|fuel]; [lia|].
      cbn [replaceAll]. rewrite firstMatch_quotes_other by done.
      by rewrite quotes_closing by lia.
Qed.

(** [formulaUnescaper] on an escaped text between quotes. *)
Lemma formulaUnescaper_quoted (s : string) :
  formulaUnescaper (quote +:+ formulaEscaper s +:+ quote)
  = quote +:+ s +:+ quote.
Proof.
  unfold formulaUnescaper.
  change quote with (String (chr 34) EmptyString) at 1 3 5.
  rewrite !append_cons, !append_empty_l. cbn [String.length replaceAll].
  rewrite firstMatch_entities_other by done.
  rewrite unescape_escaped by lia. f_equal. f_equal.
  by destruct (_ - _)%nat as [|[|n]].
Qed.

(** X13. What [unescapeDataValidationFormula] reads back from the
    formula [SetDropList] wrote: the joined keys themselves when they
    start with an equals sign, the joined keys between double quotes
    otherwise; but joined keys made of double quotes only, the empty
    list among them, come back with the opening quote and no closing
    one. *)
Theorem SetDropList_unescape (dv : DataValidation) (keys : list string) :
  snd (SetDropList dv keys) = None ->
  unescapeDataValidationFormula (Formula1 (fst (SetDropList dv keys)))
  = if HasPrefix (Join keys ",") "=" then Join keys ","
    else if allQuotes (Join keys ",") then quote +:+ Join keys ","
    else quote +:+ Join keys "," +:+ quote.
Proof.
  unfold SetDropList.
  destruct (MaxFieldLength <? utf16Len (Join keys ",")); [done|]. intros _.
  generalize (Join keys ",") as f. intros f.
  destruct (HasPrefix f "=") eqn:Hp; cbn [fst Formula1 setFormula1].
  - unfold unescapeDataValidationFormula.
    assert (HasPrefix (formulaEscaper f) quote = false) as ->.
    { destruct f as [|a t]; [done|]. unfold HasPrefix in Hp.
      cbn [String.prefix] in Hp.
      destruct (ascii_dec "=" a) as [<-|]; [done|discriminate]. }
    unfold formulaUnescaper.
    rewrite <- (append_empty_r (formulaEscaper f)) at 2.
    rewrite unescape_escaped by (rewrite append_empty_r; lia).
    by rewrite replaceAll_empty, append_empty_r.
  - unfold unescapeDataValidationFormula.
    assert (HasPrefix (quote +:+ doubleQuotes (formulaEscaper f) +:+ quote)
              quote = true) as ->.
    { unfold HasPrefix.
      change (quote +:+ doubleQuotes (formulaEscaper f) +:+ quote)
        with (String (chr 34) (doubleQuotes (formulaEscaper f) +:+ quote)).
      unfold quote at 1, str1. cbn [String.prefix].
      destruct (ascii_dec (chr 34) (chr 34)); [|done].
      by destruct (doubleQuotes (formulaEscaper f) +:+ quote). }
    rewrite doubleQuotes_formulaEscaper, formulaUnescaper_quoted.
    exact (quotes_opening f _ (le_n _)).
Qed.

End EscapeFacts.

Section EscapeExamples.
Import GoString DataValidations.

Lemma SetDropList_unescape_witness :
  unescapeDataValidationFormula
    (Formula1 (fst (SetDropList (NewDataValidation true) ["1"; "2"; "3"])))
  = quote +:+ "1,2,3" +:+ quote.
Proof.
  apply (SetDropList_unescape (NewDataValidation true) ["1"; "2"; "3"]).
  reflexivity.
Defined.

End EscapeExamples.

(** ** Row normalization: [checkRow] *)

Section NormalizationFacts.
Import GoString Coordinates Heap Sheet.

Context {float64 : Type}.

Lemma columnsOf_cons (c : xlsxC) (rest : list xlsxC) (cols : list Z) :
  columnsOf (c :: rest) = Some cols ->
  exists col row cols',
    cols = col :: cols'
    /\ Cell.R c <> EmptyString
    /\ CellNameToCoordinates (Cell.R c) = (col, row, None)
    /\ columnsOf rest = Some cols'.
Proof.
  cbn [columnsOf].
  destruct (String.eqb_spec (Cell.R c) EmptyString) as [|Hne]; [done|].
  destruct (CellNameToCoordinates (Cell.R c)) as [[col row] [e|]]; [done|].
  destruct (columnsOf rest) as [cols'|]; [|done].
  intros [= <-]. by exists col, row, cols'.
Qed.

Lemma columnsOf_length (cs : list xlsxC) :
  forall cols, columnsOf cs = Some cols -> length cols = length cs.
Proof.
  induction cs as [|c rest IH]; intros cols.
  - by intros [= <-].
  - intros (col & row & cols' & -> & _ & _ & Hrest)%columnsOf_cons.
    cbn [length]. by rewrite (IH cols').
Qed.

Lemma columnsOf_last (cs : list xlsxC) :
  forall cols lastCol,
    columnsOf cs = Some cols ->
    last cols = Some lastCol ->
    exists c row,
      last cs = Some c
      /\ CellNameToCoordinates (Cell.R c) = (lastCol, row, None).
Proof.
  induction cs as [|c rest IH]; intros cols lastCol.
  - by intros [= <-].
  - intros (col & row & cols' & -> & _ & Hc & Hrest)%columnsOf_cons Hlast.
    destruct rest as [|c' rest].
    + injection Hrest as <-. injection Hlast as <-. by exists c, row.
    + destruct cols' as [|col' cols'].
      { by apply columnsOf_length in Hrest. }
      change (last (col :: col' :: cols')) with (last (col' :: cols')) in Hlast.
      change (last (c :: c' :: rest)) with (last (c' :: rest)).
      by apply (IH (col' :: cols')).
Qed.

(** The first loop of [checkRow] changes nothing in a row all of whose
    cells are named. *)
Lemma fillR_named (rowIdx : nat) (cs : list xlsxC) :
  forall cols rCount,
    columnsOf cs = Some cols -> fillR rowIdx cs rCount = (cs, None).
Proof.
  induction cs as [|c rest IH]; intros cols rCount; [done|].
  intros (col & row & cols' & -> & Hne & Hc & Hrest)%columnsOf_cons.
  cbn [fillR].
  destruct (String.eqb_spec (Cell.R c) EmptyString) as [|_]; [done|].
  rewrite Hc. by rewrite (IH cols').
Qed.

Lemma CoordinatesToCellName_ok (col row : Z) :
  1 <= col <= MaxColumns -> 1 <= row <= TotalRows ->
  snd (CoordinatesToCellName col row) = None.
Proof.
  intros Hcol Hrow. unfold CoordinatesToCellName, ColumnNumberToName.
  destruct (Z.ltb_spec col 1); [lia|].
  destruct (Z.ltb_spec row 1); [lia|].
  destruct (Z.ltb_spec TotalRows row); [lia|].
  destruct (Z.ltb_spec MaxColumns col); [lia|]. done.
Qed.

(** The placeholders of a rebuilt row. *)
Lemma placeholders_named (rowIdx : nat) (n : nat) :
  forall colIdx,
    0 <= colIdx -> colIdx + Z.of_nat n <= MaxColumns ->
    Z.of_nat rowIdx < TotalRows ->
    placeholders n colIdx rowIdx
    = (map (fun j : nat =>
              Cell.named
                (fst (CoordinatesToCellName (colIdx + Z.of_nat j + 1)
                        (Z.of_nat rowIdx + 1))))
         (seq 0 n), None).
Proof.
  induction n as [|n IH]; intros colIdx Hcol Hmax Hrow; [done|].
  cbn [placeholders].
  pose proof (CoordinatesToCellName_ok (colIdx + 1) (Z.of_nat rowIdx + 1))
    as Hok.
  destruct (CoordinatesToCellName (colIdx + 1) (Z.of_nat rowIdx + 1))
    as [name [e|]] eqn:Hname.
  { cbn [snd] in Hok. by specialize (Hok ltac:(lia) ltac:(lia)). }
  rewrite IH by lia. cbn [seq map]. f_equal. f_equal.
  - by rewrite Z.add_0_r, Hname.
  - rewrite <- seq_shift, map_map. apply map_ext. intros j.
    do 3 f_equal. lia.
Qed.

(** The last loop of [checkRow] on cells whose columns differ and lie
    within the target. *)
Lemma placeCells_spec (cs : list xlsxC) :
  forall cols target,
    columnsOf cs = Some cols ->
    Forall (fun col => col <= Z.of_nat (length target)) cols ->
    NoDup cols ->
    exists out,
      placeCells cs target = Returned (out, None)
      /\ length out = length target
      /\ (forall i c col,
            cs !! i = Some c -> cols !! i = Some col ->
            out !! Z.to_nat (col - 1) = Some c)
      /\ (forall j : nat, Z.of_nat j + 1 ∉ cols -> out !! j = target !! j).
Proof.
  induction cs as [|c rest IH]; intros cols target.
  - intros [= <-] _ _. exists target. by repeat split.
  - intros (col & row & cols' & -> & Hne & Hc & Hrest)%columnsOf_cons
      [Hcol Hcols]%Forall_cons [Hnotin Hnodup]%NoDup_cons.
    pose proof (CellNameToCoordinates_bounds _ _ _ Hc) as [Hb _].
    cbn [placeCells]. rewrite Hc.
    destruct (Z.ltb_spec col 1); [lia|].
    destruct (Z.ltb_spec (Z.of_nat (length target)) col); [lia|].
    cbn [orb].
    destruct (IH cols' (<[Z.to_nat (col - 1) := c]> target))
      as (out & -> & Hlen & Hin & Hout); [done| |done|].
    { by rewrite length_insert. }
    exists out. rewrite length_insert in Hlen. repeat split; [done| |].
    + intros [|i] c0 col0; cbn [lookup list_lookup].
      * intros [= <-] [= <-]. rewrite Hout by (by replace (Z.of_nat (Z.to_nat (col - 1)) + 1) with col by lia).
        apply list_lookup_insert_eq. lia.
      * apply Hin.
    + intros j Hj. rewrite Hout.
      * apply list_lookup_insert_ne. intros <-. apply Hj.
        replace (Z.of_nat (Z.to_nat (col - 1)) + 1) with col by lia. by left.
      * intros Hj'. apply Hj. by right.
Qed.

Lemma storeCells_same (st : Store) (s : slice) :
  storeCells st s (cellsOf st s) = st.
Proof.
  destruct st as [arr fm], s as [|a n]; [done|].
  unfold storeCells, cellsOf. cbn [arrays formulas].
  destruct (arr !! a) as [old|] eqn:Ha; [|done]. cbn [default].
  rewrite take_take, Nat.min_id, take_drop. by rewrite list_insert_id.
Qed.

(** X14. [checkRow] on a row that has fewer cells than the column of
    its last cell, when every cell has a reference that is a cell name,
    no two are in one column and none lies beyond the last cell:
    the row gets a new backing array, as long as that column, which
    holds every cell at the index of its column and, at every other
    index, a cell that has the reference of the place and nothing else.
    Nothing else of the store is written. *)
Theorem checkRowAt_dense (st : Store) (rowIdx : nat)
    (rowData : xlsxRow float64) (cols : list Z) (lastCol : Z) :
  columnsOf (cellsOf st (Row.C rowData)) = Some cols ->
  last cols = Some lastCol ->
  Z.of_nat (length (cellsOf st (Row.C rowData))) < lastCol ->
  Forall (fun col => col <= lastCol) cols ->
  NoDup cols ->
  Z.of_nat rowIdx < TotalRows ->
  exists out,
    checkRowAt st rowIdx rowData
    = Returned (mkStore (arrays st ++ [out]) (formulas st),
                Row.setC rowData (Slice (length (arrays st)) (length out)),
                None)
    /\ length out = Z.to_nat lastCol
    /\ (forall i c col,
          cellsOf st (Row.C rowData) !! i = Some c ->
          cols !! i = Some col ->
          out !! Z.to_nat (col - 1) = Some c)
    /\ (forall j : nat,
          (j < length out)%nat ->
          Z.of_nat j + 1 ∉ cols ->
          out !! j
          = Some (Cell.named
                    (fst (CoordinatesToCellName (Z.of_nat j + 1)
                            (Z.of_nat rowIdx + 1))))).
Proof.
  intros Hcols Hlast Hfew Hwithin Hnodup Hrow.
  destruct (columnsOf_last _ _ _ Hcols Hlast) as (lastCell & row & Hl & Hc).
  pose proof (CellNameToCoordinates_bounds _ _ _ Hc) as [Hb _].
  unfold checkRowAt. rewrite Hl, (fillR_named _ _ cols) by done.
  rewrite storeCells_same, Hl, Hc.
  destruct (Z.ltb_spec (Z.of_nat (length (cellsOf st (Row.C rowData))))
              lastCol); [|lia].
  rewrite placeholders_named by lia.
  set (target := map _ (seq 0 (Z.to_nat lastCol))).
  assert (length target = Z.to_nat lastCol) as Htarget.
  { unfold target. by rewrite length_map, length_seq. }
  destruct (placeCells_spec _ cols target Hcols)
    as (out & -> & Hlen & Hin & Hout); [|done|].
  { rewrite Htarget. eapply Forall_impl; [exact Hwithin|].
    cbn beta. intros col Hcol. lia. }
  exists out. unfold allocArray. repeat split; [congruence|done|].
  intros j Hj Hnotin. rewrite Hout by done. unfold target.
  rewrite list_lookup_fmap, lookup_seq_lt by congruence.
  cbn [fmap option_fmap option_map]. by rewrite Z.add_0_l.
Qed.

(** X15. [checkRow] panics on a row that has fewer cells than the column
    of its last cell and a cell in a column beyond it: the rebuilt row
    is as long as the column of the last cell, and the cell is stored
    past its end. *)
Theorem checkRowAt_panics (st : Store) (rowIdx : nat)
    (rowData : xlsxRow float64) (cols : list Z) (lastCol : Z) :
  columnsOf (cellsOf st (Row.C rowData)) = Some cols ->
  last cols = Some lastCol ->
  Z.of_nat (length (cellsOf st (Row.C rowData))) < lastCol ->
  Exists (fun col => lastCol < col) cols ->
  Z.of_nat rowIdx < TotalRows ->
  checkRowAt st rowIdx rowData = Panic.
Proof.
  intros Hcols Hlast Hfew Hbeyond Hrow.
  destruct (columnsOf_last _ _ _ Hcols Hlast) as (lastCell & row & Hl & Hc).
  pose proof (CellNameToCoordinates_bounds _ _ _ Hc) as [Hb _].
  unfold checkRowAt. rewrite Hl, (fillR_named _ _ cols) by done.
  rewrite storeCells_same, Hl, Hc.
  destruct (Z.ltb_spec (Z.of_nat (length (cellsOf st (Row.C rowData))))
              lastCol); [|lia].
  rewrite placeholders_named by lia.
  set (target := map _ (seq 0 (Z.to_nat lastCol))).
  assert (Z.of_nat (length target) = lastCol) as Htarget.
  { unfold target. rewrite length_map, length_seq. lia. }
  enough (placeCells (cellsOf st (Row.C rowData)) target = Panic) as -> by done.
  clear Hl Hc Hfew Hlast. revert Htarget Hcols Hbeyond.
  generalize target (cellsOf st (Row.C rowData)) cols. clear.
  intros target cs. revert target.
  induction cs as [|c rest IH]; intros target cols Htarget.
  - intros [= <-] Hex. by apply Exists_nil in Hex.
  - intros (col & row & cols' & -> & Hne & Hc & Hrest)%columnsOf_cons Hex.
    cbn [placeCells]. rewrite Hc.
    destruct (Z.ltb_spec col 1); [done|].
    destruct (Z.ltb_spec (Z.of_nat (length target)) col); [done|].
    cbn [orb]. apply Exists_cons in Hex as [Hex|Hex]; [lia|].
    apply (IH _ cols'); [by rewrite length_insert|done|done].
Qed.

Lemma checkRows_dense (rows : list (xlsxRow float64)) :
  forall (st : Store) (rowIdx : nat),
    Forall (fun r =>
              cellsOf st (Row.C r) = []
              \/ exists cols lastCol,
                   columnsOf (cellsOf st (Row.C r)) = Some cols
                   /\ last cols = Some lastCol
                   /\ lastCol <= Z.of_nat (length (cellsOf st (Row.C r))))
      rows ->
    checkRows st rowIdx rows = Returned (st, rows, None).
Proof.
  induction rows as [|r rest IH]; intros st rowIdx; [done|].
  intros [Hr Hrest]%Forall_cons. cbn [checkRows].
  assert (checkRowAt st rowIdx r = Returned (st, r, None)) as ->.
  { unfold checkRowAt. destruct Hr as [->|(cols & lastCol & Hcols & Hlast & Hle)].
    - done.
    - destruct (columnsOf_last _ _ _ Hcols Hlast) as (c & row & Hl & Hc).
      rewrite Hl, (fillR_named _ _ cols) by done.
      rewrite storeCells_same, Hl, Hc.
      by destruct (Z.ltb_spec (Z.of_nat (length (cellsOf st (Row.C r))))
                     lastCol); [lia|]. }
  by rewrite IH.
Qed.

(** X16. [checkRow] leaves a worksheet as it is, and the store with it,
    when each of its rows has no cells, or has cells that all have a
    reference that is a cell name, and at least as many of them as the
    column of the last one. *)
Theorem checkRow_dense_unchanged (st : Store) (ws : xlsxWorksheet float64) :
  Forall (fun r =>
            cellsOf st (Row.C r) = []
            \/ exists cols lastCol,
                 columnsOf (cellsOf st (Row.C r)) = Some cols
                 /\ last cols = Some lastCol
                 /\ lastCol <= Z.of_nat (length (cellsOf st (Row.C r))))
    (SheetData ws) ->
  checkRow st ws = Returned (st, ws, None).
Proof.
  intros Hrows. unfold checkRow. rewrite checkRows_dense by done.
  by destruct ws.
Qed.

End NormalizationFacts.

Section NormalizationExamples.
Import Coordinates Heap Sheet.

(** Row 2 of the sample: the cells A2 and C2. *)
Lemma checkRowAt_dense_witness :
  exists out,
    checkRowAt Sample.cells 1 (Sample.row 2 (Slice 1 2))
    = Returned (mkStore (arrays Sample.cells ++ [out]) (formulas Sample.cells),
                Row.setC (Sample.row 2 (Slice 1 2)) (Slice 2 (length out)),
                None)
    /\ length out = 3%nat.
Proof.
  destruct (checkRowAt_dense Sample.cells 1 (Sample.row 2 (Slice 1 2))
              [1; 3] 3) as (out & Hout & Hlen & _).
  - reflexivity.
  - reflexivity.
  - cbn. lia.
  - repeat constructor; lia.
  - by apply (bool_decide_unpack _).
  - unfold TotalRows. lia.
  - by exists out.
Defined.

(** A row of the cells E1 and C1, in that order. *)
Lemma checkRowAt_panics_witness :
  checkRowAt
    (mkStore [[Sample.cell "E1" "v" None; Sample.cell "C1" "w" None]] [])
    0 (Sample.row 1 (Slice 0 2))
  = Panic.
Proof.
  apply (checkRowAt_panics _ 0 (Sample.row 1 (Slice 0 2)) [5; 3] 3).
  - reflexivity.
  - reflexivity.
  - cbn. lia.
  - left. lia.
  - unfold TotalRows. lia.
Defined.

(** The sheet of the sample without its row 2. *)
Lemma checkRow_dense_unchanged_witness :
  checkRow Sample.cells
    (mkWorksheet None [Sample.row 1 (Slice 0 1)] None)
  = Returned (Sample.cells,
              mkWorksheet (float64 := Z) None [Sample.row 1 (Slice 0 1)] None,
              None).
Proof.
  apply (checkRow_dense_unchanged Sample.cells
           (mkWorksheet None [Sample.row 1 (Slice 0 1)] None)).
  apply Forall_cons. split; [|by apply Forall_nil]. right. exists [1], 1.
  repeat split; [reflexivity..|cbn; lia].
Defined.

End NormalizationExamples.

(** ** Merged ranges of a duplicated row: [duplicateMergeCells] *)

Section MergeFacts.
Import GoString Coordinates Heap Sheet.

Context {float64 : Type}.

(** The first loop over ranges that decode and do not hold [row2]
    strictly between their rows. *)
Lemma scanMergeCells_app (before rest : list xlsxMergeCell) (row2 : Z) :
  Forall (fun r =>
            exists x1 y1 x2 y2,
              rangeRefToCoordinates (Ref r) = ((x1, y1, x2, y2), None)
              /\ ~ (y1 < row2 < y2)) before ->
  scanMergeCells (before ++ rest) row2 = scanMergeCells rest row2.
Proof.
  induction before as [|r before IH]; [done|].
  intros [(x1 & y1 & x2 & y2 & Hr & Hout) Hbefore]%Forall_cons.
  cbn [app scanMergeCells]. rewrite Hr.
  destruct (Z.ltb_spec y1 row2), (Z.ltb_spec row2 y2);
    cbn [andb]; try lia; by apply IH.
Qed.

(** X17. [duplicateMergeCells] adds no range and returns no error when
    the worksheet has no merged ranges, and when the first range that
    stops its first loop holds the target row strictly between its
    first and its last row; a range before it whose reference does not
    decode makes it return that error, the worksheet as it was. *)
Theorem duplicateMergeCells_gives_up (ws : xlsxWorksheet float64)
    (row row2 : Z) :
  (MergeCells ws = None -> duplicateMergeCells ws row row2 = (ws, None))
  /\ (forall before rng after,
        MergeCells ws = Some (before ++ rng :: after) ->
        Forall (fun r =>
                  exists x1 y1 x2 y2,
                    rangeRefToCoordinates (Ref r) = ((x1, y1, x2, y2), None)
                    /\ ~ (y1 < row2 < y2)) before ->
        (forall x1 y1 x2 y2,
           rangeRefToCoordinates (Ref rng) = ((x1, y1, x2, y2), None) ->
           y1 < row2 < y2 ->
           duplicateMergeCells ws row row2 = (ws, None))
        /\ (forall co e,
              rangeRefToCoordinates (Ref rng) = (co, Some e) ->
              duplicateMergeCells ws row row2 = (ws, Some e))).
Proof.
  split.
  - intros Hnone. unfold duplicateMergeCells. by rewrite Hnone.
  - intros before rng after Hcells Hbefore.
    unfold duplicateMergeCells. rewrite Hcells.
    rewrite scanMergeCells_app by done. cbn [scanMergeCells]. split.
    + intros x1 y1 x2 y2 -> Hin.
      by destruct (Z.ltb_spec y1 row2), (Z.ltb_spec row2 y2);
        cbn [andb]; try lia.
    + by intros [[[x1 y1] x2] y2] e ->.
Qed.

End MergeFacts.

Section MergeExamples.
Import Coordinates Heap Sheet.

(** Row 5 of the sample lies within the range D4:D6. *)
Lemma duplicateMergeCells_gives_up_witness :
  duplicateMergeCells Sample.sheet1 2 5 = (Sample.sheet1, None).
Proof.
  destruct (duplicateMergeCells_gives_up Sample.sheet1 2 5) as [_ H].
  destruct (H [mkMergeCell "A2:B2"] (mkMergeCell "D4:D6") []) as [H' _].
  - reflexivity.
  - apply Forall_cons. split; [|by apply Forall_nil].
    exists 1, 2, 2, 2. split; [reflexivity|lia].
  - apply (H' 4 4 4 6); [reflexivity|lia].
Defined.

End MergeExamples.

(** ** The row setters and the getters *)

Section SetterFacts.
Import GoString Coordinates Heap Sheet.

Context {float64 : Type}.
Variable defaultRowHeight : float64.
Variable aboveMaxRowHeight : float64 -> bool.
Variable prepareSheetXML :
  Store -> xlsxWorksheet float64 -> Z -> Z -> Store * xlsxWorksheet float64.

Local Abbreviation GetRowHeight := (GetRowHeight defaultRowHeight).
Local Abbreviation SetRowHeight :=
  (SetRowHeight aboveMaxRowHeight prepareSheetXML).
Local Abbreviation SetRowVisible := (SetRowVisible prepareSheetXML).
Local Abbreviation SetRowOutlineLevel := (SetRowOutlineLevel prepareSheetXML).

(** The file a setter leaves, read at the sheet it wrote. *)
Lemma workSheetReader_updateSheet (f : File float64) (sheet : string)
    (st : Store) (ws : xlsxWorksheet float64) :
  workSheetReader (updateSheet f sheet st ws) sheet = inl ws.
Proof.
  unfold workSheetReader, updateSheet. cbn [Sheet.Sheet].
  by rewrite lookup_insert_eq.
Qed.

Lemma workSheetReader_Some (f : File float64) (sheet : string)
    (ws : xlsxWorksheet float64) :
  Sheet.Sheet f !! sheet = Some ws -> workSheetReader f sheet = inl ws.
Proof. unfold workSheetReader. by intros ->. Qed.

(** X18. [SetRowVisible] and [GetRowVisible] agree: on an existing
    sheet, when [prepareSheetXML] keeps the stored rows and leaves at
    least [row] of them, the setter returns no error, the getter then
    returns for the row what was set, and for every other stored row
    what it returned before. *)
Theorem SetRowVisible_GetRowVisible (f : File float64) (sheet : string)
    (ws ws' : xlsxWorksheet float64) (st' : Store)
    (extra : list (xlsxRow float64)) (row : Z) (visible : bool) :
  1 <= row ->
  Sheet.Sheet f !! sheet = Some ws ->
  prepareSheetXML (store f) ws 0 row = (st', ws') ->
  SheetData ws' = SheetData ws ++ extra ->
  row <= Z.of_nat (length (SheetData ws')) ->
  exists f',
    SetRowVisible f sheet row visible = Returned (f', None)
    /\ GetRowVisible f' sheet row = (visible, None)
    /\ (forall row',
          row' <> row -> 1 <= row' <= Z.of_nat (length (SheetData ws)) ->
          GetRowVisible f' sheet row' = GetRowVisible f sheet row').
Proof.
  intros Hrow Hws Hprep Hkeeps Hlen.
  unfold SetRowVisible, Sheet.SetRowVisible, setRowField.
  destruct (Z.ltb_spec row 1); [lia|].
  rewrite (workSheetReader_Some _ _ _ Hws), Hprep.
  destruct (lookup_lt_is_Some_2 (SheetData ws') (Z.to_nat (row - 1)))
    as [r Hr]; [lia|].
  rewrite Hr. eexists. split; [done|].
  unfold GetRowVisible. rewrite workSheetReader_updateSheet.
  cbn [SheetData setSheetData]. rewrite length_insert. split.
  - destruct (Z.ltb_spec row 1); [lia|].
    destruct (Z.ltb_spec (Z.of_nat (length (SheetData ws'))) row); [lia|].
    rewrite list_lookup_insert_eq by lia. cbn [Row.Hidden].
    by rewrite negb_involutive.
  - intros row' Hne Hrow'. rewrite (workSheetReader_Some _ _ _ Hws).
    destruct (Z.ltb_spec row' 1); [lia|].
    rewrite Hkeeps in *. rewrite length_app.
    destruct (Z.ltb_spec (Z.of_nat (length (SheetData ws) + length extra))
                row'); [lia|].
    destruct (Z.ltb_spec (Z.of_nat (length (SheetData ws))) row'); [lia|].
    rewrite list_lookup_insert_ne by lia.
    by rewrite lookup_app_l by lia.
Qed.

(** X19. [SetRowOutlineLevel] takes the levels 1 to 7 only: any other
    level is refused with the outline-level error and the file left as
    it is, so that the level 0 cannot be set; a level it takes is what
    [GetRowOutlineLevel] then returns for the row. *)
Theorem SetRowOutlineLevel_GetRowOutlineLevel (f : File float64)
    (sheet : string) (ws ws' : xlsxWorksheet float64) (st' : Store)
    (row level : Z) :
  1 <= row ->
  Sheet.Sheet f !! sheet = Some ws ->
  prepareSheetXML (store f) ws 0 row = (st', ws') ->
  row <= Z.of_nat (length (SheetData ws')) ->
  (~ 1 <= level <= 7 ->
   SetRowOutlineLevel f sheet row level = Returned (f, Some ErrOutlineLevel))
  /\ (1 <= level <= 7 ->
      exists f',
        SetRowOutlineLevel f sheet row level = Returned (f', None)
        /\ GetRowOutlineLevel f' sheet row = (level, None)).
Proof.
  intros Hrow Hws Hprep Hlen.
  unfold SetRowOutlineLevel, Sheet.SetRowOutlineLevel, setRowField.
  destruct (Z.ltb_spec row 1); [lia|]. split; intros Hlevel.
  - by destruct (Z.ltb_spec 7 level), (Z.ltb_spec level 1); try lia.
  - destruct (Z.ltb_spec 7 level), (Z.ltb_spec level 1); try lia.
    cbn [orb]. rewrite (workSheetReader_Some _ _ _ Hws), Hprep.
    destruct (lookup_lt_is_Some_2 (SheetData ws') (Z.to_nat (row - 1)))
      as [r Hr]; [lia|].
    rewrite Hr. eexists. split; [done|].
    unfold GetRowOutlineLevel. rewrite workSheetReader_updateSheet.
    cbn [SheetData setSheetData]. rewrite length_insert.
    destruct (Z.ltb_spec row 1); [lia|].
    destruct (Z.ltb_spec (Z.of_nat (length (SheetData ws'))) row); [lia|].
    by rewrite list_lookup_insert_eq by lia.
Qed.

(** X20. [SetRowHeight] writes the row at the position [row], and
    [GetRowHeight] reads the first row numbered [row] that has a
    height. They agree when the row at that position is numbered
    [row] and no row before it is: the height set is the height
    returned. A height above the maximum is refused and the file left
    as it is. *)
Theorem SetRowHeight_GetRowHeight (f : File float64) (sheet : string)
    (ws ws' : xlsxWorksheet float64) (st' : Store)
    (r : xlsxRow float64) (row : Z) (height : float64) :
  1 <= row ->
  Sheet.Sheet f !! sheet = Some ws ->
  prepareSheetXML (store f) ws 0 row = (st', ws') ->
  SheetData ws' !! Z.to_nat (row - 1) = Some r ->
  Row.R r = row ->
  (forall i r', (i < Z.to_nat (row - 1))%nat ->
                SheetData ws' !! i = Some r' -> Row.R r' <> row) ->
  (aboveMaxRowHeight height = true ->
   SetRowHeight f sheet row height = Returned (f, Some ErrMaxRowHeight))
  /\ (aboveMaxRowHeight height = false ->
      exists f',
        SetRowHeight f sheet row height = Returned (f', None)
        /\ GetRowHeight f' sheet row = (height, None)).
Proof.
  intros Hrow Hws Hprep Hr HR Hbefore.
  unfold SetRowHeight, Sheet.SetRowHeight, setRowField.
  destruct (Z.ltb_spec row 1); [lia|]. split; intros ->; [done|].
  rewrite (workSheetReader_Some _ _ _ Hws), Hprep, Hr.
  eexists. split; [done|].
  unfold GetRowHeight, Sheet.GetRowHeight.
  rewrite workSheetReader_updateSheet.
  cbn [SheetData setSheetData SheetFormatPr]. rewrite length_insert.
  destruct (Z.ltb_spec row 1); [lia|].
  pose proof (lookup_lt_Some _ _ _ Hr) as Hlt.
  destruct (Z.ltb_spec (Z.of_nat (length (SheetData ws'))) row); [lia|].
  match goal with
  | |- context [list_find ?P ?l] =>
      destruct (list_find P l) as [[i v]|] eqn:Hfind
  end.
  - apply list_find_Some in Hfind as (Hi & [Hv Hht] & Hfirst).
    destruct (Nat.lt_trichotomy i (Z.to_nat (row - 1))) as [Hlt'|[->|Hgt]].
    + rewrite list_lookup_insert_ne in Hi by lia.
      by destruct (Hbefore i v Hlt' Hi).
    + rewrite list_lookup_insert_eq in Hi by lia.
      by injection Hi as <-.
    + destruct (Hfirst (Z.to_nat (row - 1)) _
                  (list_lookup_insert_eq _ _ _ Hlt) Hgt).
      by split.
  - apply list_find_None in Hfind.
    rewrite Forall_forall in Hfind.
    destruct (Hfind _ (list_elem_of_lookup_2 _ _ _
                         (list_lookup_insert_eq _ _ _ Hlt))).
    by split.
Qed.

End SetterFacts.

Section SetterExamples.
Import Coordinates Heap Sheet.

(** Row 4 of the sample, which stores two rows, hidden. *)
Lemma SetRowVisible_GetRowVisible_witness :
  exists f',
    SetRowVisible prepareSheetXMLSpec Sample.file "Sheet1" 4 false
    = Returned (f', None)
    /\ GetRowVisible f' "Sheet1" 4 = (false, None).
Proof.
  destruct (SetRowVisible_GetRowVisible prepareSheetXMLSpec Sample.file
              "Sheet1" Sample.sheet1
              (snd (prepareSheetXMLSpec Sample.cells Sample.sheet1 0 4))
              Sample.cells
              [Row.mkRow 3 EmptyString 0 false None false false 0 NilSlice;
               Row.mkRow 4 EmptyString 0 false None false false 0 NilSlice]
              4 false) as (f' & Hset & Hget & _).
  - lia.
  - reflexivity.
  - reflexivity.
  - reflexivity.
  - vm_compute. discriminate.
  - by exists f'.
Defined.

(** The level 3 for row 1 of the sample. *)
Lemma SetRowOutlineLevel_GetRowOutlineLevel_witness :
  exists f',
    SetRowOutlineLevel prepareSheetXMLSpec Sample.file "Sheet1" 1 3
    = Returned (f', None)
    /\ GetRowOutlineLevel f' "Sheet1" 1 = (3, None).
Proof.
  destruct (SetRowOutlineLevel_GetRowOutlineLevel prepareSheetXMLSpec
              Sample.file "Sheet1" Sample.sheet1
              (snd (prepareSheetXMLSpec Sample.cells Sample.sheet1 0 1))
              Sample.cells 1 3) as [_ H].
  - lia.
  - reflexivity.
  - reflexivity.
  - vm_compute. discriminate.
  - apply H. lia.
Defined.

(** The height 30 for row 2 of the sample. *)
Lemma SetRowHeight_GetRowHeight_witness :
  exists f',
    SetRowHeight (fun h => 409 <? h) prepareSheetXMLSpec Sample.file
      "Sheet1" 2 30
    = Returned (f', None)
    /\ GetRowHeight 15 f' "Sheet1" 2 = (30, None).
Proof.
  destruct (SetRowHeight_GetRowHeight 15 (fun h => 409 <? h)
              prepareSheetXMLSpec Sample.file "Sheet1" Sample.sheet1
              (snd (prepareSheetXMLSpec Sample.cells Sample.sheet1 0 2))
              Sample.cells (Sample.row 2 (Slice 1 2)) 2 30) as [_ H].
  - lia.
  - reflexivity.
  - reflexivity.
  - reflexivity.
  - reflexivity.
  - intros [|i] r' Hi; [|cbn in Hi; lia].
    intros [= <-]. vm_compute. discriminate.
  - by apply H.
Defined.

End SetterExamples.

(** ** The coordinate codec, there and back *)

Section CodecRoundTrip.
Import GoString Strconv Coordinates.

Lemma byteZ_chr (z : Z) : 0 <= z < 256 -> byteZ (chr z) = z.
Proof.
  intros Hz. unfold byteZ, chr.
  rewrite N_ascii_embedding by lia. lia.
Qed.

(** The digits [digits] writes are read back by [decimalValue]. *)
Lemma digits_decimalValue (f : nat) :
  forall n acc,
    0 <= n < 2 ^ Z.of_nat (S f) ->
    exists k : nat,
      forall v,
        decimalValue (digits (S f) n acc) v
        = decimalValue acc (v * 10 ^ Z.of_nat k + n).
Proof.
  induction f as [|f IH]; intros n acc Hn.
  - exists 1%nat. intros v. cbn [digits].
    change (2 ^ Z.of_nat 1) with 2 in Hn.
    destruct (Z.ltb_spec n 10); [|lia].
    cbn [decimalValue]. unfold isDigit, within.
    rewrite Z.mod_small by lia. rewrite byteZ_chr by lia.
    destruct (Z.leb_spec 48 (48 + n)); [|lia].
    destruct (Z.leb_spec (48 + n) 57); [|lia].
    cbn [andb]. f_equal. change (10 ^ Z.of_nat 1) with 10. lia.
  - change (digits (S (S f)) n acc)
      with (let acc' := String (chr (48 + n mod 10)) acc in
            if n <? 10 then acc' else digits (S f) (n / 10) acc').
    cbn zeta.
    assert (0 <= n mod 10 < 10) as Hd by (apply Z.mod_pos_bound; lia).
    assert (forall v,
              decimalValue (String (chr (48 + n mod 10)) acc) v
              = decimalValue acc (v * 10 + n mod 10)) as Hstep.
    { intros v. cbn [decimalValue]. unfold isDigit, within.
      rewrite byteZ_chr by lia.
      destruct (Z.leb_spec 48 (48 + n mod 10)); [|lia].
      destruct (Z.leb_spec (48 + n mod 10) 57); [|lia].
      cbn [andb]. f_equal. lia. }
    destruct (Z.ltb_spec n 10).
    + exists 1%nat. intros v. rewrite Hstep.
      rewrite Z.mod_small by lia. by change (10 ^ Z.of_nat 1) with 10.
    + destruct (IH (n / 10) (String (chr (48 + n mod 10)) acc)) as [k Hk].
      { split; [apply Z.div_pos; lia|].
        apply Z.div_lt_upper_bound; [lia|].
        rewrite (Nat2Z.inj_succ (S f)), Z.pow_succ_r in Hn by lia. lia. }
      exists (S k). intros v. rewrite Hk, Hstep. f_equal.
      rewrite Nat2Z.inj_succ, Z.pow_succ_r by lia.
      pose proof (Z.div_mod n 10). lia.
Qed.

Lemma digits_head (f : nat) :
  forall n acc,
    exists d t,
      digits (S f) n acc = String (chr (48 + d)) t /\ 0 <= d < 10.
Proof.
  induction f as [|f IH]; intros n acc.
  - exists (n mod 10), acc. split; [|apply Z.mod_pos_bound; lia].
    cbn [digits]. by destruct (n <? 10).
  - change (digits (S (S f)) n acc)
      with (let acc' := String (chr (48 + n mod 10)) acc in
            if n <? 10 then acc' else digits (S f) (n / 10) acc').
    cbn zeta. destruct (n <? 10); [|apply IH].
    exists (n mod 10), acc. split; [done|apply Z.mod_pos_bound; lia].
Qed.

Lemma log2_fuel (n : Z) : 0 <= n -> n < 2 ^ Z.of_nat (S (Z.to_nat (Z.log2 n))).
Proof.
  intros Hn. rewrite Nat2Z.inj_succ, Z2Nat.id by apply Z.log2_nonneg.
  destruct (Z.eq_dec n 0) as [->|]; [done|].
  apply Z.log2_spec. lia.
Qed.

Lemma Itoa_decimalValue (n : Z) :
  0 <= n -> decimalValue (Itoa n) 0 = Some n.
Proof.
  intros Hn. unfold Itoa. destruct (Z.ltb_spec n 0); [lia|].
  destruct (digits_decimalValue (Z.to_nat (Z.log2 n)) n EmptyString)
    as [k Hk]; [split; [done|by apply log2_fuel]|].
  by rewrite Hk.
Qed.

(** The letters [columnLetters] writes are read back by
    [columnValue]. *)
Lemma columnLetters_columnValue (f : nat) :
  forall n acc,
    0 <= n < 2 ^ Z.of_nat f ->
    exists k : nat,
      forall v,
        columnValue (columnLetters f n acc) v
        = columnValue acc (v * 26 ^ Z.of_nat k + n).
Proof.
  induction f as [|f IH]; intros n acc Hn.
  - exists 0%nat. intros v. cbn [columnLetters]. f_equal.
    change (2 ^ Z.of_nat 0) with 1 in Hn. change (26 ^ Z.of_nat 0) with 1. lia.
  - cbn [columnLetters]. destruct (Z.leb_spec n 0).
    + exists 0%nat. intros v. f_equal. change (26 ^ Z.of_nat 0) with 1. lia.
    + assert (0 <= (n - 1) mod 26 < 26) as Hd
        by (apply Z.mod_pos_bound; lia).
      destruct (IH ((n - 1) / 26) (String (chr (65 + (n - 1) mod 26)) acc))
        as [k Hk].
      { split; [apply Z.div_pos; lia|].
        apply Z.div_lt_upper_bound; [lia|].
        rewrite Nat2Z.inj_succ, Z.pow_succ_r in Hn by lia. lia. }
      exists (S k). intros v. rewrite Hk. cbn [columnValue].
      unfold isUpper, within. rewrite byteZ_chr by lia.
      destruct (Z.leb_spec 65 (65 + (n - 1) mod 26)); [|lia].
      destruct (Z.leb_spec (65 + (n - 1) mod 26) 90); [|lia].
      cbn [andb]. f_equal.
      rewrite Nat2Z.inj_succ, Z.pow_succ_r by lia.
      pose proof (Z.div_mod (n - 1) 26). lia.
Qed.

Lemma columnLetters_splitLetters (f : nat) (rest : string) :
  forall n acc,
    splitLetters (acc +:+ rest) = (acc, rest) ->
    splitLetters (columnLetters f n acc +:+ rest)
    = (columnLetters f n acc, rest).
Proof.
  induction f as [|f IH]; intros n acc Hacc; [done|].
  cbn [columnLetters]. destruct (n <=? 0); [done|].
  apply IH. rewrite append_cons. cbn [splitLetters].
  assert (0 <= (n - 1) mod 26 < 26) as Hd by (apply Z.mod_pos_bound; lia).
  unfold isUpper, within. rewrite byteZ_chr by lia.
  destruct (Z.leb_spec 65 (65 + (n - 1) mod 26)); [|lia].
  destruct (Z.leb_spec (65 + (n - 1) mod 26) 90); [|lia].
  cbn [andb]. by rewrite Hacc.
Qed.

Lemma columnLetters_not_empty (f : nat) :
  forall n acc,
    acc <> EmptyString -> columnLetters f n acc <> EmptyString.
Proof.
  induction f as [|f IH]; intros n acc Hacc; [done|].
  cbn [columnLetters]. destruct (n <=? 0); [done|]. by apply IH.
Qed.

(** A string without a colon: [splitColon] finds none. *)
Lemma splitColon_append (a b : string) :
  splitColon a = (a, None) -> splitColon b = (b, None) ->
  splitColon (a +:+ b) = (a +:+ b, None).
Proof.
  intros Ha Hb. induction a as [|x a IH]; [done|].
  rewrite append_cons. cbn [splitColon] in *.
  destruct (byteZ x =? 58); [done|].
  destruct (splitColon a) as [l r]. injection Ha as -> ->.
  by rewrite IH.
Qed.

Lemma splitColon_at (a b : string) :
  splitColon a = (a, None) ->
  splitColon (a +:+ ":" +:+ b) = (a, Some b).
Proof.
  intros Ha. induction a as [|x a IH]; [done|].
  rewrite append_cons. cbn [splitColon] in *.
  destruct (byteZ x =? 58); [done|].
  destruct (splitColon a) as [l r]. injection Ha as -> ->.
  by rewrite IH.
Qed.

Lemma columnLetters_no_colon (f : nat) :
  forall n acc,
    splitColon acc = (acc, None) ->
    splitColon (columnLetters f n acc) = (columnLetters f n acc, None).
Proof.
  induction f as [|f IH]; intros n acc Hacc; [done|].
  cbn [columnLetters]. destruct (n <=? 0); [done|].
  apply IH. cbn [splitColon].
  assert (0 <= (n - 1) mod 26 < 26) as Hd by (apply Z.mod_pos_bound; lia).
  rewrite byteZ_chr by lia.
  destruct (Z.eqb_spec (65 + (n - 1) mod 26) 58); [lia|]. by rewrite Hacc.
Qed.

Lemma digits_no_colon (f : nat) :
  forall n acc,
    splitColon acc = (acc, None) ->
    splitColon (digits f n acc) = (digits f n acc, None).
Proof.
  induction f as [|f IH]; intros n acc Hacc; [done|].
  cbn [digits].
  assert (0 <= n mod 10 < 10) as Hd by (apply Z.mod_pos_bound; lia).
  assert (splitColon (String (chr (48 + n mod 10)) acc)
          = (String (chr (48 + n mod 10)) acc, None)) as Hstep.
  { cbn [splitColon]. rewrite byteZ_chr by lia.
    destruct (Z.eqb_spec (48 + n mod 10) 58); [lia|]. by rewrite Hacc. }
  destruct (n <? 10); [done|]. by apply IH.
Qed.

(** A name [CoordinatesToCellName] makes. *)
Lemma CoordinatesToCellName_name (col row : Z) :
  1 <= col <= MaxColumns -> 1 <= row <= TotalRows ->
  CoordinatesToCellName col row
  = (columnLetters (S (Z.to_nat (Z.log2 col))) col EmptyString +:+ Itoa row,
     None).
Proof.
  intros Hcol Hrow. unfold CoordinatesToCellName, ColumnNumberToName.
  destruct (Z.ltb_spec col 1); [lia|].
  destruct (Z.ltb_spec row 1); [lia|].
  destruct (Z.ltb_spec TotalRows row); [lia|].
  by destruct (Z.ltb_spec MaxColumns col); [lia|].
Qed.

(** [CellNameToCoordinates] undoes [CoordinatesToCellName]. *)
Lemma CellNameToCoordinates_CoordinatesToCellName (col row : Z) :
  1 <= col <= MaxColumns -> 1 <= row <= TotalRows ->
  CellNameToCoordinates (fst (CoordinatesToCellName col row))
  = (col, row, None).
Proof.
  intros Hcol Hrow. rewrite CoordinatesToCellName_name by done. cbn [fst].
  unfold CellNameToCoordinates.
  assert (exists d t, Itoa row = String (chr (48 + d)) t /\ 0 <= d < 10)
    as (d & t & Hitoa & Hd).
  { unfold Itoa. destruct (Z.ltb_spec row 0); [lia|]. apply digits_head. }
  rewrite columnLetters_splitLetters.
  2:{ rewrite append_empty_l, Hitoa. cbn [splitLetters].
      unfold isUpper, within. rewrite byteZ_chr by lia.
      by destruct (Z.leb_spec 65 (48 + d)); [lia|]. }
  rewrite Hitoa at 1. rewrite Itoa_decimalValue by lia.
  destruct (Z.ltb_spec row 1); [lia|].
  destruct (Z.ltb_spec TotalRows row); [lia|].
  unfold ColumnNameToNumber.
  destruct (columnLetters_columnValue (S (Z.to_nat (Z.log2 col))) col
              EmptyString) as [k Hk]; [split; [lia|apply log2_fuel; lia]|].
  rewrite Hk. cbn [columnValue].
  destruct (columnLetters (S (Z.to_nat (Z.log2 col))) col EmptyString)
    as [|a name] eqn:Hname.
  { cbn [columnLetters] in Hname. destruct (Z.leb_spec col 0); [lia|].
    by apply columnLetters_not_empty in Hname. }
  replace (0 * 26 ^ Z.of_nat k + col) with col by lia.
  by destruct (Z.ltb_spec MaxColumns col); [lia|].
Qed.

Lemma CoordinatesToCellName_no_colon (col row : Z) :
  1 <= col <= MaxColumns -> 1 <= row <= TotalRows ->
  splitColon (fst (CoordinatesToCellName col row))
  = (fst (CoordinatesToCellName col row), None).
Proof.
  intros Hcol Hrow. rewrite CoordinatesToCellName_name by done. cbn [fst].
  apply splitColon_append; [by apply columnLetters_no_colon|].
  unfold Itoa. destruct (Z.ltb_spec row 0); [lia|]. by apply digits_no_colon.
Qed.

(** The range between two names of one row decodes to their columns
    and that row. *)
Lemma rangeRefToCoordinates_row (x1 x2 row : Z) :
  1 <= x1 <= MaxColumns -> 1 <= x2 <= MaxColumns -> 1 <= row <= TotalRows ->
  rangeRefToCoordinates
    (fst (CoordinatesToCellName x1 row) +:+ ":"
     +:+ fst (CoordinatesToCellName x2 row))
  = ((x1, row, x2, row), None).
Proof.
  intros Hx1 Hx2 Hrow. unfold rangeRefToCoordinates.
  rewrite splitColon_at by by apply CoordinatesToCellName_no_colon.
  by rewrite !CellNameToCoordinates_CoordinatesToCellName.
Qed.

End CodecRoundTrip.

(** ** The ranges [duplicateMergeCells] adds *)

Section MergePropagation.
Import GoString Coordinates Heap Sheet.

Context {float64 : Type}.

Lemma rangeRefToCoordinates_bounds (ref : string) (x1 y1 x2 y2 : Z) :
  rangeRefToCoordinates ref = ((x1, y1, x2, y2), None) ->
  1 <= x1 <= MaxColumns /\ 1 <= x2 <= MaxColumns.
Proof.
  unfold rangeRefToCoordinates.
  destruct (splitColon ref) as [first [last|]]; [|done].
  destruct (CellNameToCoordinates first) as [[a b] [e|]] eqn:Hfirst; [done|].
  destruct (CellNameToCoordinates last) as [[c d] [e|]] eqn:Hlast; [done|].
  intros [= <- <- <- <-].
  apply CellNameToCoordinates_bounds in Hfirst, Hlast. lia.
Qed.

Lemma setMergeCells_same (ws : xlsxWorksheet float64) :
  setMergeCells ws (MergeCells ws) = ws.
Proof. by destruct ws. Qed.

(** The second loop on ranges that lie in the row [row2]: none is in
    the row that is copied, and nothing is added. *)
Lemma mergeLoop_added (row row2 : Z) (added : list xlsxMergeCell) :
  forall (done : list xlsxMergeCell) (ws : xlsxWorksheet float64)
         (fuel : nat),
    row <> row2 ->
    MergeCells ws = Some (done ++ added) ->
    Forall (fun a =>
              exists x1 x2,
                rangeRefToCoordinates (Ref a) = ((x1, row2, x2, row2), None))
      added ->
    (length added + 1 <= fuel)%nat ->
    mergeLoop fuel (length done) ws row row2 = (ws, None).
Proof.
  induction added as [|a added IH]; intros done ws fuel Hne Hcells Hadded Hfuel.
  - destruct fuel as [|fuel]; [cbn in Hfuel; lia|].
    cbn [mergeLoop]. rewrite Hcells. cbn [from_option id].
    by rewrite app_nil_r, lookup_ge_None_2.
  - apply Forall_cons in Hadded as [(x1 & x2 & Ha) Hadded].
    destruct fuel as [|fuel]; [cbn in Hfuel; lia|].
    cbn [mergeLoop]. rewrite Hcells. cbn [from_option id].
    rewrite lookup_app_r, Nat.sub_diag by done. cbn [lookup list_lookup].
    rewrite Ha. rewrite Z.eqb_refl.
    destruct (Z.eqb_spec row2 row); [done|]. cbn [andb].
    replace (S (length done)) with (length (done ++ [a]))
      by (rewrite length_app; cbn; lia).
    apply IH; [done|by rewrite <- app_assoc|done|cbn in Hfuel; lia].
Qed.

(** The second loop from a range on: the ranges not yet seen, [todo],
    stand before the ranges added so far. *)
Lemma mergeLoop_run (row row2 : Z) (todo : list xlsxMergeCell) :
  forall (done added : list xlsxMergeCell) (ws : xlsxWorksheet float64)
         (fuel : nat),
    row <> row2 -> 1 <= row2 <= TotalRows ->
    MergeCells ws = Some (done ++ todo ++ added) ->
    Forall (fun r =>
              exists co, rangeRefToCoordinates (Ref r) = (co, None)) todo ->
    Forall (fun a =>
              exists x1 x2,
                rangeRefToCoordinates (Ref a) = ((x1, row2, x2, row2), None))
      added ->
    (length todo + length added + length (movedRanges todo row row2) + 1
     <= fuel)%nat ->
    mergeLoop fuel (length done) ws row row2
    = (setMergeCells ws
         (Some (done ++ todo ++ added ++ movedRanges todo row row2)), None).
Proof.
  induction todo as [|rng todo IH];
    intros done added ws fuel Hne Hrow2 Hcells Htodo Hadded Hfuel.
  - cbn [movedRanges omap list_omap app]. rewrite app_nil_r.
    rewrite (mergeLoop_added row row2 added) by (done || (cbn in Hfuel; lia)).
    cbn [app] in Hcells. by rewrite <- Hcells, setMergeCells_same.
  - apply Forall_cons in Htodo as [[[[[x1 y1] x2] y2] Hrng] Htodo].
    destruct fuel as [|fuel]; [cbn in Hfuel; lia|].
    cbn [mergeLoop]. rewrite Hcells. cbn [from_option id].
    rewrite lookup_app_r, Nat.sub_diag by done. cbn [lookup list_lookup app].
    rewrite Hrng.
    unfold movedRanges in *. cbn [omap list_omap] in *. rewrite Hrng in *.
    replace (S (length done)) with (length (done ++ [rng]))
      by (rewrite length_app; cbn; lia).
    destruct ((y1 =? y2) && (y1 =? row)) eqn:Hsingle.
    + pose proof (rangeRefToCoordinates_bounds _ _ _ _ _ Hrng) as [Hx1 Hx2].
      unfold MergeCell.
      rewrite rangeRefToCoordinates_row by done.
      rewrite Hcells. cbn [from_option id].
      cbn [length] in Hfuel.
      rewrite (IH (done ++ [rng])
                 (added
                  ++ [mkMergeCell
                        (fst (CoordinatesToCellName x1 row2) +:+ ":"
                         +:+ fst (CoordinatesToCellName x2 row2))])).
      * unfold setMergeCells. cbn [SheetFormatPr SheetData MergeCells].
        do 3 f_equal. by rewrite <- !app_assoc.
      * done.
      * done.
      * cbn [setMergeCells MergeCells]. f_equal.
        by rewrite <- !app_assoc.
      * done.
      * apply Forall_app. split; [done|].
        apply Forall_cons. split; [|by apply Forall_nil].
        exists x1, x2. cbn [Ref]. by apply rangeRefToCoordinates_row.
      * rewrite length_app. cbn [length]. lia.
    + cbn [length] in Hfuel.
      rewrite (IH (done ++ [rng]) added).
      * do 3 f_equal. by rewrite <- !app_assoc.
      * done.
      * done.
      * rewrite Hcells. f_equal. by rewrite <- !app_assoc.
      * done.
      * done.
      * lia.
Qed.

Lemma movedRanges_length (cells : list xlsxMergeCell) (row row2 : Z) :
  (length (movedRanges cells row row2) <= length cells)%nat.
Proof.
  unfold movedRanges. induction cells as [|c cells IH]; [done|].
  cbn [omap list_omap length].
  destruct (rangeRefToCoordinates (Ref c)) as [[[[x1 y1] x2] y2] e].
  destruct ((y1 =? y2) && (y1 =? row)); cbn [length]; lia.
Qed.

(** X21. [duplicateMergeCells] on ranges that all decode and none of
    which holds the target row strictly between its rows, for a target
    row within the limit: it returns no error and appends to the merged
    ranges, in their order, one range for each range that lies in the
    one row of the source (the row after it when the target lies above
    it); every such range of columns [x1] to [x2] has its copy, which
    decodes to the same columns in the target row. *)
Theorem duplicateMergeCells_propagates (ws : xlsxWorksheet float64)
    (cells : list xlsxMergeCell) (row row2 : Z) :
  MergeCells ws = Some cells ->
  Forall (fun r =>
            exists x1 y1 x2 y2,
              rangeRefToCoordinates (Ref r) = ((x1, y1, x2, y2), None)
              /\ ~ (y1 < row2 < y2)) cells ->
  1 <= row2 <= TotalRows ->
  row <> row2 ->
  GoInt.MinInt <= row < GoInt.MaxInt ->
  let source := if row2 <? row then row + 1 else row in
  duplicateMergeCells ws row row2
  = (setMergeCells ws (Some (cells ++ movedRanges cells source row2)), None)
  /\ (forall rng x1 x2,
        rng ∈ cells ->
        rangeRefToCoordinates (Ref rng) = ((x1, source, x2, source), None) ->
        exists copy,
          copy ∈ movedRanges cells source row2
          /\ rangeRefToCoordinates (Ref copy) = ((x1, row2, x2, row2), None)).
Proof.
  intros Hcells Hdecode Hrow2 Hne Hrange source. split.
  - unfold duplicateMergeCells. rewrite Hcells.
    rewrite <- (app_nil_r cells) at 1.
    rewrite scanMergeCells_app by done. cbn [scanMergeCells].
    rewrite incr_small by done. fold source.
    pose proof (movedRanges_length cells source row2) as Hlen.
    rewrite (mergeLoop_run source row2 cells [] []).
    + done.
    + unfold source. destruct (Z.ltb_spec row2 row); lia.
    + done.
    + by rewrite app_nil_r.
    + eapply Forall_impl; [exact Hdecode|]. cbn beta.
      intros r (x1 & y1 & x2 & y2 & Hr & _). by eexists.
    + by apply Forall_nil.
    + cbn [length]. lia.
  - intros rng x1 x2 Hin Hrng.
    pose proof (rangeRefToCoordinates_bounds _ _ _ _ _ Hrng) as [Hx1 Hx2].
    exists (mkMergeCell
              (fst (CoordinatesToCellName x1 row2) +:+ ":"
               +:+ fst (CoordinatesToCellName x2 row2))).
    split; [|by apply rangeRefToCoordinates_row].
    unfold movedRanges. apply list_elem_of_omap. exists rng. split; [done|].
    by rewrite Hrng, Z.eqb_refl.
Qed.

End MergePropagation.

Section MergePropagationExamples.
Import Coordinates Heap Sheet.

(** A copy of row 2 of the sample to row 3: the range A2:B2 gives
    A3:B3. *)
Lemma duplicateMergeCells_propagates_witness :
  duplicateMergeCells Sample.sheet1 2 3
  = (setMergeCells Sample.sheet1
       (Some [mkMergeCell "A2:B2"; mkMergeCell "D4:D6"; mkMergeCell "A3:B3"]),
     None).
Proof.
  refine (proj1 (duplicateMergeCells_propagates Sample.sheet1
                   [mkMergeCell "A2:B2"; mkMergeCell "D4:D6"] 2 3 _ _ _ _ _)).
  - reflexivity.
  - apply Forall_cons. split; [exists 1, 2, 2, 2; split; [reflexivity|lia]|].
    apply Forall_cons. split; [exists 4, 4, 4, 6; split; [reflexivity|lia]|].
    by apply Forall_nil.
  - unfold TotalRows. lia.
  - lia.
  - unfold GoInt.MinInt, GoInt.MaxInt. lia.
Defined.

End MergePropagationExamples.

(** ** Cells without a reference: the first loop of [checkRow] *)

Section NamingFacts.
Import GoString Coordinates Heap Sheet.

Context {float64 : Type}.

(** The names the first loop gives to cells that have none, from the
    column after [rCount] on. *)
Lemma fillR_unnamed (rowIdx : nat) (cs : list xlsxC) :
  forall rCount,
    Forall (fun c => Cell.R c = EmptyString) cs ->
    0 <= rCount -> rCount + Z.of_nat (length cs) <= MaxColumns ->
    fillR rowIdx cs rCount
    = (imap (fun i c =>
               Cell.setR c
                 (fst (CoordinatesToCellName (rCount + Z.of_nat i + 1)
                         (Z.of_nat rowIdx + 1)))) cs, None).
Proof.
  induction cs as [|c cs IH]; intros rCount Hcs Hlo Hhi; [done|].
  apply Forall_cons in Hcs as [Hc Hcs]. cbn [length] in Hhi.
  cbn [fillR]. rewrite Hc. cbn [String.eqb].
  rewrite incr_small
    by (unfold GoInt.MinInt, GoInt.MaxInt, MaxColumns in *; lia).
  rewrite IH by (done || lia). rewrite imap_cons. f_equal. f_equal.
  - by rewrite Z.add_0_r.
  - apply imap_ext. intros i c' _. cbn beta. unfold compose.
    do 3 f_equal. lia.
Qed.

(** X22. [checkRow] on a row whose cells have no reference, as many
    cells as a row may have columns at most: the cells are named, in
    place, by their position in the row and the position of the row
    in the list, and the row is not rebuilt. *)
Theorem checkRowAt_names_cells (st : Store) (rowIdx : nat)
    (rowData : xlsxRow float64) :
  cellsOf st (Row.C rowData) <> [] ->
  Forall (fun c => Cell.R c = EmptyString) (cellsOf st (Row.C rowData)) ->
  Z.of_nat (length (cellsOf st (Row.C rowData))) <= MaxColumns ->
  Z.of_nat rowIdx < TotalRows ->
  checkRowAt st rowIdx rowData
  = Returned
      (storeCells st (Row.C rowData)
         (imap (fun i c =>
                  Cell.setR c
                    (fst (CoordinatesToCellName (Z.of_nat i + 1)
                            (Z.of_nat rowIdx + 1))))
            (cellsOf st (Row.C rowData))),
       rowData, None).
Proof.
  intros Hne Hunnamed Hmax Hrow. unfold checkRowAt.
  destruct (last (cellsOf st (Row.C rowData))) as [lastCell|] eqn:Hlast.
  2:{ by apply last_None in Hlast. }
  rewrite fillR_unnamed by (done || lia).
  set (named := imap _ (cellsOf st (Row.C rowData))).
  assert (last named
          = Some (Cell.setR lastCell
                    (fst (CoordinatesToCellName
                            (Z.of_nat (length (cellsOf st (Row.C rowData))))
                            (Z.of_nat rowIdx + 1))))) as ->.
  { unfold named. rewrite last_lookup, length_imap, list_lookup_imap.
    rewrite last_lookup in Hlast. rewrite Hlast. cbn [fmap option_fmap option_map].
    do 4 f_equal.
    destruct (cellsOf st (Row.C rowData)); [done|]. cbn [length pred]. lia. }
  cbn [Cell.R Cell.setR].
  assert (1 <= Z.of_nat (length (cellsOf st (Row.C rowData)))).
  { destruct (cellsOf st (Row.C rowData)); [done|]. cbn [length]. lia. }
  rewrite CellNameToCoordinates_CoordinatesToCellName by lia.
  by rewrite Z.ltb_irrefl.
Qed.

End NamingFacts.

Section NamingExamples.
Import Coordinates Heap Sheet.

(** Two cells without a reference in the second row of a sheet. *)
Lemma checkRowAt_names_cells_witness :
  checkRowAt
    (mkStore [[Sample.cell "" "v" None; Sample.cell "" "w" None]] [])
    1 (Sample.row 2 (Slice 0 2))
  = Returned
      (mkStore [[Sample.cell "A2" "v" None; Sample.cell "B2" "w" None]] [],
       Sample.row 2 (Slice 0 2), None).
Proof.
  apply (checkRowAt_names_cells
           (mkStore [[Sample.cell "" "v" None; Sample.cell "" "w" None]] [])
           1 (Sample.row 2 (Slice 0 2))).
  - discriminate.
  - by repeat constructor.
  - vm_compute. discriminate.
  - vm_compute. reflexivity.
Defined.

End NamingExamples.

(** ** The copy [DuplicateRowTo] makes *)

Section CopyFacts.
Import GoString Coordinates Heap Sheet.

Context {float64 : Type}.
Variable adjustFormula :
  string -> string -> string -> Z -> Z -> bool -> string * option error.
Variable adjustHelper :
  Store -> string -> xlsxWorksheet float64 -> Z -> Z ->
  Store * xlsxWorksheet float64 * option error.

Local Abbreviation DuplicateRowTo := (DuplicateRowTo adjustFormula adjustHelper).
Local Abbreviation adjustFormulas := (adjustFormulas adjustFormula).

(** Two cells that differ in their formula pointer at most. *)
Local Abbreviation sameContent c c' :=
  (Cell.R c' = Cell.R c /\ Cell.S c' = Cell.S c
   /\ Cell.T c' = Cell.T c /\ Cell.V c' = Cell.V c).

Lemma copyCell_spec (st : Store) (c : xlsxC) :
  arrays (fst (copyCell st c)) = arrays st
  /\ (exists extra, formulas (fst (copyCell st c)) = formulas st ++ extra)
  /\ sameContent c (snd (copyCell st c))
  /\ Forall (fun p => (length (formulas st) <= p)%nat)
       (formulaLocs [snd (copyCell st c)]).
Proof.
  unfold copyCell, formulaLocs. destruct (Cell.F c) as [p|] eqn:HF.
  - destruct (formulas st !! p) as [fm|] eqn:Hp; cbn.
    + repeat split; [by eexists|]. by repeat constructor.
    + rewrite HF. repeat split; [by exists []; rewrite app_nil_r|].
      apply lookup_ge_None in Hp. by repeat constructor.
  - cbn. rewrite HF. repeat split; [by exists []; rewrite app_nil_r|].
    by constructor.
Qed.

Lemma copyCells_spec (cs : list xlsxC) :
  forall st,
    arrays (fst (copyCells st cs)) = arrays st
    /\ (exists extra, formulas (fst (copyCells st cs)) = formulas st ++ extra)
    /\ Forall2 (fun c c' => sameContent c c') cs (snd (copyCells st cs))
    /\ Forall (fun p => (length (formulas st) <= p)%nat)
         (formulaLocs (snd (copyCells st cs))).
Proof.
  induction cs as [|c cs IH]; intros st.
  - cbn. repeat split; [by exists []; rewrite app_nil_r|done|done].
  - cbn [copyCells].
    destruct (copyCell_spec st c) as (Ha & [extra He] & Hc & Hp).
    destruct (copyCell st c) as [st1 c']. cbn [fst snd] in *.
    destruct (IH st1) as (Ha' & [extra' He'] & Hcs & Hps).
    destruct (copyCells st1 cs) as [st2 cs']. cbn [fst snd] in *.
    repeat split.
    + congruence.
    + exists (extra ++ extra'). by rewrite He', He, app_assoc.
    + by apply Forall2_cons.
    + assert (formulaLocs (c' :: cs') = formulaLocs [c'] ++ formulaLocs cs')
        as ->.
      { unfold formulaLocs. cbn [omap list_omap]. by destruct (Cell.F c'). }
      apply Forall_app. split; [done|].
      eapply Forall_impl; [exact Hps|]. cbn beta. intros p Hle.
      rewrite He, length_app in Hle. lia.
Qed.

Lemma cellsOf_allocArray (st : Store) (cs : list xlsxC) :
  cellsOf (fst (allocArray st cs)) (snd (allocArray st cs)) = cs.
Proof.
  unfold allocArray, cellsOf. cbn [fst snd arrays].
  rewrite lookup_app_r, Nat.sub_diag by done. cbn [lookup list_lookup default from_option id].
  by rewrite firstn_all.
Qed.

Lemma deepcopyRow_spec (st : Store) (r : xlsxRow float64) :
  cellsOf (fst (deepcopyRow st r)) (Row.C (snd (deepcopyRow st r)))
  = snd (copyCells st (cellsOf st (Row.C r)))
  /\ formulas (fst (deepcopyRow st r))
     = formulas (fst (copyCells st (cellsOf st (Row.C r))))
  /\ Row.R (snd (deepcopyRow st r)) = Row.R r.
Proof.
  unfold deepcopyRow, copySlice. destruct (Row.C r) as [|a n] eqn:HC.
  - done.
  - destruct (copyCells st (cellsOf st (Slice a n))) as [st' cs'].
    pose proof (cellsOf_allocArray st' cs') as Hcells.
    destruct (allocArray st' cs') as [st'' c] eqn:Halloc.
    cbn [fst snd Row.C Row.setC Row.R] in *. split; [done|].
    unfold allocArray in Halloc. by injection Halloc as <- <-.
Qed.

(** The formulas [adjustFormulas] leaves alone, and the arrays. *)
Lemma adjustFormulas_frame (sheet sheetN : string) (num offset : Z)
    (si : bool) (cs : list xlsxC) :
  forall st,
    arrays (fst (adjustFormulas st cs sheet sheetN num offset si)) = arrays st
    /\ (forall p,
          p ∉ formulaLocs cs ->
          formulas (fst (adjustFormulas st cs sheet sheetN num offset si)) !! p
          = formulas st !! p).
Proof.
  induction cs as [|c cs IH]; intros st; [done|].
  cbn [Sheet.adjustFormulas]. unfold formulaLocs. cbn [omap list_omap].
  destruct (Cell.F c) as [q|] eqn:HF.
  - destruct (formulas st !! q) as [fm|] eqn:Hq.
    + destruct (adjustFormula (Cell.Content fm) sheet sheetN num offset si)
        as [content [e|]].
      * cbn [fst]. split; [done|]. intros p Hp. unfold storeFormula.
        cbn [formulas]. apply list_lookup_insert_ne. intros ->.
        apply Hp. by left.
      * destruct (IH (storeFormula st q (Cell.mkF content (Cell.Ref fm))))
          as [Ha Hf].
        split; [by rewrite Ha|]. intros p Hp. rewrite Hf.
        -- unfold storeFormula. cbn [formulas].
           apply list_lookup_insert_ne. intros ->. apply Hp. by left.
        -- intros Hin. apply Hp. by right.
    + destruct (IH st) as [Ha Hf]. split; [done|]. intros p Hp.
      apply Hf. intros Hin. apply Hp. by right.
  - apply IH.
Qed.

Lemma mergeLoop_SheetData (row row2 : Z) (fuel : nat) :
  forall (i : nat) (ws : xlsxWorksheet float64),
    SheetData (fst (mergeLoop fuel i ws row row2)) = SheetData ws.
Proof.
  induction fuel as [|fuel IH]; intros i ws; [done|].
  cbn [mergeLoop]. destruct (default [] (MergeCells ws) !! i) as [m|]; [|done].
  destruct (rangeRefToCoordinates (Ref m)) as [[[[x1 y1] x2] y2] e].
  destruct ((y1 =? y2) && (y1 =? row)); [|apply IH].
  unfold MergeCell.
  destruct (rangeRefToCoordinates _) as [co [e'|]]; [done|].
  by rewrite IH.
Qed.

Lemma duplicateMergeCells_SheetData (ws : xlsxWorksheet float64)
    (row row2 : Z) :
  SheetData (fst (duplicateMergeCells ws row row2)) = SheetData ws.
Proof.
  unfold duplicateMergeCells. destruct (MergeCells ws) as [cells|]; [|done].
  destruct (scanMergeCells cells row2); [done|]. apply mergeLoop_SheetData.
Qed.

Lemma formulaLocs_setR (g : xlsxC -> string) (cs : list xlsxC) :
  formulaLocs (map (fun c => Cell.setR c (g c)) cs) = formulaLocs cs.
Proof.
  unfold formulaLocs. induction cs as [|c cs IH]; [done|].
  cbn [map omap list_omap Cell.setR Cell.F]. by rewrite IH.
Qed.

(** The second copy of the cells and the shift of their references. *)
Lemma shifted_copy (st : Store) (rc : xlsxRow float64) (cs : list xlsxC)
    (offset : Z) :
  adjustSingleRowDimensions (fst (allocArray st cs))
    (Row.setC rc (snd (allocArray st cs))) offset
  = (mkStore
       (arrays st
        ++ [map (fun c => Cell.setR c (shiftRef (Cell.R c) offset)) cs])
       (formulas st),
     Row.setR (Row.setC rc (Slice (length (arrays st)) (length cs)))
       (GoInt.add (Row.R rc) offset)).
Proof.
  unfold adjustSingleRowDimensions.
  cbn [Row.C Row.setR Row.setC Row.R].
  rewrite cellsOf_allocArray.
  unfold allocArray, storeCells. cbn [fst snd arrays formulas].
  rewrite lookup_app_r, Nat.sub_diag by done. cbn [lookup list_lookup].
  f_equal. f_equal.
  rewrite insert_app_r_alt, Nat.sub_diag by done. cbn [insert list_insert].
  rewrite drop_all, app_nil_r.
  rewrite <- (length_map (fun c => Cell.setR c (shiftRef (Cell.R c) offset)) cs).
  by rewrite firstn_all.
Qed.

(** X23. The row [DuplicateRowTo] stores is a copy of its own. When a
    row numbered [row] is stored, [adjustHelper] returns no error and
    leaves the cells copied before it as they are, and the target is a
    stored row or lies past the stored rows: the row stored at the
    target is numbered [row2] and has a backing array that did not
    exist before, the only array added to those [adjustHelper] left,
    which are all as it left them; its cells have the style, type and
    value of the cells of the source, in their order; the formulas they
    point to are at locations that did not exist before the call, and
    every formula that did is as [adjustHelper] left it. *)
Theorem DuplicateRowTo_fresh_copy (f : File float64) (sheet : string)
    (ws ws1 : xlsxWorksheet float64) (st1 : Store) (i : nat)
    (r : xlsxRow float64) (row row2 : Z) :
  1 <= row <= GoInt.MaxInt ->
  1 <= row2 <= GoInt.MaxInt ->
  row <> row2 ->
  Sheet.Sheet f !! sheet = Some ws ->
  list_find (fun r => Row.R r = row) (SheetData ws) = Some (i, r) ->
  adjustHelper (fst (deepcopyRow (store f) r)) sheet ws row2 1
  = (st1, ws1, None) ->
  cellsOf st1 (Row.C (snd (deepcopyRow (store f) r)))
  = cellsOf (fst (deepcopyRow (store f) r))
      (Row.C (snd (deepcopyRow (store f) r))) ->
  (is_Some (list_find (fun r => Row.R r = row2) (SheetData ws1))
   \/ Z.of_nat (length (SheetData ws1)) < row2) ->
  exists f' e ws' rowCopy cells,
    DuplicateRowTo f sheet row row2 = (f', e)
    /\ Sheet.Sheet f' !! sheet = Some ws'
    /\ SheetData ws'
       = match list_find (fun r => Row.R r = row2) (SheetData ws1) with
         | Some (i2, _) => <[i2 := rowCopy]> (SheetData ws1)
         | None => SheetData ws1 ++ [rowCopy]
         end
    /\ Row.R rowCopy = row2
    /\ Row.C rowCopy = Slice (length (arrays st1)) (length cells)
    /\ arrays (store f') = arrays st1 ++ [cells]
    /\ Forall2 (fun c c' =>
                  Cell.S c' = Cell.S c /\ Cell.T c' = Cell.T c
                  /\ Cell.V c' = Cell.V c)
         (cellsOf (store f) (Row.C r)) cells
    /\ Forall (fun p => (length (formulas (store f)) <= p)%nat)
         (formulaLocs cells)
    /\ (forall p,
          (p < length (formulas (store f)))%nat ->
          formulas (store f') !! p = formulas st1 !! p).
Proof.
  intros Hrow Hrow2 Hne Hws Hfind Hadjust Hframe Htarget.
  pose proof (deepcopyRow_spec (store f) r) as (Hcells & Hformulas & HR).
  destruct (copyCells_spec (cellsOf (store f) (Row.C r)) (store f))
    as (_ & [extra Hextra] & Hcontent & Hfresh).
  unfold DuplicateRowTo, Sheet.DuplicateRowTo.
  destruct (Z.ltb_spec row 1); [lia|].
  rewrite (workSheetReader_Some _ _ _ Hws).
  destruct (Z.ltb_spec row2 1); [lia|].
  destruct (Z.eqb_spec row row2); [done|]. cbn [orb].
  rewrite Hfind.
  destruct (deepcopyRow (store f) r) as [st0 rowCopy0].
  cbn [fst snd] in *. rewrite Hadjust.
  assert (bool_decide
            (fst <$> list_find (fun r => Row.R r = row2) (SheetData ws1) = None)
          && (row2 <=? Z.of_nat (length (SheetData ws1))) = false) as ->.
  { destruct Htarget as [[[i2 r2] Hsome]|Hpast].
    - rewrite Hsome. by rewrite bool_decide_eq_false_2.
    - destruct (Z.leb_spec row2 (Z.of_nat (length (SheetData ws1)))); [lia|].
      by rewrite andb_false_r. }
  set (cs := cellsOf st1 (Row.C rowCopy0)).
  pose proof (shifted_copy st1 rowCopy0 cs (GoInt.sub row2 row)) as Hshift.
  destruct (allocArray st1 cs) as [st2 c]. cbn [fst snd] in Hshift.
  rewrite Hshift. clear Hshift.
  set (cells := map (fun c => Cell.setR c (shiftRef (Cell.R c) _)) cs).
  set (rowCopy := Row.setR _ _).
  set (st3 := mkStore _ _).
  unfold adjustSingleRowFormulas.
  assert (cellsOf st3 (Row.C rowCopy) = cells) as ->.
  { unfold st3, rowCopy, cellsOf. cbn [Row.C Row.setR Row.setC arrays].
    rewrite lookup_app_r, Nat.sub_diag by done.
    cbn [lookup list_lookup default from_option id].
    rewrite <- (length_map (fun c => Cell.setR c (shiftRef (Cell.R c)
                                                   (GoInt.sub row2 row))) cs).
    by rewrite firstn_all. }
  destruct (adjustFormulas_frame sheet sheet row (GoInt.sub row2 row) true
              cells st3) as [Harrays Hkept].
  set (st4 := fst (adjustFormulas st3 cells sheet sheet row _ true)) in *.
  set (rows2 := match fst <$> list_find _ (SheetData ws1) with
                | Some i2 => _
                | None => _
                end).
  pose proof (duplicateMergeCells_SheetData (setSheetData ws1 rows2) row row2)
    as Hdata.
  destruct (duplicateMergeCells (setSheetData ws1 rows2) row row2)
    as [ws3 e]. cbn [fst] in Hdata.
  exists (updateSheet f sheet st4 ws3), e, ws3, rowCopy, cells.
  split; [done|]. split.
  { unfold updateSheet. cbn [Sheet.Sheet]. by rewrite lookup_insert_eq. }
  split.
  { rewrite Hdata. cbn [SheetData setSheetData]. unfold rows2.
    by destruct (list_find _ (SheetData ws1)) as [[i2 r2]|]. }
  split.
  { unfold rowCopy. cbn [Row.R Row.setR Row.setC]. rewrite HR.
    apply list_find_Some in Hfind as (_ & -> & _).
    unfold GoInt.add, GoInt.sub.
    rewrite (wrap_inRange (row2 - row))
      by (unfold GoInt.inRange, GoInt.MinInt, GoInt.MaxInt in *; lia).
    rewrite wrap_inRange
      by (unfold GoInt.inRange, GoInt.MinInt, GoInt.MaxInt in *; lia).
    lia. }
  split.
  { unfold rowCopy, cells. cbn [Row.C Row.setR Row.setC].
    by rewrite length_map. }
  split.
  { unfold updateSheet. cbn [store]. by rewrite Harrays. }
  assert (cs = snd (copyCells (store f) (cellsOf (store f) (Row.C r))))
    as Hcs by (unfold cs; congruence).
  split.
  { unfold cells. rewrite Hcs. apply Forall2_fmap_r.
    eapply Forall2_impl; [exact Hcontent|]. cbn beta.
    intros x x' (_ & HS & HT & HV). by cbn [Cell.setR Cell.S Cell.T Cell.V]. }
  split.
  { unfold cells. by rewrite formulaLocs_setR, Hcs. }
  intros p Hp. unfold updateSheet. cbn [store]. rewrite Hkept; [done|].
  unfold cells. rewrite formulaLocs_setR, Hcs. intros Hin.
  rewrite Forall_forall in Hfresh. apply Hfresh in Hin. lia.
Qed.

End CopyFacts.

Section CopyExamples.
Import Coordinates Heap Sheet.

(** A copy of row 2 of the sample to row 7, past its two rows. *)
Lemma DuplicateRowTo_fresh_copy_witness :
  exists f' e (rowCopy : xlsxRow Z) cells,
    DuplicateRowTo Sample.keepFormula Sample.adjust Sample.file "Sheet1" 2 7
    = (f', e)
    /\ Row.R rowCopy = 7
    /\ Row.C rowCopy = Slice 3 (length cells)
    /\ Forall (fun p => (1 <= p)%nat) (formulaLocs cells).
Proof.
  destruct (DuplicateRowTo_fresh_copy Sample.keepFormula Sample.adjust
              Sample.file "Sheet1" Sample.sheet1 Sample.sheet1
              (fst (deepcopyRow Sample.cells (Sample.row 2 (Slice 1 2))))
              1 (Sample.row 2 (Slice 1 2)) 2 7)
    as (f' & e & ws' & rowCopy & cells & Hrun & _ & _ & HR & HC & _ & _
        & Hfresh & _).
  - unfold GoInt.MaxInt. lia.
  - unfold GoInt.MaxInt. lia.
  - lia.
  - reflexivity.
  - reflexivity.
  - reflexivity.
  - reflexivity.
  - right. vm_compute. reflexivity.
  - by exists f', e, rowCopy, cells.
Defined.

End CopyExamples.

(** ** The style of a range of rows: [SetRowStyle] *)

Section StyleFacts.
Import GoString Coordinates Heap Sheet.

Context {float64 : Type}.
Variable prepareSheetXML :
  Store -> xlsxWorksheet float64 -> Z -> Z -> Store * xlsxWorksheet float64.
Variable stylesReader : File float64 -> option Z + error.

Local Abbreviation SetRowStyle := (SetRowStyle prepareSheetXML stylesReader).

(** A row with the style [styleID]. *)
Local Abbreviation styled r styleID :=
  (Row.mkRow (Row.R r) (Row.Spans r) styleID true (Row.Ht r) (Row.Hidden r)
     (Row.CustomHeight r) (Row.OutlineLevel r) (Row.C r)).

(** The loop of [SetRowStyle] within the stored rows. *)
Lemma styleRows_spec (styleID : Z) (n : nat) :
  forall (row : Z) (st : Store) (rows : list (xlsxRow float64)),
    0 <= row -> row + Z.of_nat n <= Z.of_nat (length rows) ->
    row + Z.of_nat n <= TotalRows ->
    exists st' rows',
      styleRows n row st rows styleID = Returned (st', rows')
      /\ forall (i : nat) r,
           rows !! i = Some r ->
           rows' !! i
           = Some (if (row <=? Z.of_nat i) && (Z.of_nat i <? row + Z.of_nat n)
                   then styled r styleID else r).
Proof.
  induction n as [|n IH]; intros row st rows Hrow Hlen Hmax.
  - exists st, rows. split; [done|]. intros i r Hi.
    by destruct (Z.leb_spec row (Z.of_nat i)), (Z.ltb_spec (Z.of_nat i) (row + Z.of_nat 0));
      cbn [andb]; try lia.
  - cbn [styleRows].
    destruct (lookup_lt_is_Some_2 rows (Z.to_nat row)) as [r0 Hr0]; [lia|].
    rewrite Hr0. cbn [Row.C].
    rewrite incr_small
      by (unfold GoInt.MinInt, GoInt.MaxInt, TotalRows in *; lia).
    edestruct (IH (row + 1)) as (st' & rows' & -> & Hrows');
      [| |shelve|]; [lia|rewrite length_insert; lia|].
    exists st', rows'. split; [done|]. intros i r Hi.
    destruct (Nat.eq_dec i (Z.to_nat row)) as [->|Hne].
    + rewrite (Hrows' _ (styled r0 styleID))
        by (apply list_lookup_insert_eq; lia).
      replace r with r0 by congruence.
      destruct (Z.leb_spec (row + 1) (Z.of_nat (Z.to_nat row))); [lia|].
      destruct (Z.leb_spec row (Z.of_nat (Z.to_nat row))); [|lia].
      by destruct (Z.ltb_spec (Z.of_nat (Z.to_nat row))
                     (row + Z.of_nat (S n))); [|lia].
    + rewrite (Hrows' _ r) by by rewrite list_lookup_insert_ne.
      destruct (Z.leb_spec (row + 1) (Z.of_nat i)),
        (Z.leb_spec row (Z.of_nat i)),
        (Z.ltb_spec (Z.of_nat i) (row + 1 + Z.of_nat n)),
        (Z.ltb_spec (Z.of_nat i) (row + Z.of_nat (S n)));
        cbn [andb]; try done; lia.
  Unshelve. lia.
Qed.

(** X24. [SetRowStyle] with a range of rows within the limits, given
    in either order, and a style of the style sheet, on an existing
    sheet of which [prepareSheetXML] leaves at least [end_] rows:
    it returns no error, and of the rows [prepareSheetXML] left it
    gives the style, and the mark of a custom format, to those at the
    positions [start] to [end_], and leaves every other row as it
    was. *)
Theorem SetRowStyle_styles_rows (f : File float64) (sheet : string)
    (ws ws' : xlsxWorksheet float64) (st' : Store)
    (start end_ styleID count : Z) :
  1 <= start <= end_ ->
  end_ <= TotalRows ->
  stylesReader f = inl (Some count) ->
  0 <= styleID < count ->
  Sheet.Sheet f !! sheet = Some ws ->
  prepareSheetXML (store f) ws 0 end_ = (st', ws') ->
  end_ <= Z.of_nat (length (SheetData ws')) ->
  exists f' ws'',
    SetRowStyle f sheet start end_ styleID = Returned (f', None)
    /\ SetRowStyle f sheet end_ start styleID = Returned (f', None)
    /\ Sheet.Sheet f' !! sheet = Some ws''
    /\ forall (i : nat) r,
         SheetData ws' !! i = Some r ->
         SheetData ws'' !! i
         = Some (if (start <=? Z.of_nat i + 1) && (Z.of_nat i + 1 <=? end_)
                 then styled r styleID else r).
Proof.
  intros Hrange Hmax Hstyles Hstyle Hws Hprep Hlen.
  destruct (styleRows_spec styleID (Z.to_nat (end_ - (start - 1)))
              (start - 1) st' (SheetData ws'))
    as (st'' & rows'' & Hrun & Hrows); [lia..|].
  assert (Sheet.SetRowStyle prepareSheetXML stylesReader f sheet start end_
            styleID
          = Returned (updateSheet f sheet st'' (setSheetData ws' rows''),
                      None)) as Hset.
  { unfold Sheet.SetRowStyle.
    destruct (Z.ltb_spec end_ start); [lia|].
    destruct (Z.ltb_spec start 1); [lia|].
    destruct (Z.ltb_spec TotalRows end_); [lia|].
    rewrite Hstyles.
    destruct (Z.ltb_spec styleID 0); [lia|].
    destruct (Z.leb_spec count styleID); [lia|]. cbn [orb].
    by rewrite (workSheetReader_Some _ _ _ Hws), Hprep, Hrun. }
  exists (updateSheet f sheet st'' (setSheetData ws' rows'')),
    (setSheetData ws' rows'').
  split; [done|]. split.
  { destruct (Z.eq_dec start end_) as [->|Hne]; [done|].
    rewrite <- Hset. unfold Sheet.SetRowStyle.
    destruct (Z.ltb_spec start end_); [|lia].
    by destruct (Z.ltb_spec end_ start); [lia|]. }
  split.
  { unfold updateSheet. cbn [Sheet.Sheet]. by rewrite lookup_insert_eq. }
  intros i r Hi. cbn [SheetData setSheetData]. rewrite (Hrows i r Hi).
  by destruct (Z.leb_spec (start - 1) (Z.of_nat i)),
       (Z.ltb_spec (Z.of_nat i) (start - 1 + Z.of_nat (Z.to_nat (end_ - (start - 1))))),
       (Z.leb_spec start (Z.of_nat i + 1)),
       (Z.leb_spec (Z.of_nat i + 1) end_); cbn [andb]; try lia.
Qed.

Lemma cellsOf_storeCells (st : Store) (s : slice) (cs : list xlsxC) :
  length cs = length (cellsOf st s) ->
  cellsOf (storeCells st s cs) s = cs.
Proof.
  destruct s as [|a n]; cbn [cellsOf storeCells].
  - by destruct cs.
  - destruct (arrays st !! a) as [old|] eqn:Ha; cbn [default from_option id].
    + intros Hlen. cbn [arrays].
      rewrite list_lookup_insert_eq by by eapply lookup_lt_Some.
      cbn [default from_option id].
      rewrite length_take in Hlen.
      rewrite (take_ge cs n) by lia.
      destruct (Nat.le_gt_cases n (length old)).
      * rewrite take_app_le by lia. apply take_ge. lia.
      * rewrite (drop_ge old n), app_nil_r by lia. apply take_ge. lia.
    + rewrite Ha. cbn [default from_option id]. rewrite take_nil.
      by destruct cs.
Qed.

(** X25. The cells [SetRowStyle] styles. Called for the one row [row]:
    a cell of the row at that position takes the style when its
    reference is a cell name of the row [row], and stays as it is when
    its reference names another row or is no cell name. *)
Theorem SetRowStyle_styles_cells (f : File float64) (sheet : string)
    (ws ws' : xlsxWorksheet float64) (st' : Store)
    (r : xlsxRow float64) (row styleID count : Z) :
  1 <= row <= TotalRows ->
  stylesReader f = inl (Some count) ->
  0 <= styleID < count ->
  Sheet.Sheet f !! sheet = Some ws ->
  prepareSheetXML (store f) ws 0 row = (st', ws') ->
  SheetData ws' !! Z.to_nat (row - 1) = Some r ->
  exists f',
    SetRowStyle f sheet row row styleID = Returned (f', None)
    /\ forall (j : nat) c,
         cellsOf st' (Row.C r) !! j = Some c ->
         cellsOf (store f') (Row.C r) !! j
         = Some match CellNameToCoordinates (Cell.R c) with
                | (_, rowNum, None) =>
                    if rowNum =? row
                    then Cell.mkC (Cell.R c) styleID (Cell.T c) (Cell.V c)
                           (Cell.F c)
                    else c
                | (_, _, Some _) => c
                end.
Proof.
  intros Hrow Hstyles Hstyle Hws Hprep Hr.
  unfold SetRowStyle, Sheet.SetRowStyle.
  destruct (Z.ltb_spec row row); [lia|].
  destruct (Z.ltb_spec row 1); [lia|].
  destruct (Z.ltb_spec TotalRows row); [lia|].
  rewrite Hstyles.
  destruct (Z.ltb_spec styleID 0); [lia|].
  destruct (Z.leb_spec count styleID); [lia|]. cbn [orb].
  rewrite (workSheetReader_Some _ _ _ Hws), Hprep.
  replace (Z.to_nat (row - (row - 1))) with 1%nat by lia.
  cbn [styleRows]. rewrite Hr. cbn [Row.C].
  eexists. split; [done|]. intros j c Hj.
  unfold updateSheet. cbn [store].
  rewrite cellsOf_storeCells by (unfold styleCells; by rewrite length_map).
  unfold styleCells. rewrite list_lookup_fmap, Hj.
  cbn [fmap option_fmap option_map]. f_equal.
  destruct (CellNameToCoordinates (Cell.R c)) as [[col rowNum] [e|]] eqn:Hc;
    [done|].
  apply CellNameToCoordinates_bounds in Hc as [_ Hc].
  unfold GoInt.sub.
  rewrite wrap_inRange
    by (unfold GoInt.inRange, GoInt.MinInt, GoInt.MaxInt, TotalRows in *; lia).
  by destruct (Z.eqb_spec (rowNum - 1) (row - 1)), (Z.eqb_spec rowNum row);
    try lia.
Qed.

End StyleFacts.

Section StyleExamples.
Import Coordinates Heap Sheet.

(** The style 1 of two for the rows 2 to 3 of the sample. *)
Lemma SetRowStyle_styles_rows_witness :
  exists f',
    SetRowStyle prepareSheetXMLSpec (fun _ => inl (Some 2)) Sample.file
      "Sheet1" 2 3 1 = Returned (f', None)
    /\ SetRowStyle prepareSheetXMLSpec (fun _ => inl (Some 2)) Sample.file
         "Sheet1" 3 2 1 = Returned (f', None).
Proof.
  destruct (SetRowStyle_styles_rows prepareSheetXMLSpec
              (fun _ => inl (Some 2)) Sample.file "Sheet1" Sample.sheet1
              (snd (prepareSheetXMLSpec Sample.cells Sample.sheet1 0 3))
              Sample.cells 2 3 1 2) as (f' & ws'' & H1 & H2 & _).
  - lia.
  - unfold TotalRows. lia.
  - reflexivity.
  - lia.
  - reflexivity.
  - reflexivity.
  - vm_compute. discriminate.
  - by exists f'.
Defined.

(** Row 2 of the sample: the cells A2 and C2. *)
Lemma SetRowStyle_styles_cells_witness :
  exists f',
    SetRowStyle prepareSheetXMLSpec (fun _ => inl (Some 2)) Sample.file
      "Sheet1" 2 2 1 = Returned (f', None)
    /\ cellsOf (store f') (Slice 1 2) !! 0%nat
       = Some (Cell.mkC "A2" 1 EmptyString "x" None).
Proof.
  destruct (SetRowStyle_styles_cells prepareSheetXMLSpec
              (fun _ => inl (Some 2)) Sample.file "Sheet1" Sample.sheet1
              (snd (prepareSheetXMLSpec Sample.cells Sample.sheet1 0 2))
              Sample.cells (Sample.row 2 (Slice 1 2)) 2 1 2)
    as (f' & Hset & Hcells).
  - unfold TotalRows. lia.
  - reflexivity.
  - lia.
  - reflexivity.
  - reflexivity.
  - reflexivity.
  - exists f'. split; [done|].
    apply (Hcells 0%nat (Sample.cell "A2" "x" None)). reflexivity.
Defined.

End StyleExamples.

(** ** A cell whose reference is no cell name: [Columns] *)

Section MalformedFacts.
Import GoString Stream.

Context {RowOpts : Type}.
Variable extractRowOpts : list Attr -> RowOpts.
Variable getValueFrom : xlsxC xlsxF -> bool -> string.

Local Abbreviation rowXMLHandler := (rowXMLHandler getValueFrom).
Local Abbreviation columnsLoop := (columnsLoop extractRowOpts getValueFrom).
Local Abbreviation columnsToken := (columnsToken extractRowOpts getValueFrom).
Local Abbreviation outputCells := (outputCells getValueFrom).
Local Abbreviation contributes := (contributes getValueFrom).
Local Abbreviation Columns := (Columns extractRowOpts None getValueFrom).

(** The loop of [Columns] up to a cell whose reference does not
    decode: it returns what it has gathered, and the error. *)
Lemma columnsLoop_malformed (bad : xlsxC xlsxF) (post : list Token)
    (col row : Z) (e : error) (pre : list Token) :
  forall (rows : Rows) (it : rowXMLIterator) (cs : list (xlsxC xlsxF))
         (ks : list Z) (prev : Z) (raw : bool),
    Cell.R bad <> EmptyString ->
    Coordinates.CellNameToCoordinates (Cell.R bad) = (col, row, Some e) ->
    token rows = None ->
    rawCellValue rows = raw ->
    err it = None ->
    cellCol it = prev ->
    GoInt.inRange prev ->
    Z.of_nat (length (cells it)) <= prev ->
    cellsWithin pre = Some cs ->
    cellColumns prev cs = Some ks ->
    exists rows',
      columnsLoop (pre ++ CellElement bad :: post) rows it
      = (rows',
         cells it ++ padded (Z.of_nat (length (cells it))) (outputCells raw cs ks),
         Some e)
      /\ decoder rows' = post.
Proof.
  induction pre as [|tok rest IH];
    intros rows it cs ks prev raw Hne Hbad Htok Hraw Herr Hcol Hrange Hlen
      Hcs Hks.
  - injection Hcs as <-. injection Hks as <-.
    cbn [app Stream.columnsLoop]. unfold Stream.columnsToken.
    cbn [localName]. unfold Stream.rowXMLHandler.
    cbn [inElement setInElement DecodeElement].
    change (String.eqb "c" "c") with true. cbv iota.
    destruct (String.eqb_spec (Cell.R bad) EmptyString) as [|_]; [done|].
    rewrite Hbad. cbn [err setErr cells setCellCol setInElement].
    cbn [Stream.outputCells padded]. rewrite app_nil_r.
    by eexists.
  - cbn [app Stream.columnsLoop].
    destruct tok as [name attrs|name|data|colCell]; cbn [cellsWithin] in Hcs.
    + destruct (String.eqb name "row") eqn:Hrow; [discriminate|].
      destruct (String.eqb name "c") eqn:Hc; [discriminate|].
      unfold Stream.columnsToken.
      cbn [localName inElement setInElement]. rewrite Hrow.
      unfold Stream.rowXMLHandler. cbn [inElement setInElement]. rewrite Hc.
      change (err (setInElement it name)) with (err it). rewrite Herr.
      apply (IH _ (setInElement it name) cs ks prev raw); try done.
    + unfold Stream.columnsToken.
      destruct (String.eqb name "sheetData"); [discriminate|].
      by apply (IH _ it cs ks prev raw).
    + unfold Stream.columnsToken. by apply (IH _ it cs ks prev raw).
    + destruct (cellsWithin rest) as [cs'|] eqn:Hrest; [|discriminate].
      injection Hcs as <-.
      assert (exists k ks', ks = k :: ks') as (k & ks' & ->).
      { cbn [cellColumns] in Hks.
        destruct (if String.eqb (Cell.R colCell) EmptyString
                  then Some (GoInt.incr prev)
                  else match Coordinates.CellNameToCoordinates (Cell.R colCell) with
                       | (col, _, None) => Some col
                       | (_, _, Some _) => None
                       end) as [k|]; [|discriminate].
        destruct (prev <? k); [|discriminate].
        destruct (cellColumns k cs') as [ks'|]; [|discriminate].
        injection Hks as <-. by eexists _, _. }
      destruct (rowXMLHandler_cell getValueFrom it colCell cs' raw prev k ks'
                  Herr Hcol Hrange Hlen Hks)
        as (Herr' & Hcol' & Hrange' & Hlt & Hks' & Hcells).
      unfold Stream.columnsToken. cbn [localName].
      cbn [rawCellValue setDecoder]. rewrite Hraw, Herr'.
      edestruct (IH (setToken (setDecoder rows (rest ++ CellElement bad :: post))
                       None)
                   (rowXMLHandler (setInElement it "c") (CellElement colCell) raw)
                   cs' ks' k raw) as (rows' & Hloop & Hdec); try done.
      { rewrite Hcells. destruct (contributes raw colCell).
        - rewrite !length_app, length_replicate. simpl. lia.
        - rewrite app_nil_r. lia. }
      exists rows'. split; [|done]. rewrite Hloop. f_equal. f_equal.
      rewrite Hcells. cbn [Stream.outputCells].
      destruct (Stream.contributes getValueFrom raw colCell) eqn:Hcontrib.
      * cbn [padded]. rewrite <- !app_assoc. f_equal.
        rewrite !length_app, length_replicate. cbn [length app].
        f_equal. f_equal. f_equal. lia.
      * by rewrite app_nil_r.
Qed.

(** X26. [Columns] in a row that holds a cell whose reference is no
    cell name, after cells that come in ascending order of column: it
    returns the error of that reference together with the values of the
    cells before it, padded as ever, and leaves the rest of the row in
    the stream, unread. *)
Theorem Columns_malformed (rows : Rows) (raw : bool) (cur : Z)
    (pre post : list Token) (bad : xlsxC xlsxF) (cs : list (xlsxC xlsxF))
    (ks : list Z) (col row : Z) (e : error) :
  ~ seekRow rows < curRow rows ->
  servedRow rows = Some cur ->
  ~ seekRow rows < cur ->
  decoder rows = pre ++ CellElement bad :: post ->
  cellsWithin pre = Some cs ->
  cellColumns 0 cs = Some ks ->
  Cell.R bad <> EmptyString ->
  Coordinates.CellNameToCoordinates (Cell.R bad) = (col, row, Some e) ->
  exists rows',
    Columns rows raw = (rows', padded 0 (outputCells raw cs ks), Some e)
    /\ decoder rows' = post.
Proof.
  intros Hcur Hserved Hseek Hdec Hcs Hks Hne Hbad.
  unfold Stream.Columns.
  destruct (Z.ltb_spec (seekRow rows) (curRow rows)); [lia|].
  unfold servedRow in Hserved.
  change (token (setRawCellValue rows raw)) with (token rows).
  change (decoder (setRawCellValue rows raw)) with (decoder rows).
  destruct (token rows) as [tok|] eqn:Htok.
  - destruct tok as [name attrs| | |]; try discriminate.
    destruct (String.eqb name "row") eqn:Hrow; [|discriminate].
    destruct (attrValToInt "r" attrs) as [rowNum [e'|]] eqn:Hattr;
      [discriminate|].
    injection Hserved as <-.
    unfold Stream.columnsToken.
    cbn [localName inElement setInElement]. rewrite Hrow, Hattr.
    change (token (setRawCellValue rows raw)) with (token rows).
    rewrite Htok.
    change (bool_decide (Some (StartElement name attrs) = None)) with false.
    cbv iota.
    destruct (rowNum =? 0) eqn:Hz; cbn [negb];
      cbn [seekRow curRow setSeekRowOpts setToken setCurRow setRawCellValue]
        in *.
    + destruct (Z.ltb_spec (seekRow rows) (curRow rows)); [lia|].
      rewrite rowXMLHandler_other
        by (cbn; apply String.eqb_eq in Hrow; by subst name).
      cbn [err setErr decoder setToken setSeekRowOpts setRawCellValue].
      rewrite Hdec.
      match goal with
      | |- exists r, Stream.columnsLoop _ _ _ ?rw ?it = _ /\ _ =>
          edestruct (columnsLoop_malformed bad post col row e pre rw it cs ks
                       0 raw) as (rows' & Hloop & Hpost); try done;
            try (unfold GoInt.inRange, GoInt.MinInt, GoInt.MaxInt; lia);
            exists rows'; split; [exact Hloop|exact Hpost]
      end.
    + destruct (Z.ltb_spec (seekRow rows) rowNum); [lia|].
      rewrite rowXMLHandler_other
        by (cbn; apply String.eqb_eq in Hrow; by subst name).
      cbn [err setErr decoder setToken setSeekRowOpts setRawCellValue
             setCurRow].
      rewrite Hdec.
      match goal with
      | |- exists r, Stream.columnsLoop _ _ _ ?rw ?it = _ /\ _ =>
          edestruct (columnsLoop_malformed bad post col row e pre rw it cs ks
                       0 raw) as (rows' & Hloop & Hpost); try done;
            try (unfold GoInt.inRange, GoInt.MinInt, GoInt.MaxInt; lia);
            exists rows'; split; [exact Hloop|exact Hpost]
      end.
  - rewrite Hdec.
    edestruct (columnsLoop_malformed bad post col row e pre
                 (setRawCellValue rows raw) newIterator cs ks 0 raw)
      as (rows' & Hloop & Hpost); try done;
      try (unfold GoInt.inRange, GoInt.MinInt, GoInt.MaxInt; lia).
    exists rows'. split; [exact Hloop|exact Hpost].
Qed.

End MalformedFacts.

Section MalformedExamples.
Import Stream.

(** A row with the cell A1, a cell named 1A and the cell C1. *)
Lemma Columns_malformed_witness :
  exists rows',
    Columns (fun _ => tt) None (fun c _ => Cell.V c)
      (mkRows 1 1 false
         [CellElement (Cell.mkC "A1" 0 EmptyString "v1" None);
          CellElement (Cell.mkC "1A" 0 EmptyString "v2" None);
          CellElement (Cell.mkC "C1" 0 EmptyString "v3" None);
          EndElement "row"]
         (Some (StartElement "row" [mkAttr "r" "1"])) tt tt) false
    = (rows', ["v1"], Some (ErrInvalidCellName "1A"))
    /\ decoder rows'
       = [CellElement (Cell.mkC "C1" 0 EmptyString "v3" None);
          EndElement "row"].
Proof.
  apply (Columns_malformed (fun _ => tt) (fun c _ => Cell.V c)
           (mkRows 1 1 false
              [CellElement (Cell.mkC "A1" 0 EmptyString "v1" None);
               CellElement (Cell.mkC "1A" 0 EmptyString "v2" None);
               CellElement (Cell.mkC "C1" 0 EmptyString "v3" None);
               EndElement "row"]
              (Some (StartElement "row" [mkAttr "r" "1"])) tt tt)
           false 1
           [CellElement (Cell.mkC "A1" 0 EmptyString "v1" None)]
           [CellElement (Cell.mkC "C1" 0 EmptyString "v3" None);
            EndElement "row"]
           (Cell.mkC "1A" 0 EmptyString "v2" None)
           [Cell.mkC "A1" 0 EmptyString "v1" None] [1] (-1) (-1)
           (ErrInvalidCellName "1A")).
  - cbn. lia.
  - reflexivity.
  - cbn. lia.
  - reflexivity.
  - reflexivity.
  - reflexivity.
  - discriminate.
  - reflexivity.
Defined.

End MalformedExamples.

(** ** All the rows of a sheet: [GetRows] *)

Section GetRowsFacts.
Import GoString Strconv Stream.

Context {RowOpts : Type}.
Variable extractRowOpts : list Attr -> RowOpts.
Variable sharedStringsReader : option error.
Variable getValueFrom : xlsxC xlsxF -> bool -> string.

Local Abbreviation Rows := (Rows (RowOpts := RowOpts)).
Local Abbreviation nextLoop := (nextLoop extractRowOpts).
Local Abbreviation Next := (Next extractRowOpts).
Local Abbreviation columnsToken := (columnsToken extractRowOpts getValueFrom).
Local Abbreviation columnsLoop := (columnsLoop extractRowOpts getValueFrom).
Local Abbreviation Columns :=
  (Columns extractRowOpts sharedStringsReader getValueFrom).
Local Abbreviation getRowsLoop :=
  (getRowsLoop extractRowOpts sharedStringsReader getValueFrom).
Local Abbreviation GetRows :=
  (GetRows extractRowOpts sharedStringsReader getValueFrom).
Local Abbreviation rounds :=
  (rounds extractRowOpts sharedStringsReader getValueFrom).

(** What is left to do: the rows up to the highest row number, and the
    tokens. *)
Local Abbreviation todo rows :=
  (Z.to_nat (Z.max 0 (reach (curRow rows) (decoder rows) - seekRow rows))
   + length (decoder rows))%nat.

(** Digits read by [decimalValue] stay below the power of ten of their
    number. *)
Lemma decimalValue_bound (s : string) :
  forall acc v,
    0 <= acc -> decimalValue s acc = Some v ->
    0 <= v < (acc + 1) * 10 ^ Z.of_nat (String.length s).
Proof.
  induction s as [|a t IH]; intros acc v Hacc Hv.
  - cbn in Hv. injection Hv as <-. cbn. lia.
  - cbn [decimalValue] in Hv. unfold isDigit, within in Hv.
    destruct (Z.leb_spec 48 (byteZ a)); [|discriminate].
    destruct (Z.leb_spec (byteZ a) 57); [|discriminate].
    cbn [andb] in Hv. apply IH in Hv; [|lia].
    cbn [String.length]. rewrite Nat2Z.inj_succ, Z.pow_succ_r by lia.
    pose proof (Z.pow_pos_nonneg 10 (Z.of_nat (String.length t))
                  ltac:(lia) ltac:(lia)).
    nia.
Qed.

Lemma parseUintFrom_range (s : string) :
  forall n, 0 <= n <= maxUint64 ->
    0 <= fst (parseUintFrom s n) <= maxUint64.
Proof.
  unfold maxUint64.
  induction s as [|a t IH]; intros n Hn; cbn [parseUintFrom fst]; [lia|].
  unfold isDigit, within.
  destruct (Z.leb_spec 48 (byteZ a)); cbn [andb fst]; [|lia].
  destruct (Z.leb_spec (byteZ a) 57); cbn [andb fst]; [|lia].
  unfold maxUint64.
  destruct (Z.leb_spec ((2 ^ 64 - 1) / 10 + 1) n); cbn [fst]; [lia|].
  destruct (Z.ltb_spec (2 ^ 64 - 1) (n * 10 + (byteZ a - 48)));
    cbn [fst]; [lia|].
  apply IH. lia.
Qed.

Lemma ParseInt_range (s : string) : GoInt.inRange (fst (ParseInt s)).
Proof.
  assert (GoInt.inRange 0) as H0
    by (unfold GoInt.inRange, GoInt.MinInt, GoInt.MaxInt; lia).
  assert (forall neg un,
            0 <= un ->
            GoInt.inRange
              (fst (if negb neg && (2 ^ 63 <=? un)
                    then (2 ^ 63 - 1, Some ErrRange)
                    else if neg && (2 ^ 63 <? un)
                         then (- 2 ^ 63, Some ErrRange)
                         else (if neg then - un else un, None))))
    as Hcut.
  { intros neg un Hun.
    unfold GoInt.inRange, GoInt.MinInt, GoInt.MaxInt.
    destruct neg; cbn [negb andb].
    - destruct (Z.ltb_spec (2 ^ 63) un); cbn [fst]; lia.
    - destruct (Z.leb_spec (2 ^ 63) un); cbn [fst]; lia. }
  assert (forall neg ds,
            GoInt.inRange
              (fst (match ParseUint ds with
                    | (_, Some ErrRange) as r | (_, None) as r =>
                        let un := fst r in
                        let cutoff := 2 ^ 63 in
                        if negb neg && (cutoff <=? un)
                        then (cutoff - 1, Some ErrRange)
                        else if neg && (cutoff <? un)
                             then (- cutoff, Some ErrRange)
                             else (if neg then - un else un, None)
                    | (_, Some e) => (0, Some e)
                    end))) as Hds.
  { intros neg ds.
    assert (0 <= fst (ParseUint ds)) as Hun.
    { unfold ParseUint. destruct ds as [|b ds]; [cbn; lia|].
      apply (parseUintFrom_range (String b ds) 0). unfold maxUint64. lia. }
    destruct (ParseUint ds) as [un [e|]]; cbn [fst] in Hun.
    - destruct e; try exact H0. by apply Hcut.
    - by apply Hcut. }
  unfold ParseInt. destruct s as [|a t]; [done|].
  destruct (byteZ a =? 43); [apply Hds|].
  destruct (byteZ a =? 45); apply Hds.
Qed.

Lemma Atoi_range (s : string) : GoInt.inRange (fst (Atoi s)).
Proof.
  assert (GoInt.inRange 0) as H0
    by (unfold GoInt.inRange, GoInt.MinInt, GoInt.MaxInt; lia).
  unfold Atoi.
  destruct (Z.ltb_spec 0 (Z.of_nat (String.length s))) as [Hpos|];
    cbn [andb]; [|apply ParseInt_range].
  destruct (Z.ltb_spec (Z.of_nat (String.length s)) 19) as [Hlen|];
    [|apply ParseInt_range].
  destruct s as [|a t]; [done|]. cbn [String.length] in Hlen.
  assert (forall ds neg,
            (String.length ds <= S (String.length t))%nat ->
            GoInt.inRange
              (fst (match decimalValue ds 0 with
                    | None => (0, Some ErrSyntax)
                    | Some n => (if neg : bool then - n else n, None)
                    end))) as Hfast.
  { intros ds neg Hds.
    destruct (decimalValue ds 0) as [n|] eqn:Hn; [|done].
    apply decimalValue_bound in Hn; [|lia]. cbn [fst].
    assert (10 ^ Z.of_nat (String.length ds) <= 10 ^ 18)
      by (apply Z.pow_le_mono_r; lia).
    unfold GoInt.inRange, GoInt.MinInt, GoInt.MaxInt. destruct neg; lia. }
  destruct ((byteZ a =? 45) || (byteZ a =? 43)); cbn [andb].
  - destruct (Z.of_nat (String.length t) <? 1); [done|].
    apply Hfast. lia.
  - apply Hfast. cbn [String.length]. lia.
Qed.

Lemma attrValToInt_range (name : string) (attrs : list Attr) :
  GoInt.inRange (fst (attrValToInt name attrs)).
Proof.
  unfold attrValToInt.
  assert (GoInt.inRange 0) as H0
    by (unfold GoInt.inRange, GoInt.MinInt, GoInt.MaxInt; lia).
  revert H0. generalize 0 as val.
  induction attrs as [|attr rest IH]; intros val Hval; [done|].
  cbn [attrValToIntFrom].
  destruct (String.eqb (Name attr) name); [|by apply IH].
  pose proof (Atoi_range (Value attr)) as Hatoi.
  destruct (Atoi (Value attr)) as [v [e|]]; [done|]. by apply IH.
Qed.

Lemma reach_ge (tokens : list Token) :
  forall cur, cur <= reach cur tokens.
Proof.
  induction tokens as [|tok rest IH]; intros cur; cbn [reach]; [lia|].
  destruct tok as [name attrs| | |]; try apply IH.
  destruct (String.eqb name "row"); [lia|apply IH].
Qed.

Lemma reach_mono (tokens : list Token) :
  forall cur cur', cur <= cur' -> reach cur tokens <= reach cur' tokens.
Proof.
  induction tokens as [|tok rest IH]; intros cur cur' Hle; cbn [reach]; [done|].
  destruct tok as [name attrs| | |]; try by apply IH.
  destruct (String.eqb name "row"); [|by apply IH].
  destruct (fst (attrValToInt "r" attrs) =? 0).
  - pose proof (IH (cur + 1) (cur' + 1)). lia.
  - lia.
Qed.

(** The loop of [Next]: what it finds lies within reach, and it reads
    at least the start tag of the row it finds. *)
Lemma nextLoop_reach (tokens : list Token) :
  forall (rows rows' : Rows) (found : bool),
    nextLoop tokens rows = (rows', found) ->
    GoInt.inRange (curRow rows) ->
    reach (curRow rows) tokens < GoInt.MaxInt ->
    seekRow rows' = seekRow rows
    /\ GoInt.inRange (curRow rows')
    /\ reach (curRow rows') (decoder rows') <= reach (curRow rows) tokens
    /\ (length (decoder rows') <= length tokens)%nat
    /\ (found = true ->
        (length (decoder rows') < length tokens)%nat /\ tokenOK rows')
    /\ (found = false ->
        token rows' = token rows /\ curRow rows' = curRow rows).
Proof.
  induction tokens as [|tok rest IH]; intros rows rows' found Hloop Hrange Hreach.
  - cbn in Hloop. injection Hloop as <- <-. cbn. repeat split; try done; unfold GoInt.inRange in *; lia.
  - cbn [Stream.nextLoop] in Hloop. cbn [reach] in Hreach |- *.
    destruct tok as [name attrs|name|data|colCell].
    + destruct (String.eqb name "row") eqn:Hname.
      * apply String.eqb_eq in Hname as ->.
        pose proof (attrValToInt_range "r" attrs) as Hnum.
        pose proof (reach_ge rest
                      (if fst (attrValToInt "r" attrs) =? 0
                       then curRow rows + 1
                       else fst (attrValToInt "r" attrs))) as Hge.
        injection Hloop as <- <-.
        cbn [seekRow curRow decoder token setDecoder setCurRow setToken
               setCurRowOpts].
        assert (GoInt.incr (curRow rows) = curRow rows + 1) as Hincr.
        { apply incr_small. unfold GoInt.inRange in Hrange. lia. }
        destruct (fst (attrValToInt "r" attrs) =? 0) eqn:Hz;
          cbn [seekRow curRow decoder token setDecoder setCurRow setToken
                 setCurRowOpts]; rewrite ?Hincr.
        -- repeat split; try done; try (cbn [length]; lia);
             try (unfold GoInt.inRange in *; lia);
             try (left; by apply Z.eqb_eq).
        -- repeat split; try done; try (cbn [length]; lia);
             try (unfold GoInt.inRange in *; lia); try by right.
      * destruct (IH _ _ _ Hloop Hrange Hreach)
          as (H1 & H2 & H3 & H4 & H5 & H6).
        repeat split; try done; cbn [length]; try lia;
          try (unfold GoInt.inRange in *; lia);
          try (by destruct H5); try (by destruct H6);
          try (destruct H5; [done|lia]).
    + destruct (String.eqb name "sheetData").
      * injection Hloop as <- <-. cbn. repeat split; try done; unfold GoInt.inRange in *; lia.
      * destruct (IH _ _ _ Hloop Hrange Hreach)
          as (H1 & H2 & H3 & H4 & H5 & H6).
        repeat split; try done; cbn [length]; try lia;
          try (unfold GoInt.inRange in *; lia);
          try (by destruct H5); try (by destruct H6);
          try (destruct H5; [done|lia]).
    + destruct (IH _ _ _ Hloop Hrange Hreach)
        as (H1 & H2 & H3 & H4 & H5 & H6).
      repeat split; try done; cbn [length]; try lia;
          try (unfold GoInt.inRange in *; lia);
          try (by destruct H5); try (by destruct H6);
          try (destruct H5; [done|lia]).
    + destruct (IH _ _ _ Hloop Hrange Hreach)
        as (H1 & H2 & H3 & H4 & H5 & H6).
      repeat split; try done; cbn [length]; try lia;
          try (unfold GoInt.inRange in *; lia);
          try (by destruct H5); try (by destruct H6);
          try (destruct H5; [done|lia]).
Qed.

(** A call of [Next] that returns [true] leaves less to do. *)
Lemma Next_progress (rows rows' : Rows) (found : bool) :
  Next rows = (rows', found) ->
  GoInt.inRange (curRow rows) ->
  tokenOK rows ->
  GoInt.MinInt <= seekRow rows < GoInt.MaxInt ->
  reach (curRow rows) (decoder rows) < GoInt.MaxInt ->
  seekRow rows' = seekRow rows + 1
  /\ GoInt.inRange (curRow rows')
  /\ reach (curRow rows') (decoder rows') <= reach (curRow rows) (decoder rows)
  /\ (found = true -> tokenOK rows' /\ (todo rows' < todo rows)%nat).
Proof.
  intros Hnext Hrange Htok Hseek Hreach. unfold Stream.Next in Hnext.
  cbn [seekRow curRow decoder setSeekRow] in Hnext.
  rewrite incr_small in Hnext by done.
  pose proof (reach_ge (decoder rows) (curRow rows)) as Hge.
  destruct (Z.leb_spec (seekRow rows + 1) (curRow rows)) as [Hle|Hgt].
  - injection Hnext as <- <-.
    cbn [seekRow curRow decoder token setSeekRow setCurRowOpts].
    repeat split; try done; try lia;
      try (unfold GoInt.inRange in *; lia).
  - apply nextLoop_reach in Hnext as (H1 & H2 & H3 & H4 & H5 & H6);
      [|done|done].
    cbn [seekRow curRow decoder setSeekRow] in *.
    repeat split; try done; try lia;
      try (unfold GoInt.inRange in *; lia);
      try (by destruct H5).
    destruct H5 as [Hlt _]; [done|]. lia.
Qed.

(** The rows a step of the loop of [Columns] leaves. *)
Local Abbreviation stepRows r :=
  (match r with
   | inl (rows', _) => rows'
   | inr (rows', _, _) => rows'
   end).

Lemma columnsToken_reach (tok : Token) (rows : Rows) (it : rowXMLIterator) :
  token rows = None ->
  GoInt.inRange (curRow rows) ->
  reach (curRow rows) (tok :: decoder rows) < GoInt.MaxInt ->
  let rows' := stepRows (columnsToken tok rows it) in
  token rows' = None
  /\ seekRow rows' = seekRow rows
  /\ GoInt.inRange (curRow rows')
  /\ decoder rows' = decoder rows
  /\ reach (curRow rows') (decoder rows)
     <= reach (curRow rows) (tok :: decoder rows).
Proof.
  intros Htok Hrange Hreach. unfold Stream.columnsToken.
  destruct tok as [name attrs|name|data|colCell]; cbn [reach] in *.
  - cbn [localName inElement setInElement].
    destruct (String.eqb name "row") eqn:Hname.
    + pose proof (attrValToInt_range "r" attrs) as Hnum.
      pose proof (reach_ge (decoder rows)
                    (if fst (attrValToInt "r" attrs) =? 0
                     then curRow rows + 1
                     else fst (attrValToInt "r" attrs))) as Hge.
      destruct (attrValToInt "r" attrs) as [rowNum e]. cbn [fst] in *.
      rewrite Htok. change (bool_decide (None = None)) with true.
      assert (GoInt.incr (curRow rows) = curRow rows + 1) as Hincr.
      { apply incr_small. unfold GoInt.inRange in Hrange.
        destruct (rowNum =? 0); lia. }
      rewrite Hincr.
      destruct (rowNum =? 0); cbn [negb];
        cbn [seekRow curRow setSeekRowOpts setToken setCurRow];
        match goal with
        | |- context [if ?c <? ?d then _ else _] => destruct (c <? d)
        end;
        try (rewrite rowXMLHandler_other
               by (cbn; apply String.eqb_eq in Hname; by subst name));
        try match goal with
            | |- context [match err ?i with _ => _ end] => destruct (err i)
            end;
        cbn [token seekRow curRow decoder setSeekRowOpts setToken setCurRow];
        repeat split; try done; try lia;
        try (unfold GoInt.inRange in *; lia).
    + match goal with
      | |- context [match err ?i with _ => _ end] => destruct (err i)
      end;
        cbn [token seekRow curRow decoder setToken];
        repeat split; try done; try lia;
        try (unfold GoInt.inRange in *; lia).
  - destruct (String.eqb name "sheetData");
      repeat split; try done; try lia; try (unfold GoInt.inRange in *; lia).
  - repeat split; try done; try lia; try (unfold GoInt.inRange in *; lia).
  - cbn [localName].
    match goal with
    | |- context [match err ?i with _ => _ end] => destruct (err i)
    end;
      cbn [token seekRow curRow decoder setToken];
      repeat split; try done; try lia;
      try (unfold GoInt.inRange in *; lia).
Qed.

Lemma columnsLoop_reach (tokens : list Token) :
  forall (rows : Rows) (it : rowXMLIterator),
    token rows = None ->
    GoInt.inRange (curRow rows) ->
    reach (curRow rows) tokens < GoInt.MaxInt ->
    let rows' := fst (fst (columnsLoop tokens rows it)) in
    token rows' = None
    /\ seekRow rows' = seekRow rows
    /\ GoInt.inRange (curRow rows')
    /\ (length (decoder rows') <= length tokens)%nat
    /\ reach (curRow rows') (decoder rows') <= reach (curRow rows) tokens.
Proof.
  induction tokens as [|tok rest IH]; intros rows it Htok Hrange Hreach.
  - cbn. repeat split; try done; try lia;
      try (unfold GoInt.inRange in *; lia).
  - cbn [Stream.columnsLoop].
    destruct (columnsToken_reach tok (setDecoder rows rest) it)
      as (H1 & H2 & H3 & H4 & H5); [done|done|done|].
    cbn [seekRow curRow decoder setDecoder] in *.
    destruct (columnsToken tok (setDecoder rows rest) it)
      as [[rows1 it1]|[[rows1 cells1] err1]]; cbn [fst] in *.
    + destruct (IH rows1 it1) as (G1 & G2 & G3 & G4 & G5);
        [done|done|lia|].
      cbn zeta in *. repeat split; try done; try lia;
        try (unfold GoInt.inRange in *; lia).
      cbn [length]. lia.
    + cbn zeta. rewrite H4. repeat split; try done; try lia;
        try (unfold GoInt.inRange in *; lia).
      cbn [length]. lia.
Qed.

(** [Columns] reads on, within reach. *)
Lemma Columns_reach (rows : Rows) (raw : bool) :
  GoInt.inRange (curRow rows) ->
  tokenOK rows ->
  reach (curRow rows) (decoder rows) < GoInt.MaxInt ->
  let rows' := fst (fst (Columns rows raw)) in
  seekRow rows' = seekRow rows
  /\ GoInt.inRange (curRow rows')
  /\ tokenOK rows'
  /\ (length (decoder rows') <= length (decoder rows))%nat
  /\ reach (curRow rows') (decoder rows') <= reach (curRow rows) (decoder rows).
Proof.
  intros Hrange Htok Hreach. unfold Stream.Columns.
  destruct (seekRow rows <? curRow rows).
  { cbn. repeat split; try done; try lia;
      try (unfold GoInt.inRange in *; lia). }
  destruct sharedStringsReader as [e|].
  { cbn. repeat split; try done; try lia;
      try (unfold GoInt.inRange in *; lia). }
  change (token (setRawCellValue rows raw)) with (token rows).
  change (decoder (setRawCellValue rows raw)) with (decoder rows).
  unfold tokenOK in Htok.
  destruct (token rows) as [tok|] eqn:Htoken.
  - destruct tok as [name attrs| | |]; try done.
    destruct Htok as [-> Hnum].
    unfold Stream.columnsToken.
    cbn [localName inElement setInElement].
    change (String.eqb "row" "row") with true. cbv iota.
    destruct (attrValToInt "r" attrs) as [rowNum e]. cbn [fst] in Hnum.
    change (token (setRawCellValue rows raw)) with (token rows).
    rewrite Htoken.
    change (bool_decide (Some (StartElement "row" attrs) = None)) with false.
    cbv iota.
    set (rows1 := if negb (rowNum =? 0)
                  then setCurRow (setRawCellValue rows raw) rowNum
                  else setRawCellValue rows raw).
    assert (curRow rows1 = curRow rows /\ seekRow rows1 = seekRow rows
            /\ decoder rows1 = decoder rows) as (Hc1 & Hs1 & Hd1).
    { unfold rows1. destruct (Z.eqb_spec rowNum 0); cbn [negb]; [done|].
      cbn. by destruct Hnum. }
    cbn [seekRow curRow setSeekRowOpts setToken]. rewrite Hc1, Hs1.
    destruct (seekRow rows <? curRow rows).
    { cbn [fst]. unfold tokenOK.
      cbn [token seekRow curRow decoder setSeekRowOpts setToken].
      rewrite Hc1, Hs1, Hd1. repeat split; try done; try lia;
        try (unfold GoInt.inRange in *; lia). }
    rewrite rowXMLHandler_other by done.
    cbn [err setErr setInElement newIterator].
    destruct e as [e|].
    { cbn [fst]. unfold tokenOK.
      cbn [token seekRow curRow decoder setSeekRowOpts setToken].
      rewrite Hc1, Hs1, Hd1. repeat split; try done; try lia;
        try (unfold GoInt.inRange in *; lia). }
    cbn [decoder setSeekRowOpts setToken]. rewrite Hd1.
    match goal with
    | |- context [Stream.columnsLoop _ _ _ ?rw ?it] =>
        destruct (columnsLoop_reach (decoder rows) rw it)
          as (G1 & G2 & G3 & G4 & G5)
    end; cbn [token seekRow curRow decoder setSeekRowOpts setToken];
      rewrite ?Hc1, ?Hs1; try done.
    cbn zeta in G1, G2, G3, G4, G5. unfold tokenOK. rewrite G1.
    cbn [token seekRow curRow decoder setSeekRowOpts setToken] in G2, G5.
    rewrite Hs1 in G2. rewrite Hc1 in G5. repeat split; try done; apply G3.
  - destruct (columnsLoop_reach (decoder rows) (setRawCellValue rows raw)
                newIterator) as (G1 & G2 & G3 & G4 & G5); try done.
    cbn zeta in G1, G2, G3, G4, G5. unfold tokenOK. rewrite G1.
    repeat split; try done; apply G3.
Qed.

(** What [GetRows] returns does not end with an empty row. *)
Lemma trimmed_last (results : list (list string)) (max : Z) :
  0 <= max <= Z.of_nat (length results) ->
  (max = 0
   \/ exists row, results !! (Z.to_nat max - 1)%nat = Some row /\ row <> []) ->
  last (take (Z.to_nat max) results) <> Some [].
Proof.
  intros Hmax Hlast. rewrite last_lookup, length_take.
  destruct Hlast as [->|(row & Hrow & Hne)]; [done|].
  destruct (Z.eq_dec max 0) as [->|Hpos]; [done|].
  rewrite lookup_take_lt by lia.
  replace (Init.Nat.pred (Z.to_nat max `min` length results))
    with (Z.to_nat max - 1)%nat by lia.
  rewrite Hrow. by intros [= ->].
Qed.

(** The loop of [GetRows] comes to its end within [k] rounds when less
    than [k] is left to do, whatever it has gathered. *)
Lemma getRowsLoop_returns (raw : bool) (k : nat) :
  forall (rows : Rows) (results : list (list string)) (cur max : Z),
    (todo rows < k)%nat ->
    GoInt.inRange (curRow rows) ->
    tokenOK rows ->
    GoInt.MinInt <= seekRow rows ->
    seekRow rows + Z.of_nat k <= GoInt.MaxInt ->
    reach (curRow rows) (decoder rows) < GoInt.MaxInt ->
    cur = Z.of_nat (length results) ->
    cur + Z.of_nat k <= GoInt.MaxInt ->
    0 <= max <= cur ->
    (max = 0
     \/ exists row,
          results !! (Z.to_nat max - 1)%nat = Some row /\ row <> []) ->
    exists out,
      (forall fuel, (k <= fuel)%nat ->
                    getRowsLoop fuel rows raw results cur max = Some out)
      /\ last out <> Some [].
Proof.
  induction k as [|k IH];
    intros rows results cur max Htodo Hrange Htok Hseek Hseek' Hreach Hcur
      Hcur' Hmax Hlast; [lia|].
  destruct (Next rows) as [rows1 found] eqn:Hnext.
  destruct (Next_progress _ _ _ Hnext Hrange Htok) as (N1 & N2 & N3 & N4);
    [lia|done|].
  destruct found.
  2:{ exists (take (Z.to_nat max) results). split.
      - intros [|fuel] Hfuel; [lia|]. cbn [Stream.getRowsLoop].
        by rewrite Hnext.
      - apply trimmed_last; [lia|done]. }
  destruct N4 as [N4 N5]; [done|].
  destruct (Columns_reach rows1 raw N2 N4) as (C1 & C2 & C3 & C4 & C5); [lia|].
  destruct (Columns rows1 raw) as [[rows2 row] e] eqn:Hcols.
  cbn [fst] in C1, C2, C3, C4, C5.
  destruct e as [e|].
  { exists (take (Z.to_nat max) results). split.
    - intros [|fuel] Hfuel; [lia|]. cbn [Stream.getRowsLoop].
      by rewrite Hnext, Hcols.
    - apply trimmed_last; [lia|done]. }
  assert (GoInt.incr cur = cur + 1) as Hincr.
  { apply incr_small. unfold GoInt.MinInt in *. lia. }
  destruct (IH rows2 (results ++ [row]) (cur + 1)
              (if 0 <? Z.of_nat (length row) then cur + 1 else max))
    as (out & Hout & Hshape); try done; try lia.
  - rewrite length_app. cbn [length]. lia.
  - destruct (0 <? Z.of_nat (length row)); lia.
  - destruct (Z.ltb_spec 0 (Z.of_nat (length row))) as [Hrow|Hrow].
    + right. exists row. split; [|by destruct row].
      replace (Z.to_nat (cur + 1) - 1)%nat with (length results) by lia.
      by rewrite lookup_app_r, Nat.sub_diag.
    + destruct Hlast as [->|(row' & Hrow' & Hne)]; [by left|].
      right. exists row'. split; [|done].
      apply lookup_app_l_Some. done.
  - exists out. split; [|done].
    intros [|fuel] Hfuel; [lia|]. cbn [Stream.getRowsLoop].
    rewrite Hnext, Hcols, Hincr. apply Hout. lia.
Qed.

(** The rows from [max] on are empty: [results[:max]] cuts off empty
    rows and nothing else. *)
Lemma trimmed_tail (results : list (list string)) (max : nat) :
  (forall i row, (max <= i)%nat -> results !! i = Some row -> row = []) ->
  results = take max results ++ replicate (length results - max) [].
Proof.
  intros Hempty. rewrite <- (take_drop max results) at 1. f_equal.
  symmetry. apply replicate_as_Forall. split; [by rewrite length_drop|].
  apply Forall_lookup. intros i row Hrow. rewrite lookup_drop in Hrow.
  symmetry. by apply (Hempty (max + i)%nat); [lia|].
Qed.

(** What the loop of [GetRows] returns, by the rounds of [Next] and
    [Columns]: all the rounds before the first that fails are gone
    through, and the rows gathered, those of these rounds after them,
    are the rows returned followed by empty rows. *)
Lemma getRowsLoop_rounds (raw : bool) (fuel : nat) :
  forall (rows : Rows) (results : list (list string)) (cur max : Z)
         (out : list (list string)),
    getRowsLoop fuel rows raw results cur max = Some out ->
    cur = Z.of_nat (length results) ->
    cur + Z.of_nat fuel <= GoInt.MaxInt ->
    0 <= max <= cur ->
    (forall i row,
       (Z.to_nat max <= i)%nat -> results !! i = Some row -> row = []) ->
    exists (n : nat) (rowsN : Rows) (more : list (list string)) (k : nat),
      rounds n rows raw = Some (rowsN, more)
      /\ rounds (S n) rows raw = None
      /\ results ++ more = out ++ replicate k [].
Proof.
  induction fuel as [|fuel IH];
    intros rows results cur max out Hout Hcur Hfuel Hmax Hempty;
    [discriminate|].
  cbn [Stream.getRowsLoop] in Hout.
  destruct (Next rows) as [rows1 found] eqn:Hnext.
  destruct found.
  2:{ injection Hout as <-.
      exists 0%nat, rows, [], (length results - Z.to_nat max)%nat.
      split; [done|]. split.
      - cbn [Stream.rounds]. by rewrite Hnext.
      - rewrite app_nil_r. by apply trimmed_tail. }
  destruct (Columns rows1 raw) as [[rows2 row] e] eqn:Hcols.
  destruct e as [e|].
  { injection Hout as <-.
    exists 0%nat, rows, [], (length results - Z.to_nat max)%nat.
    split; [done|]. split.
    - cbn [Stream.rounds]. by rewrite Hnext, Hcols.
    - rewrite app_nil_r. by apply trimmed_tail. }
  assert (GoInt.incr cur = cur + 1) as Hincr.
  { apply incr_small. unfold GoInt.MinInt in *. lia. }
  rewrite Hincr in Hout.
  apply IH in Hout as (n & rowsN & more & k & Hn & Hend & Hrows).
  - exists (S n), rowsN, (row :: more), k. split; [|split].
    + cbn [Stream.rounds]. by rewrite Hnext, Hcols, Hn.
    + change (Stream.rounds extractRowOpts sharedStringsReader getValueFrom
                (S (S n)) rows raw)
        with (match Next rows with
              | (_, false) => None
              | (rows, true) =>
                  match Columns rows raw with
                  | (_, _, Some _) => None
                  | (rows, row, None) =>
                      match rounds (S n) rows raw with
                      | Some (rows, more) => Some (rows, row :: more)
                      | None => None
                      end
                  end
              end).
      by rewrite Hnext, Hcols, Hend.
    + by rewrite <- Hrows, <- app_assoc.
  - rewrite length_app. cbn [length]. lia.
  - lia.
  - destruct (0 <? Z.of_nat (length row)); lia.
  - intros i row' Hi Hrow'.
    destruct (Z.ltb_spec 0 (Z.of_nat (length row))) as [Hrow|Hrow].
    + apply lookup_lt_Some in Hrow'. rewrite length_app in Hrow'.
      cbn [length] in Hrow'. lia.
    + destruct (Nat.lt_ge_cases i (length results)) as [Hlt|Hge].
      * rewrite lookup_app_l in Hrow' by done. by apply (Hempty i).
      * apply lookup_lt_Some in Hrow' as Hlen. rewrite length_app in Hlen.
        cbn [length] in Hlen.
        replace i with (length results + 0)%nat in Hrow' by lia.
        rewrite lookup_app_r, Nat.add_comm, Nat.add_sub in Hrow' by lia.
        injection Hrow' as <-. destruct row; [done|cbn in Hrow; lia].
Qed.

(** X27. [GetRows] comes to an end on every worksheet stream whose row
    numbers stay below the greatest [int] by the count of its tokens,
    within as many rounds as the highest row number it comes to and the
    count of the tokens together. It goes through the [n] rounds of
    [Next] and [Columns] before the first that fails, and returns the
    rows of these rounds, in order, without the empty rows at their
    end: the rows of the [n] rounds are the rows returned followed by
    [k] empty rows, and the rows returned do not end with an empty
    row. *)
Theorem GetRows_returns (noOpts : RowOpts) (tokens : list Token)
    (raw : bool) :
  reach 0 tokens + Z.of_nat (length tokens) < GoInt.MaxInt ->
  exists (results : list (list string)) (n : nat) (rowsN : Rows) (k : nat),
    (forall fuel,
       (Z.to_nat (reach 0 tokens) + length tokens < fuel)%nat ->
       GetRows fuel (newRows noOpts tokens) raw = Some results)
    /\ rounds n (newRows noOpts tokens) raw
       = Some (rowsN, results ++ replicate k [])
    /\ rounds (S n) (newRows noOpts tokens) raw = None
    /\ last results <> Some [].
Proof.
  intros Hbound. pose proof (reach_ge tokens 0) as Hge.
  destruct (getRowsLoop_returns raw
              (S (Z.to_nat (reach 0 tokens) + length tokens))
              (newRows noOpts tokens) [] 0 0)
    as (out & Hout & Hshape);
    cbn [curRow seekRow decoder token newRows length]; try done;
    try (unfold GoInt.inRange, GoInt.MinInt, GoInt.MaxInt in *; lia);
    try (by left).
  destruct (getRowsLoop_rounds raw
              (S (Z.to_nat (reach 0 tokens) + length tokens))
              (newRows noOpts tokens) [] 0 0 out)
    as (n & rowsN & more & k & Hn & Hend & Hrows);
    try done; try (unfold GoInt.MaxInt in *; cbn [length]; lia).
  { by apply Hout. }
  exists out, n, rowsN, k. cbn [app] in Hrows. rewrite <- Hrows.
  split; [|done]. intros fuel Hfuel. apply Hout. lia.
Qed.

End GetRowsFacts.

Section GetRowsExamples.
Import Stream.

(** A sheet with the row 1, which has a cell, and the row 3, which has
    none: the rows 2 and 3 come empty, and are cut off. *)
Lemma GetRows_returns_witness :
  GetRows (fun _ => tt) None (fun c _ => Cell.V c) 20
    (newRows tt
       [StartElement "row" [mkAttr "r" "1"];
        CellElement (Cell.mkC "A1" 0 EmptyString "v1" None);
        EndElement "row";
        StartElement "row" [mkAttr "r" "3"];
        EndElement "row";
        EndElement "sheetData"]) false
  = Some [["v1"]].
Proof.
  destruct (GetRows_returns (fun _ => tt) None (fun c _ => Cell.V c) tt
              [StartElement "row" [mkAttr "r" "1"];
               CellElement (Cell.mkC "A1" 0 EmptyString "v1" None);
               EndElement "row";
               StartElement "row" [mkAttr "r" "3"];
               EndElement "row";
               EndElement "sheetData"] false)
    as (results & n & rowsN & k & Hruns & _).
  - vm_compute. reflexivity.
  - rewrite (Hruns 20%nat) by (vm_compute; lia).
    specialize (Hruns 20%nat ltac:(vm_compute; lia)).
    vm_compute in Hruns. by injection Hruns as <-.
Defined.

End GetRowsExamples.

(** ** A cell reference that is no cell name: [checkRow] *)

Section NormalizationErrors.
Import GoString Coordinates Heap Sheet.

Context {float64 : Type}.

(** The first loop of [checkRow] stops at a reference that does not
    decode. *)
Lemma fillR_malformed (rowIdx : nat) (c : xlsxC) (post : list xlsxC)
    (col row : Z) (e : error) (pre : list xlsxC) :
  forall cols rCount,
    columnsOf pre = Some cols ->
    Cell.R c <> EmptyString ->
    CellNameToCoordinates (Cell.R c) = (col, row, Some e) ->
    fillR rowIdx (pre ++ c :: post) rCount = (pre ++ c :: post, Some e).
Proof.
  induction pre as [|c0 pre IH]; intros cols rCount Hpre Hne Hc.
  - cbn [app fillR].
    destruct (String.eqb_spec (Cell.R c) EmptyString) as [|_]; [done|].
    by rewrite Hc.
  - apply columnsOf_cons in Hpre
      as (col0 & row0 & cols' & -> & Hne0 & Hc0 & Hpre).
    cbn [app fillR].
    destruct (String.eqb_spec (Cell.R c0) EmptyString) as [|_]; [done|].
    rewrite Hc0. by rewrite (IH cols').
Qed.

(** The loop over the rows, past rows it leaves alone. *)
Lemma checkRows_past (good : list (xlsxRow float64)) :
  forall (st : Store) (rowIdx : nat) (rest : list (xlsxRow float64)),
    Forall (fun r =>
              cellsOf st (Row.C r) = []
              \/ exists cols lastCol,
                   columnsOf (cellsOf st (Row.C r)) = Some cols
                   /\ last cols = Some lastCol
                   /\ lastCol <= Z.of_nat (length (cellsOf st (Row.C r))))
      good ->
    checkRows st rowIdx (good ++ rest)
    = match checkRows st (rowIdx + length good) rest with
      | Panic => Panic
      | Returned (st', rest', e) => Returned (st', good ++ rest', e)
      end.
Proof.
  induction good as [|r good IH]; intros st rowIdx rest Hgood.
  - cbn [app length]. rewrite Nat.add_0_r.
    by destruct (checkRows st rowIdx rest) as [[[st' rest'] e]|].
  - apply Forall_cons in Hgood as [Hr Hgood].
    pose proof (checkRows_dense [r] st rowIdx) as Hone.
    cbn [checkRows] in Hone.
    destruct (checkRowAt st rowIdx r) as [[[st1 r1] [e1|]]|] eqn:Hat;
      try by (specialize (Hone ltac:(by apply Forall_cons)); discriminate).
    specialize (Hone ltac:(by apply Forall_cons)).
    injection Hone as -> ->.
    cbn [app checkRows]. rewrite Hat, IH by done.
    replace (S rowIdx + length good)%nat
      with (rowIdx + length (r :: good))%nat by (cbn [length]; lia).
    by destruct (checkRows st (rowIdx + length (r :: good)) rest)
      as [[[st' rest'] e]|].
Qed.

(** X28. [checkRow] returns the error of the first cell reference that
    is no cell name, and leaves the worksheet and the store as they
    are: the rows before the row of that cell are rows it leaves alone,
    the cells before it in its row have references that are, and the
    rows after it are not read. *)
Theorem checkRow_malformed (st : Store) (ws : xlsxWorksheet float64)
    (good rest : list (xlsxRow float64)) (bad : xlsxRow float64)
    (pre post : list xlsxC) (c : xlsxC) (cols : list Z) (col row : Z)
    (e : error) :
  SheetData ws = good ++ bad :: rest ->
  Forall (fun r =>
            cellsOf st (Row.C r) = []
            \/ exists cols lastCol,
                 columnsOf (cellsOf st (Row.C r)) = Some cols
                 /\ last cols = Some lastCol
                 /\ lastCol <= Z.of_nat (length (cellsOf st (Row.C r))))
    good ->
  cellsOf st (Row.C bad) = pre ++ c :: post ->
  columnsOf pre = Some cols ->
  Cell.R c <> EmptyString ->
  CellNameToCoordinates (Cell.R c) = (col, row, Some e) ->
  checkRow st ws = Returned (st, ws, Some e).
Proof.
  intros Hrows Hgood Hcells Hpre Hne Hc.
  unfold checkRow. rewrite Hrows, checkRows_past by done.
  cbn [checkRows].
  assert (checkRowAt st (0 + length good) bad = Returned (st, bad, Some e))
    as ->.
  { unfold checkRowAt.
    destruct (last (cellsOf st (Row.C bad))) as [lastCell|] eqn:Hlast.
    2:{ apply last_None in Hlast. rewrite Hcells in Hlast.
        by destruct pre. }
    rewrite <- (storeCells_same st (Row.C bad)) at 2.
    rewrite Hcells.
    by rewrite (fillR_malformed _ c post col row e pre cols). }
  rewrite <- Hrows. by destruct ws.
Qed.

End NormalizationErrors.

Section NormalizationErrorExamples.
Import Coordinates Heap Sheet.

(** A sheet whose second row holds a cell named 1A. *)
Lemma checkRow_malformed_witness :
  checkRow
    (mkStore [[Sample.cell "A1" "a" None];
              [Sample.cell "A2" "x" None; Sample.cell "1A" "y" None]] [])
    (mkWorksheet None
       [Sample.row 1 (Slice 0 1); Sample.row 2 (Slice 1 2)] None)
  = Returned
      (mkStore [[Sample.cell "A1" "a" None];
                [Sample.cell "A2" "x" None; Sample.cell "1A" "y" None]] [],
       mkWorksheet (float64 := Z) None
         [Sample.row 1 (Slice 0 1); Sample.row 2 (Slice 1 2)] None,
       Some (ErrInvalidCellName "1A")).
Proof.
  apply (checkRow_malformed _ _ [Sample.row 1 (Slice 0 1)] []
           (Sample.row 2 (Slice 1 2)) [Sample.cell "A2" "x" None] []
           (Sample.cell "1A" "y" None) [1] (-1) (-1)).
  - reflexivity.
  - apply Forall_cons. split; [|by apply Forall_nil]. right. exists [1], 1.
    repeat split; [reflexivity..|cbn; lia].
  - reflexivity.
  - reflexivity.
  - discriminate.
  - reflexivity.
Defined.

End NormalizationErrorExamples.

(** ** Row numbers the stream leaves out *)

Section GapFacts.
Import GoString Stream.

Context {RowOpts : Type}.
Variable extractRowOpts : list Attr -> RowOpts.
Variable sharedStringsReader : option error.
Variable getValueFrom : xlsxC xlsxF -> bool -> string.

Local Abbreviation Rows := (Rows (RowOpts := RowOpts)).
Local Abbreviation rounds :=
  (rounds extractRowOpts sharedStringsReader getValueFrom).

(** X29. The rows between the row sought and the row the iterator has
    read come empty, and cost no reading: while the current row lies
    more than [j + 1] rows ahead, [j + 1] rounds of [Next] and
    [Columns] all go through, each gives an empty row, and together
    they move the row sought on by [j + 1], take the row options read
    ahead for the current ones, and leave the decoder, the buffered
    token and the current row as they are. *)
Theorem gap_rows_come_empty (j : nat) :
  forall (rows : Rows) (raw : bool),
    GoInt.MinInt <= seekRow rows ->
    seekRow rows + Z.of_nat (S j) < curRow rows ->
    curRow rows <= GoInt.MaxInt ->
    rounds (S j) rows raw
    = Some (setCurRowOpts
              (setSeekRow rows (seekRow rows + Z.of_nat (S j)))
              (seekRowOpts rows),
            replicate (S j) []).
Proof.
  induction j as [|j IH]; intros rows raw Hmin Hgap Hmax.
  - cbn [Stream.rounds]. unfold Stream.Next, Stream.Columns.
    cbn [seekRow curRow setSeekRow setCurRowOpts seekRowOpts].
    rewrite incr_small by lia.
    destruct (Z.leb_spec (seekRow rows + 1) (curRow rows)); [|lia].
    cbn [seekRow curRow setSeekRow setCurRowOpts seekRowOpts].
    by destruct (Z.ltb_spec (seekRow rows + 1) (curRow rows)); [|lia].
  - change (Stream.rounds extractRowOpts sharedStringsReader getValueFrom
              (S (S j)) rows raw)
      with (match Stream.Next extractRowOpts rows with
            | (_, false) => None
            | (rows, true) =>
                match Stream.Columns extractRowOpts sharedStringsReader
                        getValueFrom rows raw with
                | (_, _, Some _) => None
                | (rows, row, None) =>
                    match rounds (S j) rows raw with
                    | Some (rows, more) => Some (rows, row :: more)
                    | None => None
                    end
                end
            end).
    unfold Stream.Next, Stream.Columns.
    cbn [seekRow curRow setSeekRow setCurRowOpts seekRowOpts].
    rewrite incr_small by lia.
    destruct (Z.leb_spec (seekRow rows + 1) (curRow rows)); [|lia].
    cbn [seekRow curRow setSeekRow setCurRowOpts seekRowOpts].
    destruct (Z.ltb_spec (seekRow rows + 1) (curRow rows)); [|lia].
    rewrite IH;
      cbn [seekRow curRow setSeekRow setCurRowOpts seekRowOpts]; try lia.
    destruct rows as [cur seek rawv dec tok copts sopts].
    cbn [seekRow curRow setSeekRow setCurRowOpts seekRowOpts replicate].
    unfold setCurRowOpts, setSeekRow.
    cbn [curRow seekRow rawCellValue decoder token curRowOpts seekRowOpts].
    do 3 f_equal. lia.
Qed.

End GapFacts.

Section GapExamples.
Import Stream.

(** The row 4 has been read while the row 1 was sought. *)
Lemma gap_rows_come_empty_witness :
  rounds (fun _ => tt) None (fun c _ => Cell.V c) 2
    (mkRows 4 1 false [EndElement "row"]
       (Some (StartElement "row" [mkAttr "r" "4"])) tt tt) false
  = Some (mkRows 4 3 false [EndElement "row"]
            (Some (StartElement "row" [mkAttr "r" "4"])) tt tt,
          [[]; []]).
Proof.
  apply (gap_rows_come_empty (fun _ => tt) None (fun c _ => Cell.V c) 1
           (mkRows 4 1 false [EndElement "row"]
              (Some (StartElement "row" [mkAttr "r" "4"])) tt tt) false).
  - unfold GoInt.MinInt. cbn. lia.
  - cbn. lia.
  - unfold GoInt.MaxInt. cbn. lia.
Defined.

End GapExamples.
